(** * CountingBoats: tiling, label parsing, clustering and condensation

    A shallow embedding of the numeric core of the CountingBoats pipeline
    ([counting_boats/utils/image_cutting_support.py] and
    [counting_boats/utils/classifier.py]) together with the properties of
    its specification.

    Conventions of the embedding.
    - Python [float] / [numpy.float64] values are modelled by the exact
      rationals [Q]; equality of floats is [Qeq] ([==]).  Rounding, NaN and
      the infinities are outside the model.
    - Python [int] values are modelled by [Z].
    - Python [str] values are modelled by [string]; the names and label
      files handled here are ASCII.
    - A Python exception is a value of [exn]; a function that may raise
      returns a [result].
    - A two-dimensional numpy array of detections is a list of rows. *)

From Stdlib Require Import ZArith QArith Qabs Bool List String Ascii Lia Lqa.
From Stdlib Require Import Permutation SetoidPermutation Morphisms Setoid.
From Stdlib Require DecimalString DecimalPos.
Import ListNotations.

(** * Part I: the embedding *)

(** ** Exceptions and results *)

Inductive exn : Type :=
| FileNotFoundError
| IndexError
| ValueError
| ZeroDivisionError
| Exception (msg : string).

Inductive result (A : Type) : Type :=
| Ok (a : A)
| Raise (e : exn).

Arguments Ok {A} a.
Arguments Raise {A} e.

Definition bind {A B : Type} (m : result A) (k : A -> result B) : result B :=
  match m with
  | Ok a => k a
  | Raise e => Raise e
  end.

Notation "x <- m ;; k" := (bind m (fun x => k))
  (at level 61, m at next level, right associativity).

(** [mapM f l]: run [f] on the elements of [l] from left to right and stop at
    the first exception. *)
Fixpoint mapM {A B : Type} (f : A -> result B) (l : list A) : result (list B) :=
  match l with
  | [] => Ok []
  | a :: l' => b <- f a ;; bs <- mapM f l' ;; Ok (b :: bs)
  end.

(** ** Coordinate mapping ([image_cutting_support.py]) *)

(** The six coefficients returned by GDAL's [GetGeoTransform], in the order
    in which [pixel2coord] unpacks them: [c, a, b, f, d, e]. *)
Record GeoTransform : Type := mkGeoTransform {
  gt_c : Q; gt_a : Q; gt_b : Q; gt_f : Q; gt_d : Q; gt_e : Q
}.

(** The literal [0.5]. *)
Definition half : Q := 5 # 10.

(** [pixel2coord]: pixel centre to projected coordinates. *)
Definition pixel2coord (x y : Q) (g : GeoTransform) : Q * Q :=
  let '(c, a, b, f, d, e) := (gt_c g, gt_a g, gt_b g, gt_f g, gt_d g, gt_e g) in
  let xp := a * x + b * y + a * half + b * half + c in
  let yp := d * x + e * y + d * half + e * half + f in
  (xp, yp).

(** [coord2pixel]: each of the two divisions raises [ZeroDivisionError] on a
    zero divisor, [xp] being computed first. *)
Definition coord2pixel (x y : Q) (g : GeoTransform) : result (Q * Q) :=
  let '(c, a, b, f, d, e) := (gt_c g, gt_a g, gt_b g, gt_f g, gt_d g, gt_e g) in
  if Qeq_bool a 0 then Raise ZeroDivisionError
  else
    let xp := (x - b * y - a * half - b * half - c) / a in
    if Qeq_bool e 0 then Raise ZeroDivisionError
    else
      let yp := (y - d * x - d * half - e * half - f) / e in
      Ok (xp, yp).

(** The determinant [a*e - b*d] of the linear part of a geotransform. *)
Definition determinant (g : GeoTransform) : Q :=
  gt_a g * gt_e g - gt_b g * gt_d g.

(** ** Tiling ([segment_image_for_classification]) *)

(** An opened image: its size and, for every pixel, whether
    [getpixel((x, y)) == (0, 0, 0)] holds. *)
Record Image : Type := mkImage {
  im_width : Z;
  im_height : Z;
  im_black : Z -> Z -> bool
}.

(** A tile that is cropped and saved as [<name>_<i>_<j>.png]. *)
Record Tile : Type := mkTile {
  tile_i : Z;
  tile_j : Z;
  tile_left : Z;
  tile_top : Z
}.

(** [range(0, n)]. *)
Definition py_range (n : Z) : list Z :=
  map Z.of_nat (seq 0 (Z.to_nat n)).

(** [range(0, n, 8)]. *)
Definition py_range8 (n : Z) : list Z :=
  map (fun k => 8 * Z.of_nat k)%Z (seq 0 (Z.to_nat ((n + 7) / 8))).

(** One [if getpixel(..) == (0, 0, 0)] test of the border scan: [total]
    always grows, [percentageEmpty] only on a black pixel. *)
Definition tally (acc : Z * Z) (black : bool) : Z * Z :=
  let '(percentageEmpty, total) := acc in
  if black then (percentageEmpty + 1, total + 1)%Z
  else (percentageEmpty, total + 1)%Z.

(** The loop [for f in range(0, tile_size - 1, 8)] over the four edges of
    the tile; returns [(percentageEmpty, total)]. *)
Definition border_counts (img : Image) (tile_size left top : Z) : Z * Z :=
  let right := (left + tile_size)%Z in
  let bottom := (top + tile_size)%Z in
  fold_left
    (fun acc f =>
       let acc := tally acc (im_black img (left + f) top)%Z in
       let acc := tally acc (im_black img left (top + f))%Z in
       let acc := tally acc (im_black img (right - 1) (top + f))%Z in
       tally acc (im_black img (left + f) (bottom - 1))%Z)
    (py_range8 (tile_size - 1)) (0, 0)%Z.

(** The body of the two nested loops for the tile in row [i], column [j]:
    [None] stands for [continue] (the tile is not saved).  The test
    [percentageEmpty / total > 0.93] is a comparison of exact fractions; it
    raises [ZeroDivisionError] when no border pixel was sampled. *)
Definition visit_tile (img : Image) (tile_size stride i j : Z)
  : result (option Tile) :=
  let left := (j * stride)%Z in
  let top := (i * stride)%Z in
  let '(percentageEmpty, total) := border_counts img tile_size left top in
  if (total =? 0)%Z then Raise ZeroDivisionError
  else if (93 * total <? 100 * percentageEmpty)%Z then Ok None
  else Ok (Some (mkTile i j left top)).

(** Number of iterations of the outer loop,
    [int(height / stride) - int(tile_size / stride)], and of the inner loop,
    [1 + int(width / stride) - int(tile_size / stride)].  Both divisions are
    exact when the loops are reached. *)
Definition n_rows (height tile_size stride : Z) : Z :=
  (height / stride - tile_size / stride)%Z.

Definition n_cols (width tile_size stride : Z) : Z :=
  (1 + width / stride - tile_size / stride)%Z.

Definition keep_saved (l : list (option Tile)) : list Tile :=
  flat_map (fun o => match o with Some t => [t] | None => [] end) l.

(** The progress message printed at the end of every row of tiles computes
    [i / ((height / stride) - 5)], a division of floats: it raises
    [ZeroDivisionError] when [height / stride] is five.  The text printed is
    not part of the model. *)
Definition print_progress (height stride i : Z) : result unit :=
  if Qeq_bool (inject_Z height / inject_Z stride - 5) 0
  then Raise ZeroDivisionError
  else Ok tt.

(** [segment_image_for_classification]: the tiles saved, in the order in
    which they are saved, or the exception raised. *)
Definition segment_image_for_classification
  (img : Image) (tile_size stride : Z) : result (list Tile) :=
  let width := im_width img in
  let height := im_height img in
  if (stride =? 0)%Z then Raise ZeroDivisionError
  else if negb (width mod stride =? 0)%Z || negb (height mod stride =? 0)%Z
  then Raise (Exception
    "The image is not exactly divisible by the desired size of subset images")
  else if negb (tile_size mod stride =? 0)%Z
  then Raise (Exception
    "The subset image size indicated is not divisible by the input overlap size")
  else
    rows <- mapM (fun i =>
                    row <- mapM (fun j => visit_tile img tile_size stride i j)
                                (py_range (n_cols width tile_size stride)) ;;
                    _ <- print_progress height stride i ;;
                    Ok row)
                 (py_range (n_rows height tile_size stride)) ;;
    Ok (keep_saved (List.concat rows)).

(** The rows and columns in which at least one tile was saved. *)
Definition saved_rows (tiles : list Tile) : list Z :=
  nodup Z.eq_dec (map tile_i tiles).

Definition saved_cols (tiles : list Tile) : list Z :=
  nodup Z.eq_dec (map tile_j tiles).

(** ** Python strings *)

Local Open Scope string_scope.

(** [s.split(sep)] for a non-empty separator.  [split_go sep skip s] returns
    the piece in progress and the pieces after it; [skip] counts the
    characters of a separator just matched that are still to be dropped. *)
Fixpoint split_go (sep : string) (skip : nat) (s : string)
  : string * list string :=
  match s with
  | EmptyString => (EmptyString, [])
  | String ch s' =>
      match skip with
      | S k => split_go sep k s'
      | O =>
          if prefix sep s
          then let '(p, ps) := split_go sep (String.length sep - 1)%nat s' in
               (EmptyString, p :: ps)
          else let '(p, ps) := split_go sep 0 s' in
               (String ch p, ps)
      end
  end.

Definition py_split (sep s : string) : list string :=
  let '(p, ps) := split_go sep 0 s in p :: ps.

(** [l[-1]] and [l[-2]]; an index out of range raises [IndexError]. *)
Definition neg_index {A : Type} (l : list A) (k : nat) : result A :=
  match nth_error (rev l) (k - 1)%nat with
  | Some a => Ok a
  | None => Raise IndexError
  end.

(** [os.path.basename]: what follows the last slash. *)
Definition basename (path : string) : string :=
  last (py_split "/" path) EmptyString.

(** [str.isspace] on ASCII: tab, line feed, vertical tab, form feed,
    carriage return, the four separators 28..31, and space. *)
Definition is_space (c : ascii) : bool :=
  let n := nat_of_ascii c in
  (((9 <=? n) && (n <=? 13)) || ((28 <=? n) && (n <=? 32)))%nat.

Fixpoint lstrip (s : string) : string :=
  match s with
  | EmptyString => EmptyString
  | String c s' => if is_space c then lstrip s' else s
  end.

Fixpoint rstrip (s : string) : string :=
  match s with
  | EmptyString => EmptyString
  | String c s' =>
      match rstrip s' with
      | EmptyString => if is_space c then EmptyString else String c EmptyString
      | r => String c r
      end
  end.

Definition strip (s : string) : string := lstrip (rstrip s).

Definition digit_of (c : ascii) : option Z :=
  let n := nat_of_ascii c in
  if ((48 <=? n) && (n <=? 57))%nat then Some (Z.of_nat (n - 48)) else None.

(** The value of a string of decimal digits, most significant first. *)
Fixpoint digits_acc (acc : Z) (s : string) : option Z :=
  match s with
  | EmptyString => Some acc
  | String c s' =>
      match digit_of c with
      | Some d => digits_acc (10 * acc + d) s'
      | None => None
      end
  end.

Definition digits_value (s : string) : option Z :=
  match s with
  | EmptyString => None
  | _ => digits_acc 0 s
  end.

(** The sign in front of a number: [(negative, rest)]. *)
Definition take_sign (s : string) : bool * string :=
  match s with
  | String "-" r => (true, r)
  | String "+" r => (false, r)
  | _ => (false, s)
  end.

(** [int(s)] on a string: surrounding white space, an optional sign and
    decimal digits; anything else raises [ValueError].  (Python also allows
    single underscores between digits; the strings converted here are pieces
    of a name split at the underscores and contain none.) *)
Definition py_int (s : string) : result Z :=
  let '(neg, body) := take_sign (strip s) in
  match digits_value body with
  | Some n => Ok (if neg then - n else n)%Z
  | None => Raise ValueError
  end.

(** The longest prefix of digits, and the rest. *)
Fixpoint span_digits (s : string) : string * string :=
  match s with
  | EmptyString => (EmptyString, EmptyString)
  | String c s' =>
      match digit_of c with
      | Some _ => let '(ds, r) := span_digits s' in (String c ds, r)
      | None => (EmptyString, s)
      end
  end.

(** The exponent part of a decimal literal: empty, or [e]/[E], an optional
    sign and digits. *)
Definition exponent_value (s : string) : option Z :=
  match s with
  | EmptyString => Some 0%Z
  | String c r =>
      if (Ascii.eqb c "e" || Ascii.eqb c "E")%bool
      then let '(neg, ds) := take_sign r in
           match digits_value ds with
           | Some n => Some (if neg then - n else n)%Z
           | None => None
           end
      else None
  end.

(** [10 ** k] as a rational. *)
Definition pow10 (k : Z) : Q := Qpower (10 # 1) k.

(** Conversion of a string to [float64] ([astype(np.float64)] on an array of
    strings): surrounding white space, a sign, digits with an optional
    fraction, an optional exponent; the value is the exact decimal.  Anything
    else raises [ValueError].  (The literals for the infinities and NaN have
    no rational value and are not represented.) *)
Definition py_float (s : string) : result Q :=
  let '(neg, body) := take_sign (strip s) in
  let '(ip, r1) := span_digits body in
  let '(fp, r2) :=
    match r1 with
    | String "." r => span_digits r
    | _ => (EmptyString, r1)
    end in
  match digits_value (ip ++ fp), exponent_value r2 with
  | Some m, Some e =>
      let v := inject_Z m * pow10 (e - Z.of_nat (String.length fp)) in
      Ok (if neg then - v else v)
  | _, _ => Raise ValueError
  end.

(** The line feed character. *)
Definition LF : string := String "010"%char EmptyString.

(** [[line.rstrip() for line in f]] on a text file with the given content
    (after the translation of line ends to line feeds): the file is cut after
    every line feed; a last line without line feed counts, an empty remainder
    does not. *)
Definition file_lines (content : string) : list string :=
  let pieces := py_split LF content in
  let pieces :=
    match last pieces EmptyString with
    | EmptyString => removelast pieces
    | _ => pieces
    end in
  map rstrip pieces.

(** The files that can be opened, with their text. *)
Definition FileSystem : Type := string -> option string.

(** [open(file)] followed by reading the lines. *)
Definition read_lines (fs : FileSystem) (file : string) : result (list string) :=
  match fs file with
  | Some content => Ok (file_lines content)
  | None => Raise FileNotFoundError
  end.

(** ** Detections ([classifier.py]) *)

(** One row of an array of classifications, columns
    [x, y, confidence, class, width, height]. *)
Record Row : Type := mkRow {
  row_x : Q;
  row_y : Q;
  row_conf : Q;
  row_class : Q;
  row_w : Q;
  row_h : Q
}.

(** A row that also carries the column of image names added by
    [process_tif]. *)
Record Boat : Type := mkBoat {
  boat_row : Row;
  boat_files : string
}.

(** *** Label files *)

(** [classification_file_info]: the name is taken apart before the file is
    opened. *)
Definition classification_file_info (STRIDE : Z) (fs : FileSystem) (file : string)
  : result (Z * Z * list string) :=
  let fname := basename file in
  let fname := py_split "_" (hd EmptyString (py_split ".txt" fname)) in
  r <- neg_index fname 2 ;;
  row <- py_int r ;;
  c <- neg_index fname 1 ;;
  col <- py_int c ;;
  let across := (col * STRIDE)%Z in
  let down := (row * STRIDE)%Z in
  lines <- read_lines fs file ;;
  Ok (across, down, lines).

(** [np.array(rows)] on a non-empty list of lists of strings: the rows must
    all have the length of the first one, which is [shape[1]]; a ragged list
    raises [ValueError]. *)
Definition np_array (rows : list (list string)) : result (nat * list (list string)) :=
  match rows with
  | [] => Ok (O, [])
  | r :: _ =>
      let k := List.length r in
      if forallb (fun r' => Nat.eqb (List.length r') k) rows
      then Ok (k, rows)
      else Raise ValueError
  end.

(** [a[:, k]] on one row. *)
Definition column (r : list string) (k : nat) : result string :=
  match nth_error r k with
  | Some s => Ok s
  | None => Raise IndexError
  end.

(** The column reordering, the conversion to floats and the scaling of
    [parse_classifications], on one row of fields
    [class, x, y, w, h, conf]. *)
Definition parse_row (TILE_SIZE across down : Z) (r : list string) : result Row :=
  sx <- column r 1 ;;
  sy <- column r 2 ;;
  sconf <- column r 5 ;;
  sclass <- column r 0 ;;
  sw <- column r 3 ;;
  sh <- column r 4 ;;
  xMid <- py_float sx ;;
  yMid <- py_float sy ;;
  conf <- py_float sconf ;;
  class <- py_float sclass ;;
  xWid <- py_float sw ;;
  yWid <- py_float sh ;;
  Ok (mkRow (xMid * inject_Z TILE_SIZE + inject_Z across)
            (yMid * inject_Z TILE_SIZE + inject_Z down)
            conf
            class
            (xWid * inject_Z TILE_SIZE)
            (yWid * inject_Z TILE_SIZE)).

(** [parse_classifications]. *)
Definition parse_classifications (TILE_SIZE STRIDE : Z) (fs : FileSystem)
  (file : string) : result (list Row) :=
  info <- classification_file_info STRIDE fs file ;;
  let '(across, down, lines) := info in
  match lines with
  | [] => Ok []
  | _ =>
      arr <- np_array (map (py_split " ") lines) ;;
      let '(ncols, classifications) := arr in
      (* if no confidence, add column of 1s *)
      let classifications :=
        if Nat.eqb ncols 5
        then map (fun r => (r ++ ["1.0"])%list) classifications
        else classifications in
      mapM (parse_row TILE_SIZE across down) classifications
  end.

(** *** Confidence threshold *)

(** The comparison [a < b] of two floats. *)
Definition Qlt_bool (a b : Q) : bool :=
  (Qnum a * QDen b <? Qnum b * QDen a)%Z.

(** A float that may be NaN.  The other floats are read as exact rationals
    (the infinities, which compare like numbers, are not represented). *)
Inductive float64 : Type :=
| Finite (q : Q)
| NaN.

(** [a < b] and [a >= b] on floats: a comparison with NaN is false. *)
Definition float_lt (a b : float64) : bool :=
  match a, b with
  | Finite x, Finite y => Qlt_bool x y
  | _, _ => false
  end.

Definition float_ge (a b : float64) : bool :=
  match a, b with
  | Finite x, Finite y => Qle_bool y x
  | _, _ => false
  end.

(** An array of classifications: the one-dimensional empty array
    [np.array([])] that stands for no detection, or a two-dimensional array
    given by its rows. *)
Inductive ndarray (A : Type) : Type :=
| Empty1D
| Rows (rows : list A).

Arguments Empty1D {A}.
Arguments Rows {A} rows.

(** The confidence of a parsed row as a float. *)
Definition row_conf64 (r : Row) : float64 := Finite (row_conf r).

(** [remove_low_confidence]: boolean masks on the confidence column, which
    [conf] reads from a row.  The index [[:, 2]] raises [IndexError] on a
    one-dimensional array. *)
Definition remove_low_confidence {A : Type} (conf : A -> float64)
  (classifications : ndarray A) (confidence_threshold : float64)
  : result (list A * list A) :=
  match classifications with
  | Empty1D => Raise IndexError
  | Rows rows =>
      let low_confidence :=
        filter (fun r => float_lt (conf r) confidence_threshold) rows in
      let classifications :=
        filter (fun r => float_ge (conf r) confidence_threshold) rows in
      Ok (classifications, low_confidence)
  end.

(** *** Clustering *)

(** Sum of a list of floats. *)
Definition Qsum (l : list Q) : Q := fold_right Qplus 0 l.

(** Square root of a float: the exact root of a rational square, and the
    root truncated after fifteen decimal places otherwise. *)
Definition Qsqrt (q : Q) : Q :=
  let r := Qred q in
  let scale := (10 ^ 15)%positive in
  Z.sqrt (Qnum r * Zpos (Qden r) * Zpos (scale * scale)) # (Qden r * scale).

(** The Euclidean distance of two points. *)
Definition euclidean (p q : Q * Q) : Q :=
  Qsqrt ((fst p - fst q) * (fst p - fst q) + (snd p - snd q) * (snd p - snd q)).

(** [scipy.spatial.distance.pdist(points, metric='euclidean')]: the condensed
    distance matrix.  The entries are kept one list per observation [i],
    which holds the distances to the observations [j > i] in order. *)
Fixpoint pdist (points : list (Q * Q)) : list (list Q) :=
  match points with
  | [] => []
  | p :: ps => map (euclidean p) ps :: pdist ps
  end.

(** The entry of a condensed matrix for two distinct observations. *)
Definition condensed (d : list (list Q)) (i j : nat) : Q :=
  let lo := Nat.min i j in
  let hi := Nat.max i j in
  nth (hi - lo - 1)%nat (nth lo d []) 0.

(** A cluster under construction: the indices of its observations. *)
Definition Cluster : Type := list nat.

(** Average linkage: the mean of the distances between the members of two
    clusters. *)
Definition average (d : list (list Q)) (A B : Cluster) : Q :=
  Qsum (flat_map (fun i => map (fun j => condensed d i j) B) A)
  / inject_Z (Z.of_nat (List.length A * List.length B)).

(** Every element of a list together with the others. *)
Fixpoint select {T : Type} (l : list T) : list (T * list T) :=
  match l with
  | [] => []
  | a :: l' => (a, l') :: map (fun '(b, r) => (b, a :: r)) (select l')
  end.

(** A pair of clusters that may be merged next, and the clusters left. *)
Definition Candidate : Type := Cluster * Cluster * list Cluster.

(** The unordered pairs of a list of clusters, in scanning order. *)
Fixpoint candidates (S : list Cluster) : list Candidate :=
  match S with
  | [] => []
  | A :: S' =>
      (map (fun '(B, R) => (A, B, R)) (select S')
       ++ map (fun '(X, Y, R) => (X, Y, A :: R)) (candidates S'))%list
  end.

Definition linkage_distance (d : list (list Q)) (c : Candidate) : Q :=
  let '(A, B, _) := c in average d A B.

(** The first element at which [v] is least. *)
Fixpoint argmin {T : Type} (v : T -> Q) (l : list T) : option T :=
  match l with
  | [] => None
  | c :: l' =>
      match argmin v l' with
      | None => Some c
      | Some c' => if Qle_bool (v c) (v c') then Some c else Some c'
      end
  end.

(** Agglomeration: as long as the two closest clusters are at most [t]
    apart, they are merged. *)
Fixpoint agglomerate (fuel : nat) (d : list (list Q)) (t : Q)
  (S : list Cluster) : list Cluster :=
  match fuel with
  | O => S
  | S fuel' =>
      match argmin (linkage_distance d) (candidates S) with
      | None => S
      | Some (A, B, R) =>
          if Qle_bool (average d A B) t
          then agglomerate fuel' d t ((A ++ B)%list :: R)
          else S
      end
  end.

(** The position, counted from one, of the first cluster that holds
    observation [i]. *)
Fixpoint cluster_id (S : list Cluster) (i : nat) : Z :=
  match S with
  | [] => 1
  | C :: S' => if existsb (Nat.eqb i) C then 1 else (1 + cluster_id S' i)
  end%Z.

(** [scipy.cluster.hierarchy.linkage(distances, 'average')] followed by
    [scipy.cluster.hierarchy.fcluster(clustering, t, criterion='distance')]
    on [n] observations, following the documentation of scipy: clusters are
    merged by increasing average distance, and the flat clusters are the
    clusters reached when the next merge would exceed [t].  The model numbers
    the flat clusters in its own order; scipy's numbering is not modelled. *)
Definition linkage_fcluster (n : nat) (distances : list (list Q)) (t : Q)
  : list Z :=
  let singletons := map (fun i => [i]) (seq 0 n) in
  let flat := agglomerate n distances t singletons in
  map (cluster_id flat) (seq 0 n).

(** [cluster]: the rows, each with its cluster number as a new last column.
    [xy] reads the columns 0 and 1 of a row. *)
Definition cluster {A : Type} (xy : A -> Q * Q) (classifications : list A)
  (cutoff : Q) : list (A * Z) :=
  match classifications with
  | [] => []
  | [c] => [(c, 1%Z)]
  | _ =>
      let points := map xy classifications in
      let distances := pdist points in
      let clusters := linkage_fcluster (List.length points) distances cutoff in
      combine classifications clusters
  end.

Definition row_xy (r : Row) : Q * Q := (row_x r, row_y r).

Definition boat_xy (b : Boat) : Q * Q := row_xy (boat_row b).

(** *** Condensation *)

(** [np.mean] of a column. *)
Definition np_mean (l : list Q) : Q :=
  Qsum l / inject_Z (Z.of_nat (List.length l)).

Definition Qmax2 (a b : Q) : Q := if Qle_bool a b then b else a.

(** [np.max] of a column; an empty column raises [ValueError]. *)
Definition np_max (l : list Q) : result Q :=
  match l with
  | [] => Raise ValueError
  | a :: l' => Ok (fold_left Qmax2 l' a)
  end.

(** Number of occurrences of a value in a column. *)
Definition occurrences (v : Q) (l : list Q) : nat :=
  List.length (filter (Qeq_bool v) l).

(** [a] is a better mode than [b]: it occurs more often, or as often and is
    smaller. *)
Definition better_mode (l : list Q) (a b : Q) : bool :=
  (occurrences b l <? occurrences a l)%nat
  || ((occurrences a l =? occurrences b l)%nat && Qlt_bool a b).

(** [scipy.stats.mode(column)[0]], following the documentation of scipy: the
    most common value, and the smallest one if several are as common. *)
Definition stats_mode (l : list Q) : Q :=
  match l with
  | [] => 0
  | a :: l' => fold_left (fun best v => if better_mode l v best then v else best) l' a
  end.

(** [condense] on a cluster without a column of names. *)
Definition condense (cluster : list Row) : result Row :=
  let thisBoatMean :=
    mkRow (np_mean (map row_x cluster)) (np_mean (map row_y cluster))
          (np_mean (map row_conf cluster)) (np_mean (map row_class cluster))
          (np_mean (map row_w cluster)) (np_mean (map row_h cluster)) in
  maxConf <- np_max (map row_conf cluster) ;;
  Ok (mkRow (row_x thisBoatMean) (row_y thisBoatMean)
            maxConf
            (stats_mode (map row_class cluster))
            (row_w thisBoatMean) (row_h thisBoatMean)).

(** Insertion into a sorted list without duplicates. *)
Fixpoint insert_unique (s : string) (l : list string) : list string :=
  match l with
  | [] => [s]
  | h :: t =>
      if String.eqb s h then l
      else if String.ltb s h then s :: l
      else h :: insert_unique s t
  end.

(** [np.unique] on strings: sorted, without duplicates. *)
Definition np_unique (l : list string) : list string :=
  fold_right insert_unique [] l.

(** [condense] on a cluster with a column of names (eight columns with the
    cluster number): the names are made unique and joined by spaces. *)
Definition condense_named (cluster : list Boat) : result Boat :=
  thisBoatMean <- condense (map boat_row cluster) ;;
  let files := np_unique (map boat_files cluster) in
  Ok (mkBoat thisBoatMean (String.concat " " files)).

(** [str(i)] for an integer. *)
Definition py_str (i : Z) : string := DecimalString.NilZero.string_of_int (Z.to_int i).

(** [process_clusters]: one condensed row per cluster number.  [unique]
    lists the distinct cluster numbers in the order of [np.unique]. *)
Definition process_clusters_with {A : Type} (cond : list A -> result A)
  (unique : list Z -> list Z) (classifications_with_clusters : list (A * Z))
  : result (list A) :=
  mapM (fun i =>
          cond (map fst (filter (fun rc => Z.eqb (snd rc) i)
                                classifications_with_clusters)))
       (unique (map snd classifications_with_clusters)).

(** Insertion into a sorted list of integers without duplicates, ordered by
    [lt]. *)
Fixpoint insert_unique_by (lt : Z -> Z -> bool) (i : Z) (l : list Z) : list Z :=
  match l with
  | [] => [i]
  | h :: t =>
      if Z.eqb i h then l
      else if lt i h then i :: l
      else h :: insert_unique_by lt i t
  end.

(** On an array of floats the cluster numbers are sorted as numbers. *)
Definition process_clusters (classifications_with_clusters : list (Row * Z))
  : result (list Row) :=
  process_clusters_with condense
    (fold_right (insert_unique_by Z.ltb) [])
    classifications_with_clusters.

(** On an array with a column of names every entry is a string, and the
    cluster numbers are sorted as strings. *)
Definition process_clusters_named (classifications_with_clusters : list (Boat * Z))
  : result (list Boat) :=
  process_clusters_with condense_named
    (fold_right (insert_unique_by (fun a b => String.ltb (py_str a) (py_str b))) [])
    classifications_with_clusters.

(** ** Day batches *)

(** [get_date_from_filename]. *)
Definition get_date_from_filename (filename : string) : option string :=
  let str_date := hd EmptyString (py_split "_" filename) in
  if negb (Nat.eqb (String.length str_date) 8) then None
  else
    let year := substring 0 4 str_date in
    let month := substring 4 2 str_date in
    let day := substring 6 2 str_date in
    Some (day ++ "/" ++ month ++ "/" ++ year).

Definition option_string_dec (a b : option string) : {a = b} + {a <> b}.
Proof. decide equality. apply string_dec. Defined.

Definition same_date (a b : option string) : bool :=
  if option_string_dec a b then true else false.

(** The set [days] of [classify_directory] after [days.discard(None)], as a
    list without duplicates.  (Python iterates over a set in an order of its
    own; nothing below depends on the order.) *)
Definition days_of (listing : list string) : list (option string) :=
  remove option_string_dec None
    (nodup option_string_dec (map get_date_from_filename listing)).

(** The generator [daily_data]: for every day, the files of that day. *)
Definition daily_data (listing : list string)
  : list (list string * option string) :=
  map (fun day =>
         (filter (fun file => same_date (get_date_from_filename file) day) listing,
          day))
      (days_of listing).

(** [enumerate]. *)
Definition enumerate {A : Type} (l : list A) : list (nat * A) :=
  combine (seq 0 (List.length l)) l.

(** One call [process_day(files, ..., day, i, n_days)]. *)
Record DayCall : Type := mkDayCall {
  call_files : list string;
  call_day : option string;
  call_i : nat;
  call_n_days : nat
}.

(** [classify_directory]: the calls of [process_day] it makes, in order, for
    a directory whose listing is [listing]. *)
Definition classify_directory (listing : list string) : list DayCall :=
  let days := days_of listing in
  map (fun '(i, (files, day)) => mkDayCall files day i (List.length days))
      (enumerate (daily_data listing)).

(** [zip] applied to the unpacked list of pairs: the two tuples of first and
    of second components; there is nothing to unpack when the list is
    empty. *)
Definition py_unzip {A B : Type} (pairs : list (A * B)) : result (list A * list B) :=
  match pairs with
  | [] => Raise ValueError
  | _ => Ok (map fst pairs, map snd pairs)
  end.

(** [t[0]]. *)
Definition index0 {A : Type} (t : list A) : result A :=
  match t with
  | a :: _ => Ok a
  | [] => Raise IndexError
  end.

Section ProcessDay.

(** [process_tif] runs the detector on one raster and returns its condensed
    static and moving boats, each with the name of the raster. *)
Variable process_tif : string -> list Boat * list Boat.

(** [cfg["STAT_DISTANCE_CUTOFF_LATLONG"]] and
    [cfg["MOVING_DISTANCE_CUTOFF_LATLONG"]]. *)
Variable STAT_DISTANCE_CUTOFF_LATLONG : Q.
Variable MOVING_DISTANCE_CUTOFF_LATLONG : Q.

(** The first half of [process_day]: the two arrays that are handed to
    [cluster] once the rasters of the day have been processed. *)
Definition day_cluster_inputs (files : list string)
  : result (list Boat * list Boat) :=
  unzipped <- py_unzip (map process_tif files) ;;
  let '(all_static_boats, all_moving_boats) := unzipped in
  all_static_boats <- index0 all_static_boats ;;
  all_moving_boats <- index0 all_moving_boats ;;
  Ok (all_static_boats, all_moving_boats).

(** [process_day].  The message printed first, which divides [i] by
    [n_days], and the day, which is handed back unchanged, are not part of
    the model. *)
Definition process_day (files : list string) : result (list Boat * list Boat) :=
  inputs <- day_cluster_inputs files ;;
  let '(all_static_boats, all_moving_boats) := inputs in
  let static_boats :=
    cluster boat_xy all_static_boats STAT_DISTANCE_CUTOFF_LATLONG in
  let moving_boats :=
    cluster boat_xy all_moving_boats MOVING_DISTANCE_CUTOFF_LATLONG in
  static_boats <- process_clusters_named static_boats ;;
  moving_boats <- process_clusters_named moving_boats ;;
  Ok (static_boats, moving_boats).

End ProcessDay.

(** ** Padding ([image_cutting_support.py]) *)

(** [l[k]] for a non-negative index; an index out of range raises
    [IndexError]. *)
Definition py_index {A : Type} (l : list A) (k : nat) : result A :=
  match nth_error l k with
  | Some a => Ok a
  | None => Raise IndexError
  end.

(** [math.ceil(a / b)] and [math.floor(a / b)] for integers [a] and [b],
    [b] not zero, as exact quotients. *)
Definition ceil_div (a b : Z) : Z := (- ((- a) / b))%Z.

Definition floor_div (a b : Z) : Z := (a / b)%Z.

(** [add_margin] with the colour [(0, 0, 0)], for margins that are not
    negative: a new image filled with black, with [pil_img] pasted at
    [(left, top)]. *)
Definition add_margin (pil_img : Image) (left right top bottom : Z) : Image :=
  let width := im_width pil_img in
  let height := im_height pil_img in
  let new_width := (width + right + left)%Z in
  let new_height := (height + top + bottom)%Z in
  mkImage new_width new_height
    (fun x y =>
       if ((left <=? x) && (x <? left + width)
           && (top <=? y) && (y <? top + height))%Z
       then im_black pil_img (x - left) (y - top)
       else true).

(** The padding part of [create_padded_png], applied to the colour corrected
    image: the image is padded to multiples of [stride], the remainder split
    between opposite edges, and by [tile_size - stride] more on every edge.
    The division by [stride] raises [ZeroDivisionError] when it is zero. *)
Definition create_padded_png (colourImage : Image) (tile_size stride : Z)
  : result Image :=
  let width := im_width colourImage in
  let height := im_height colourImage in
  let subImageSize := tile_size in
  let overlapAmount := stride in
  let pad := (subImageSize - overlapAmount)%Z in
  if (stride =? 0)%Z then Raise ZeroDivisionError
  else
    let widthPadding := (ceil_div width stride * stride - width)%Z in
    let heightPadding := (ceil_div height stride * stride - height)%Z in
    let leftPad := floor_div widthPadding 2 in
    let rightPad := ceil_div widthPadding 2 in
    let topPad := floor_div heightPadding 2 in
    let bottomPad := ceil_div heightPadding 2 in
    Ok (add_margin colourImage (pad + leftPad) (pad + rightPad)
                   (pad + topPad) (pad + bottomPad))%Z.

(** The two conversions at the start of [get_required_padding]: the third
    line of the text printed by [gdal.Info] is cut at the comma, the height
    is what follows it, the width the third word before it. *)
Definition metadata_size (metadata : string) : result (Z * Z) :=
  let metadata_components := py_split LF metadata in
  line <- py_index metadata_components 2 ;;
  hs <- py_index (py_split "," line) 1 ;;
  height <- py_int hs ;;
  ws <- py_index (py_split "," line) 0 ;;
  ws <- py_index (py_split " " ws) 2 ;;
  width <- py_int ws ;;
  Ok (width, height).

(** [get_required_padding], on the text printed by [gdal.Info] for the
    file: the margins [(left, right, top, bottom)]. *)
Definition get_required_padding (metadata : string) (tilesize stride : Z)
  : result (Z * Z * Z * Z) :=
  size <- metadata_size metadata ;;
  let '(width, height) := size in
  let pad := (tilesize - stride)%Z in
  if (stride =? 0)%Z then Raise ZeroDivisionError
  else
    let widthPadding := (ceil_div width stride * stride - width)%Z in
    let heightPadding := (ceil_div height stride * stride - height)%Z in
    let leftPad := floor_div widthPadding 2 in
    let rightPad := ceil_div widthPadding 2 in
    let topPad := floor_div heightPadding 2 in
    let bottomPad := ceil_div heightPadding 2 in
    Ok (leftPad + pad, rightPad + pad, topPad + pad, bottomPad + pad)%Z.

(** [metadata_get_w_h]: the size read from the first component that starts
    with [Size]; the function returns [None] when there is none. *)
Fixpoint metadata_get_w_h (metadata_components : list string)
  : result (option (Z * Z)) :=
  match metadata_components with
  | [] => Ok None
  | component :: rest =>
      if String.eqb (substring 0 4 component) "Size"
      then
        ws <- py_index (py_split " " component) 2 ;;
        w <- py_index (py_split "," ws) 0 ;;
        width <- py_int w ;;
        hs <- py_index (py_split " " component) 3 ;;
        height <- py_int hs ;;
        Ok (Some (width, height))
      else metadata_get_w_h rest
  end.


(** ** Reading the label files ([read_classifications]) *)

(** [sub in s] for strings. *)
Fixpoint contains (sub s : string) : bool :=
  match s with
  | EmptyString => prefix sub EmptyString
  | String _ s' => prefix sub s || contains sub s'
  end.

Fixpoint ends_with_slash (s : string) : bool :=
  match s with
  | EmptyString => false
  | String c EmptyString => Ascii.eqb c "/"
  | String _ s' => ends_with_slash s'
  end.

(** [os.path.join(a, b)] on POSIX: an absolute [b] replaces [a]; otherwise
    one slash separates the two unless [a] is empty or ends with one. *)
Definition path_join (a b : string) : string :=
  if prefix "/" b then b
  else if String.eqb a "" || ends_with_slash a then a ++ b
  else a ++ "/" ++ b.

(** The directories that can be listed, with their entries, and the files
    that can be opened, with their text. *)
Record Disk : Type := mkDisk {
  disk_files : FileSystem;
  disk_listdir : string -> option (list string)
}.

(** [os.listdir]. *)
Definition listdir (disk : Disk) (path : string) : result (list string) :=
  match disk_listdir disk path with
  | Some names => Ok names
  | None => Raise FileNotFoundError
  end.

(** [max] of a list of integers; an empty list raises [ValueError]. *)
Definition py_max (l : list Z) : result Z :=
  match l with
  | [] => Raise ValueError
  | a :: l' => Ok (fold_left Z.max l' a)
  end.

(** [int(f.split("exp")[1]) if f != "exp" else 0]. *)
Definition exp_number (f : string) : result Z :=
  if String.eqb f "exp" then Ok 0%Z
  else
    s <- py_index (py_split "exp" f) 1 ;;
    py_int s.

(** [os.path.join(yolo_dir, "runs", "detect")]. *)
Definition detect_dir (yolo_dir : string) : string :=
  path_join (path_join yolo_dir "runs") "detect".

(** The text [latest_exp] put after [exp] in the name of the folder of the
    latest detection: the highest number among the entries of
    [runs/detect] whose name contains [exp], or nothing when it is zero. *)
Definition latest_exp (disk : Disk) (yolo_dir : string) : result string :=
  names <- listdir disk (detect_dir yolo_dir) ;;
  exps <- mapM exp_number (filter (contains "exp") names) ;;
  m <- py_max exps ;;
  Ok (if (m =? 0)%Z then EmptyString else py_str m).

(** Where the label files are read from: a folder given by the caller, or
    the latest detection of yolo.  (A call with neither fails an assertion;
    a call with a folder ignores [yolo_dir].) *)
Inductive Source : Type :=
| ClassFolder (class_folder : string)
| LatestDetection (yolo_dir : string).

(** The folder of the label files, and [latest_exp] when it was looked
    for. *)
Definition classification_path (disk : Disk) (source : Source)
  : result (string * option string) :=
  match source with
  | LatestDetection yolo_dir =>
      latest <- latest_exp disk yolo_dir ;;
      Ok (path_join (path_join (detect_dir yolo_dir) ("exp" ++ latest)) "labels",
          Some latest)
  | ClassFolder class_folder => Ok (class_folder, None)
  end.

(** [read_classifications]: the classifications kept, those of low
    confidence, and the folder handed to [remove], if any. *)
Definition read_classifications (TILE_SIZE STRIDE : Z) (disk : Disk)
  (source : Source) (confidence_threshold : Q) (delete_folder : bool)
  : result (list Row * list Row * option string) :=
  loc <- classification_path disk source ;;
  let '(path, latest) := loc in
  names <- listdir disk path ;;
  all_cs <- mapM (fun file =>
                    parse_classifications TILE_SIZE STRIDE (disk_files disk)
                                          (path_join path file))
                 (filter (fun file => negb (contains "DS" file)) names) ;;
  let all_cs := filter (fun cs => negb (Nat.eqb (List.length cs) 0)) all_cs in
  match all_cs with
  | [] => Ok ([], [], None)
  | _ =>
      let all_cs := List.concat all_cs in
      split <- remove_low_confidence row_conf64 (Rows all_cs)
                                     (Finite confidence_threshold) ;;
      let '(classifications, low_confidence) := split in
      let removed :=
        match source, latest with
        | LatestDetection yolo_dir, Some latest =>
            if delete_folder
            then Some (path_join (detect_dir yolo_dir) ("exp" ++ latest))
            else None
        | _, _ => None
        end in
      Ok (classifications, low_confidence, removed)
  end.

(** ** Corner coordinates ([get_cartesian_top_left] and its siblings) *)

(** The double quote. *)
Definition dquote : ascii := ascii_of_nat 34.

Definition DQUOTE : string := String dquote EmptyString.

(** [s[0:-1]]. *)
Fixpoint drop_last (s : string) : string :=
  match s with
  | EmptyString => EmptyString
  | String c EmptyString => EmptyString
  | String c s' => String c (drop_last s')
  end.

(** [a, b = l]: a list of another length raises [ValueError]. *)
Definition unpack2 {A : Type} (l : list A) : result (A * A) :=
  match l with
  | [a; b] => Ok (a, b)
  | _ => Raise ValueError
  end.

(** The body of the loop of [get_cartesian_top_left] for a component that
    passed the test: the text between the last parenthesis and the last
    character is cut into the longitude and the latitude, each of them into
    degrees, minutes, seconds and a direction. *)
Definition corner_of_component (component : string) : result (Q * Q) :=
  piece <- neg_index (py_split "(" component) 1 ;;
  pair <- unpack2 (py_split ", " (drop_last piece)) ;;
  let '(longdms, latdms) := pair in
  longd <- py_index (py_split "d" longdms) 0 ;;
  t <- py_index (py_split "d" longdms) 1 ;;
  longm <- py_index (py_split "'" t) 0 ;;
  t <- py_index (py_split DQUOTE longdms) 0 ;;
  longs <- py_index (py_split "'" t) 1 ;;
  longdirec <- py_index (py_split DQUOTE longdms) 1 ;;
  latd <- py_index (py_split "d" latdms) 0 ;;
  t <- py_index (py_split "d" latdms) 1 ;;
  latm <- py_index (py_split "'" t) 0 ;;
  t <- py_index (py_split DQUOTE latdms) 0 ;;
  lats <- py_index (py_split "'" t) 1 ;;
  latdirec <- py_index (py_split DQUOTE latdms) 1 ;;
  d <- py_int longd ;;
  m <- py_int longm ;;
  s <- py_float longs ;;
  let long := (inject_Z (d * 60 * 60 + m * 60) + s) / inject_Z (60 * 60) in
  d <- py_int latd ;;
  m <- py_int latm ;;
  s <- py_float lats ;;
  let lat := (inject_Z (d * 60 * 60 + m * 60) + s) / inject_Z (60 * 60) in
  let long := if String.eqb longdirec "S" then long * -1 else long in
  let lat := if String.eqb latdirec "W" then lat * -1 else lat in
  Ok (long, lat).

(** The loop shared by the four functions: the first component longer than
    20 characters whose first [n] characters are [corner] is converted; the
    exception with [msg] is raised when there is none. *)
Fixpoint get_cartesian_corner (corner : string) (n : nat) (msg : string)
  (metadata_components : list string) : result (Q * Q) :=
  match metadata_components with
  | [] => Raise (Exception msg)
  | component :: rest =>
      if (20 <? String.length component)%nat
         && String.eqb (substring 0 n component) corner
      then corner_of_component component
      else get_cartesian_corner corner n msg rest
  end.

Definition get_cartesian_top_left : list string -> result (Q * Q) :=
  get_cartesian_corner "Upper Left" 10
    "The top left corner coordinates do not exist in the metadata".

Definition get_cartesian_top_right : list string -> result (Q * Q) :=
  get_cartesian_corner "Upper Right" 11
    "The top right corner coordinates do not exist in the metadata".

Definition get_cartesian_bottom_left : list string -> result (Q * Q) :=
  get_cartesian_corner "Lower Left" 10
    "The bottom left corner coordinates do not exist in the metadata".

Definition get_cartesian_bottom_right : list string -> result (Q * Q) :=
  get_cartesian_corner "Lower Right" 11
    "The bottom right corner coordinates do not exist in the metadata".

(** * Part II: vocabulary of the properties *)

(** ** Coordinate mapping *)

(** A geotransform with a shear term: [c = 0, a = 1, b = 1, f = 0, d = 0,
    e = 1]; its determinant is 1. *)
Definition sheared : GeoTransform := mkGeoTransform 0 1 1 0 0 1.

(** ** Tiling *)

(** The tiles of a grid of [rows] by [cols], row by row, each row from left
    to right. *)
Definition row_major (rows cols stride : Z) : list Tile :=
  flat_map (fun i => map (fun j => mkTile i j (j * stride) (i * stride))
                         (py_range cols))
           (py_range rows).

(** A padded raster of 832 by 832 pixels without black pixels. *)
Definition clear_832 : Image := mkImage 832 832 (fun _ _ => false).

(** ** Day batches *)

(** Two rasters of one day with one static boat each. *)
Definition boat_a : Boat :=
  mkBoat (mkRow 153 (-27) (9 # 10) 0 10 10) "20230101_a.tif".

Definition boat_b : Boat :=
  mkBoat (mkRow 154 (-28) (8 # 10) 0 12 12) "20230101_b.tif".

Definition two_rasters (file : string) : list Boat * list Boat :=
  if String.eqb file "20230101_a.tif" then ([boat_a], [])
  else if String.eqb file "20230101_b.tif" then ([boat_b], [])
  else ([], []).

(** ** Confidence threshold *)

(** [Interleave a b l]: [l] is made of the elements of [a] and of [b], each
    used once, those of [a] in the order of [a] and those of [b] in the
    order of [b]. *)
Inductive Interleave {A : Type} : list A -> list A -> list A -> Prop :=
| Interleave_nil : Interleave [] [] []
| Interleave_left (a : A) (l1 l2 l : list A) :
    Interleave l1 l2 l -> Interleave (a :: l1) l2 (a :: l)
| Interleave_right (a : A) (l1 l2 l : list A) :
    Interleave l1 l2 l -> Interleave l1 (a :: l2) (a :: l).

(** The order of two floats that are numbers; nothing is ordered with
    NaN. *)
Definition float_le (a b : float64) : Prop :=
  match a, b with
  | Finite x, Finite y => x <= y
  | _, _ => False
  end.

Definition float_less (a b : float64) : Prop :=
  match a, b with
  | Finite x, Finite y => x < y
  | _, _ => False
  end.

Definition float_equal (a b : float64) : Prop :=
  match a, b with
  | Finite x, Finite y => x == y
  | _, _ => False
  end.

(** A row given by the list of its entries, and its entry in column 2. *)
Definition entry2 (row : list float64) : float64 := nth 2 row NaN.

(** Two detections, the second with a confidence that is NaN. *)
Definition row_certain : list float64 :=
  [Finite 10; Finite 10; Finite (9 # 10); Finite 0; Finite 4; Finite 4].

Definition row_nan : list float64 :=
  [Finite 20; Finite 20; NaN; Finite 0; Finite 4; Finite 4].

(** ** Label files *)

(** [s] does not contain the character [c]. *)
Fixpoint no_char (c : ascii) (s : string) : bool :=
  match s with
  | EmptyString => true
  | String a s' => negb (Ascii.eqb a c) && no_char c s'
  end.

(** [file] is a label file named [<image>_<rs>_<cs>.txt], where the image
    name has no dot (tiles are named after [basename.split('.')[0]]) and
    [rs], [cs] are the texts of the row and of the column. *)
Definition label_name (file image rs cs : string) : Prop :=
  basename file = (image ++ "_" ++ rs ++ "_" ++ cs ++ ".txt")%string /\
  no_char "." image = true /\
  no_char "_" rs = true /\ no_char "." rs = true /\
  no_char "_" cs = true /\ no_char "." cs = true.

(** The row and the column that [classification_file_info] reads from the
    name of a file before it opens the file: the base name is cut at its
    first [.txt] and split at the underscores, and the last two pieces are
    converted to integers. *)
Definition name_row_col (file : string) : result (Z * Z) :=
  let fname := basename file in
  let fname := py_split "_" (hd EmptyString (py_split ".txt" fname)) in
  r <- neg_index fname 2 ;;
  row <- py_int r ;;
  c <- neg_index fname 1 ;;
  col <- py_int c ;;
  Ok (row, col).

(** A file system with a single file. *)
Definition one_file (name content : string) : FileSystem :=
  fun path => if String.eqb path name then Some content else None.

(** A file system without files. *)
Definition no_files : FileSystem := fun _ => None.

(** ** Malformed label lines *)

(** The label file [img_0_1.txt] of the counterexample: a detection followed
    by a line of one field. *)
Definition one_bad_line : string :=
  ("0 0.5 0.5 0.2 0.2 0.8" ++ LF ++ "oops" ++ LF)%string.

(** ** Tile offsets of parsed detections *)





(** ** Condensation *)

(** [a] is at least as good a mode of [l] as [b]. *)
Definition mode_pref (l : list Q) (a b : Q) : Prop :=
  (occurrences b l < occurrences a l)%nat \/
  (occurrences a l = occurrences b l /\ a <= b).

(** The two detections of the scenario of the specification. *)
Definition scenario_cluster : list Row :=
  [mkRow 100 100 (6 # 10) 0 4 4; mkRow 103 101 (9 # 10) 0 6 6].

(** ** Clustering *)

(** *** Lists of clusters up to order *)

(** Two lists of clusters that hold the same clusters: the order of the
    clusters, and of the members within a cluster, is immaterial. *)
Definition sim : list Cluster -> list Cluster -> Prop :=
  PermutationA (@Permutation nat).

(** Two candidates that propose to merge the same two clusters. *)
Definition cand_sim (c c' : Candidate) : Prop :=
  let '(A, B, R) := c in
  let '(A', B', R') := c' in
  ((Permutation A A' /\ Permutation B B') \/
   (Permutation A B' /\ Permutation B A')) /\
  sim R R'.

(** *** Closest pair *)

Definition candidate_dec (c c' : Candidate) : {c = c'} + {c <> c'}.
Proof. repeat decide equality. Defined.

(** The closest pair of clusters of [S] is unique: every other candidate is
    strictly farther apart. *)
Definition unique_closest (d : list (list Q)) (S : list Cluster) : bool :=
  match argmin (linkage_distance d) (candidates S) with
  | None => true
  | Some c =>
      forallb (fun c' =>
                 if candidate_dec c' c then true
                 else Qlt_bool (linkage_distance d c) (linkage_distance d c'))
              (candidates S)
  end.

(** No tie occurs during the agglomeration: at every step that merges two
    clusters, the closest pair is unique. *)
Fixpoint tie_free (fuel : nat) (d : list (list Q)) (t : Q) (S : list Cluster)
  : bool :=
  match fuel with
  | O => true
  | S fuel' =>
      match argmin (linkage_distance d) (candidates S) with
      | None => true
      | Some (A, B, R) =>
          if Qle_bool (average d A B) t
          then unique_closest d S && tie_free fuel' d t ((A ++ B)%list :: R)
          else true
      end
  end.

(** *** Relabelling the observations *)

(** A candidate with every index replaced by its image under [s]. *)
Definition relabel (s : nat -> nat) (c : Candidate) : Candidate :=
  let '(A, B, R) := c in (map s A, map s B, map (map s) R).

(** The list of clusters [S] is a partition of the observations [0..n-1]. *)
Definition partitions (n : nat) (S : list Cluster) : Prop :=
  Permutation (List.concat S) (seq 0 n).

(** *** Cluster numbers and partitions *)

(** Observations [i] and [j] lie in one cluster of [S]. *)
Definition same_cluster (S : list Cluster) (i j : nat) : Prop :=
  exists C, In C S /\ In i C /\ In j C.

(** The flat clusters behind the cluster numbers of [cluster]. *)
Definition flat_clusters {A : Type} (xy : A -> Q * Q) (rows : list A)
  (cutoff : Q) : list Cluster :=
  agglomerate (List.length rows) (pdist (map xy rows)) cutoff
              (map (fun i => [i]) (seq 0 (List.length rows))).

(** The cluster number in row [i] of the result of [cluster]. *)
Definition cluster_of {A : Type} (out : list (A * Z)) (i : nat) : option Z :=
  option_map snd (nth_error out i).

(** *** Order of the input rows *)

(** The rows in the order [sigma]: row [i] of the result is row
    [nth i sigma] of [rows]. *)
Definition permute {A : Type} (dflt : A) (sigma : list nat) (rows : list A)
  : list A :=
  map (fun k => nth k rows dflt) sigma.

(** No tie occurs when [rows] are clustered with [cutoff]: whenever two
    clusters are merged, they are the only closest pair. *)
Definition no_ties {A : Type} (xy : A -> Q * Q) (rows : list A) (cutoff : Q)
  : bool :=
  tie_free (List.length rows) (pdist (map xy rows)) cutoff
           (map (fun i => [i]) (seq 0 (List.length rows))).

(** Three detections on a line, one pixel apart. *)
Definition collinear : list Row :=
  [mkRow 0 0 (9 # 10) 0 4 4; mkRow 1 0 (8 # 10) 0 4 4; mkRow 2 0 (7 # 10) 0 4 4].

(** Three detections on a line at x = 0, 1 and 3: no two pairs are equally
    far apart. *)
Definition spread : list Row :=
  [mkRow 0 0 (9 # 10) 0 4 4; mkRow 1 0 (8 # 10) 0 4 4; mkRow 3 0 (7 # 10) 0 4 4].

(** ** Further vocabulary *)

(** [subseq l1 l2]: [l1] is [l2] with some elements left out, the others in
    the order of [l2]. *)
Inductive subseq {A : Type} : list A -> list A -> Prop :=
| subseq_nil : subseq [] []
| subseq_skip (a : A) (l1 l2 : list A) : subseq l1 l2 -> subseq l1 (a :: l2)
| subseq_keep (a : A) (l1 l2 : list A) : subseq l1 l2 -> subseq (a :: l1) (a :: l2).

(** An image all of whose pixels are black. *)
Definition black_image (width height : Z) : Image :=
  mkImage width height (fun _ _ => true).

(** The number written by the digits of [d] after the digits already read
    as [acc]. *)
Fixpoint uint_value (acc : Z) (d : Decimal.uint) : Z :=
  match d with
  | Decimal.Nil => acc
  | Decimal.D0 l => uint_value (10 * acc + 0) l
  | Decimal.D1 l => uint_value (10 * acc + 1) l
  | Decimal.D2 l => uint_value (10 * acc + 2) l
  | Decimal.D3 l => uint_value (10 * acc + 3) l
  | Decimal.D4 l => uint_value (10 * acc + 4) l
  | Decimal.D5 l => uint_value (10 * acc + 5) l
  | Decimal.D6 l => uint_value (10 * acc + 6) l
  | Decimal.D7 l => uint_value (10 * acc + 7) l
  | Decimal.D8 l => uint_value (10 * acc + 8) l
  | Decimal.D9 l => uint_value (10 * acc + 9) l
  end%Z.

(** The name of the label file of a tile: the detector names the label file
    after the tile image, which [segment_image_for_classification] saves as
    [<image>_<i>_<j>.png]. *)
Definition tile_label_file (dir image : string) (t : Tile) : string :=
  (dir ++ "/" ++ image ++ "_" ++ py_str (tile_i t) ++ "_" ++ py_str (tile_j t)
       ++ ".txt")%string.

(** The first lines of the text printed by [gdal.Info] for a raster of 830
    by 1000 pixels. *)
Definition gdal_info_830_1000 : string :=
  ("Driver: GTiff/GeoTIFF" ++ LF ++ "Files: 20230115_a.tif" ++ LF
   ++ "Size is 830, 1000" ++ LF ++ "Coordinate System is:")%string.


(** The name of the folder of detection number [k] of yolo: [exp] for the
    first one, [exp<k>] afterwards. *)
Definition exp_folder (k : Z) : string :=
  ("exp" ++ (if (k =? 0)%Z then EmptyString else py_str k))%string.

(** An angle as [gdal.Info] prints it: degrees, minutes, seconds and the
    letter of the direction. *)
Definition dms (d m : Z) (s dir : string) : string :=
  (py_str d ++ "d" ++ py_str m ++ "'" ++ s ++ DQUOTE ++ dir)%string.

(** The line of a corner: its name, the projected coordinates, and the
    longitude and the latitude between parentheses. *)
Definition corner_line (corner projected long lat : string) : string :=
  (corner ++ projected ++ "(" ++ long ++ ", " ++ lat ++ ")")%string.

(** A text of seconds holds none of the characters at which the line is
    cut. *)
Definition seconds_text (s : string) : bool :=
  no_char "d" s && no_char "'" s && no_char dquote s && no_char "," s
  && no_char "(" s.

(** The angle in degrees, without a sign. *)
Definition degrees (d m : Z) (s : Q) : Q :=
  (inject_Z (d * 60 * 60 + m * 60) + s) / inject_Z (60 * 60).

(** * Part III: properties *)

(** ** Coordinate mapping *)

(** What [coord2pixel] computes on the image of a pixel: each coordinate is
    off by the cross term, which [coord2pixel] applies to the projected
    coordinate where the pixel coordinate is needed. *)
Lemma coord2pixel_pixel2coord_formula (g : GeoTransform) (x y : Q) :
  ~ gt_a g == 0 -> ~ gt_e g == 0 ->
  exists xp yp,
    coord2pixel (fst (pixel2coord x y g)) (snd (pixel2coord x y g)) g = Ok (xp, yp) /\
    xp == x + gt_b g * (y - snd (pixel2coord x y g)) / gt_a g /\
    yp == y + gt_d g * (x - fst (pixel2coord x y g)) / gt_e g.
Proof.
  intros Ha He. unfold coord2pixel.
  destruct (Qeq_bool (gt_a g) 0) eqn:Ea; [apply Qeq_bool_eq in Ea; contradiction|].
  destruct (Qeq_bool (gt_e g) 0) eqn:Ee; [apply Qeq_bool_eq in Ee; contradiction|].
  eexists; eexists; split; [reflexivity|].
  unfold pixel2coord; cbn [fst snd]. split; field; assumption.
Qed.

(** On a north-up raster (no rotation or shear term) [coord2pixel] inverts
    [pixel2coord]. *)
Lemma coord2pixel_pixel2coord_north_up (g : GeoTransform) (x y : Q) :
  gt_b g == 0 -> gt_d g == 0 -> ~ gt_a g == 0 -> ~ gt_e g == 0 ->
  exists xp yp,
    coord2pixel (fst (pixel2coord x y g)) (snd (pixel2coord x y g)) g = Ok (xp, yp) /\
    xp == x /\ yp == y.
Proof.
  intros Hb Hd Ha He.
  destruct (coord2pixel_pixel2coord_formula g x y Ha He) as (xp & yp & E & Hx & Hy).
  exists xp, yp. split; [exact E|].
  rewrite Hx, Hy, Hb, Hd. split; field; assumption.
Qed.

(** C1 (defect of the code): on the non-degenerate geotransform [sheared]
    the pixel (0, 1) is mapped forward to (2, 3/2) and from there back to
    (-1/2, 1), half a pixel away from where it started and far more than
    a tolerance of 1e-6.  [coord2pixel] is not the inverse of [pixel2coord]
    once a rotation or shear term is present. *)
Theorem coord2pixel_not_inverse_on_sheared :
  ~ determinant sheared == 0 /\
  fst (pixel2coord 0 1 sheared) == 2 /\
  snd (pixel2coord 0 1 sheared) == 3 # 2 /\
  exists xp yp,
    coord2pixel (fst (pixel2coord 0 1 sheared)) (snd (pixel2coord 0 1 sheared))
                sheared = Ok (xp, yp) /\
    xp == - (1 # 2) /\ yp == 1 /\
    1 # 1000000 < Qabs (xp - 0).
Proof.
  split; [intro H; discriminate H|].
  split; [reflexivity|]. split; [reflexivity|].
  eexists; eexists. split; [reflexivity|].
  split; [reflexivity|]. split; reflexivity.
Qed.

(** ** Tiling *)

Lemma mapM_all_ok {A B : Type} (f : A -> result B) (g : A -> B) (l : list A) :
  (forall a, In a l -> f a = Ok (g a)) -> mapM f l = Ok (map g l).
Proof.
  induction l as [|a l IH]; intros H; simpl; [reflexivity|].
  rewrite (H a (or_introl eq_refl)). simpl.
  rewrite IH by (intros b Hb; apply H; right; exact Hb).
  reflexivity.
Qed.

Lemma tally_clear (acc : Z * Z) :
  tally acc false = (fst acc, (snd acc + 1)%Z).
Proof. destruct acc; reflexivity. Qed.

(** On an image without black pixels the scan counts four samples per offset
    and no empty one. *)
Lemma border_counts_clear (img : Image) (tile_size left top : Z) :
  (forall x y, im_black img x y = false) ->
  border_counts img tile_size left top
  = (0, 4 * Z.of_nat (List.length (py_range8 (tile_size - 1))))%Z.
Proof.
  intros Hclear. unfold border_counts.
  generalize (py_range8 (tile_size - 1)) as offsets.
  assert (G : forall offsets pe total,
    fold_left
      (fun acc f =>
         let acc := tally acc (im_black img (left + f) top)%Z in
         let acc := tally acc (im_black img left (top + f))%Z in
         let acc := tally acc (im_black img (left + tile_size - 1) (top + f))%Z in
         tally acc (im_black img (left + f) (top + tile_size - 1))%Z)
      offsets (pe, total)
    = (pe, total + 4 * Z.of_nat (List.length offsets))%Z).
  { induction offsets as [|f offsets IH]; intros pe total.
    - simpl. f_equal. lia.
    - cbn [fold_left]. rewrite !Hclear. cbn [tally]. rewrite IH.
      f_equal. cbn [List.length]. lia. }
  intros offsets. rewrite G. f_equal.
Qed.

Lemma py_range8_length (n : Z) :
  (1 <= n)%Z -> (0 < Z.of_nat (List.length (py_range8 n)))%Z.
Proof.
  intros Hn. unfold py_range8. rewrite length_map, length_seq.
  assert (1 <= (n + 7) / 8)%Z by (apply Z.div_le_lower_bound; lia).
  lia.
Qed.

(** A tile of an image without black pixels is always saved, at offset
    [(j * stride, i * stride)]. *)
Lemma visit_tile_clear (img : Image) (tile_size stride i j : Z) :
  (forall x y, im_black img x y = false) ->
  (2 <= tile_size)%Z ->
  visit_tile img tile_size stride i j
  = Ok (Some (mkTile i j (j * stride) (i * stride))).
Proof.
  intros Hclear Hsize. unfold visit_tile.
  rewrite (border_counts_clear _ _ _ _ Hclear).
  pose proof (py_range8_length (tile_size - 1)%Z ltac:(lia)) as Hlen.
  destruct (Z.eqb_spec (4 * Z.of_nat (List.length (py_range8 (tile_size - 1)))) 0)%Z;
    [lia|].
  destruct (Z.ltb_spec
              (93 * (4 * Z.of_nat (List.length (py_range8 (tile_size - 1)))))
              (100 * 0))%Z; [lia|].
  reflexivity.
Qed.

Lemma keep_saved_all (l : list Tile) : keep_saved (map Some l) = l.
Proof.
  unfold keep_saved.
  induction l as [|t l IH]; simpl; [reflexivity|].
  rewrite IH. reflexivity.
Qed.

Lemma concat_map_map {A B C : Type} (f : A -> list B) (g : B -> C) (l : list A) :
  List.concat (map (fun a => map g (f a)) l) = map g (flat_map f l).
Proof.
  induction l as [|a l IH]; simpl; [reflexivity|].
  rewrite IH, map_app. reflexivity.
Qed.

(** On an image without black pixels that passes the divisibility checks,
    the tiles are saved in row-major order at offsets
    [(col * stride, row * stride)], in [n_cols] columns and [n_rows] rows:
    one column more than [width / stride - tile_size / stride], but exactly
    [height / stride - tile_size / stride] rows. *)
(** The progress message is printed without an exception unless the height
    is five strides. *)
Lemma print_progress_ok (height stride i : Z) :
  stride <> 0%Z -> height <> (5 * stride)%Z ->
  print_progress height stride i = Ok tt.
Proof.
  intros Hs Hh. unfold print_progress.
  destruct (Qeq_bool (inject_Z height / inject_Z stride - 5) 0) eqn:E;
    [|reflexivity].
  exfalso. apply Qeq_bool_eq in E. apply Hh.
  assert (Hq : ~ inject_Z stride == 0).
  { intros H. apply Hs. unfold Qeq, inject_Z in H. cbn [Qnum Qden] in H. lia. }
  assert (E' : inject_Z height == inject_Z (5 * stride)).
  { rewrite inject_Z_mult.
    setoid_replace (inject_Z height)
      with ((inject_Z height / inject_Z stride - 5) * inject_Z stride
            + inject_Z 5 * inject_Z stride) by (field; exact Hq).
    rewrite E. ring. }
  unfold Qeq, inject_Z in E'. cbn [Qnum Qden] in E'. lia.
Qed.

Lemma segment_clear_image (img : Image) (tile_size stride : Z) :
  (forall x y, im_black img x y = false) ->
  (0 < stride)%Z -> (2 <= tile_size)%Z ->
  (im_width img mod stride = 0)%Z ->
  (im_height img mod stride = 0)%Z ->
  (tile_size mod stride = 0)%Z ->
  im_height img <> (5 * stride)%Z ->
  segment_image_for_classification img tile_size stride
  = Ok (row_major (n_rows (im_height img) tile_size stride)
                  (n_cols (im_width img) tile_size stride) stride).
Proof.
  intros Hclear Hs Ht Hw Hh Hts H5. unfold segment_image_for_classification.
  destruct (Z.eqb_spec stride 0); [lia|].
  rewrite Hw, Hh, Hts. cbn [Z.eqb negb orb].
  rewrite (mapM_all_ok _
    (fun i => map (fun j => Some (mkTile i j (j * stride) (i * stride)))
                  (py_range (n_cols (im_width img) tile_size stride)))).
  - cbn [bind]. f_equal. unfold row_major.
    rewrite <- keep_saved_all. f_equal.
    rewrite <- concat_map_map. f_equal. apply map_ext. intros i.
    rewrite map_map. reflexivity.
  - intros i _.
    rewrite (mapM_all_ok _ (fun j => Some (mkTile i j (j * stride) (i * stride)))).
    + cbn [bind]. rewrite print_progress_ok; [reflexivity|lia|exact H5].
    + intros j _. apply visit_tile_clear; assumption.
Qed.

(** C3 (defect of the code): for the 832 by 832 raster [clear_832], tile size
    416 and stride 104, the formula of the claim gives five rows and five
    columns of tiles.  The code saves the five columns but only the four
    rows 0..3, twenty tiles in all: the loop over the rows lacks the [1 +]
    that the loop over the columns has. *)
Theorem segment_image_one_row_short :
  (832 / 104 - 416 / 104 + 1 = 5)%Z /\
  exists tiles,
    segment_image_for_classification clear_832 416 104 = Ok tiles /\
    tiles = row_major 4 5 104 /\
    saved_rows tiles = [0; 1; 2; 3]%Z /\
    saved_cols tiles = [0; 1; 2; 3; 4]%Z /\
    List.length tiles = 20%nat.
Proof.
  split; [reflexivity|].
  exists (row_major 4 5 104). split.
  - rewrite segment_clear_image; try reflexivity; simpl; lia.
  - repeat split; vm_compute; reflexivity.
Qed.

(** ** Day batches *)

(** Only the first raster of a day reaches the second clustering pass: the
    arrays handed to [cluster] are those of the first file. *)
Lemma day_cluster_inputs_first
  (process_tif : string -> list Boat * list Boat) (file : string)
  (others : list string) :
  day_cluster_inputs process_tif (file :: others) = Ok (process_tif file).
Proof.
  unfold day_cluster_inputs. simpl. destruct (process_tif file). reflexivity.
Qed.

(** C2 (defect of the code): for a day with the two rasters of
    [two_rasters], the static boat of the second raster is produced by
    [process_tif] but is not among the rows handed to the day-level
    [cluster] call, which receives the boats of the first raster only (the
    index [[0]] applied to the zipped results); the day's result holds one
    boat, seen in the first raster. *)
Theorem process_day_drops_later_rasters :
  let files := ["20230101_a.tif"; "20230101_b.tif"] in
  In boat_b (fst (two_rasters "20230101_b.tif")) /\
  (exists all_static_boats all_moving_boats,
      day_cluster_inputs two_rasters files
      = Ok (all_static_boats, all_moving_boats) /\
      all_static_boats = [boat_a] /\
      ~ In boat_b all_static_boats) /\
  (exists b,
      process_day two_rasters 1 1 files = Ok ([b], []) /\
      boat_files b = "20230101_a.tif").
Proof.
  cbv zeta. split; [left; reflexivity|]. split.
  - exists [boat_a], []. split; [reflexivity|]. split; [reflexivity|].
    intros [H|[]]. discriminate H.
  - eexists. split; [vm_compute; reflexivity|reflexivity].
Qed.

Lemma get_date_none (filename : string) :
  String.length (hd EmptyString (py_split "_" filename)) <> 8%nat ->
  get_date_from_filename filename = None.
Proof.
  intros H. unfold get_date_from_filename.
  destruct (Nat.eqb_spec (String.length (hd EmptyString (py_split "_" filename))) 8);
    [contradiction|reflexivity].
Qed.

Lemma same_date_true (a b : option string) : same_date a b = true -> a = b.
Proof.
  unfold same_date. destruct (option_string_dec a b); [auto|discriminate].
Qed.

(** The files of every batch have the date of the batch, and that date is
    not [None]. *)
Lemma daily_data_dated (listing : list string) (files : list string)
  (day : option string) (file : string) :
  In (files, day) (daily_data listing) -> In file files ->
  get_date_from_filename file = day /\ day <> None /\ In file listing.
Proof.
  unfold daily_data. intros Hin Hfile.
  apply in_map_iff in Hin. destruct Hin as (d & E & Hd).
  inversion E; subst; clear E.
  apply filter_In in Hfile. destruct Hfile as [Hl Hs].
  apply same_date_true in Hs.
  split; [exact Hs|]. split; [|exact Hl].
  unfold days_of in Hd. apply in_remove in Hd. tauto.
Qed.

Lemma classify_directory_calls (listing : list string) (call : DayCall) :
  In call (classify_directory listing) ->
  In (call_files call, call_day call) (daily_data listing).
Proof.
  unfold classify_directory, enumerate. intros H.
  apply in_map_iff in H. destruct H as ([i [files day]] & E & Hin).
  subst call. simpl. apply in_combine_r in Hin. exact Hin.
Qed.

(** C9: a file whose name segment before the first underscore is not eight
    characters long has no date, and no call of [process_day] made by
    [classify_directory] has it among its files, whatever the directory
    holds. *)
Theorem undated_file_in_no_batch (listing : list string) (file : string) :
  String.length (hd EmptyString (py_split "_" file)) <> 8%nat ->
  get_date_from_filename file = None /\
  forall call, In call (classify_directory listing) ->
               ~ In file (call_files call).
Proof.
  intros Hlen. pose proof (get_date_none file Hlen) as Hnone.
  split; [exact Hnone|].
  intros call Hcall Hfile.
  apply classify_directory_calls in Hcall.
  destruct (daily_data_dated listing _ _ file Hcall Hfile) as (Hd & Hday & _).
  apply Hday. rewrite <- Hd. exact Hnone.
Qed.

(** The file [notes_2023.txt] in a directory with two rasters of one day. *)
Lemma undated_file_in_no_batch_witness :
  String.length (hd EmptyString (py_split "_" "notes_2023.txt")) <> 8%nat /\
  get_date_from_filename "notes_2023.txt" = None /\
  forall call,
    In call (classify_directory
               ["20230115_a.tif"; "notes_2023.txt"; "20230115_b.tif"]) ->
    ~ In "notes_2023.txt" (call_files call).
Proof.
  assert (H : String.length (hd EmptyString (py_split "_" "notes_2023.txt"))
              <> 8%nat) by (vm_compute; lia).
  split; [exact H|].
  exact (undated_file_in_no_batch
           ["20230115_a.tif"; "notes_2023.txt"; "20230115_b.tif"]
           "notes_2023.txt" H).
Defined.

(** ** Confidence threshold *)

Lemma Qlt_bool_iff (a b : Q) : Qlt_bool a b = true <-> a < b.
Proof. unfold Qlt_bool, Qlt. apply Z.ltb_lt. Qed.

(** On numbers the two masks of [remove_low_confidence] are
    complementary. *)
Lemma Qlt_bool_negb_Qle_bool (a b : Q) : Qlt_bool a b = negb (Qle_bool b a).
Proof.
  unfold Qlt_bool, Qle_bool.
  rewrite Z.ltb_antisym. reflexivity.
Qed.

Lemma filter_interleave_in {A : Type} (f g : A -> bool) (l : list A) :
  (forall a, In a l -> g a = negb (f a)) ->
  Interleave (filter f l) (filter g l) l.
Proof.
  induction l as [|a l IH]; intros Hfg; simpl; [constructor|].
  rewrite (Hfg a (or_introl eq_refl)).
  assert (IH' : Interleave (filter f l) (filter g l) l)
    by (apply IH; intros b Hb; apply Hfg; right; exact Hb).
  destruct (f a); simpl; constructor; exact IH'.
Qed.

Lemma float_ge_iff (c t : float64) : float_ge c t = true <-> float_le t c.
Proof.
  destruct c as [c|], t as [t|]; cbn; try (split; [discriminate|contradiction]).
  apply Qle_bool_iff.
Qed.

Lemma float_lt_iff (c t : float64) : float_lt c t = true <-> float_less c t.
Proof.
  destruct c as [c|], t as [t|]; cbn; try (split; [discriminate|contradiction]).
  apply Qlt_bool_iff.
Qed.

(** C10 (counterexample): a row whose confidence is NaN fails both masks and
    is in neither output, so the outputs do not partition the input; with a
    threshold that is NaN every row is lost; and the one-dimensional empty
    array [np.array([])] raises [IndexError]. *)
Lemma remove_low_confidence_loses_nan :
  remove_low_confidence entry2 (Rows [row_certain; row_nan]) (Finite (5 # 10))
  = Ok ([row_certain], []) /\
  ~ Interleave [row_certain] [] [row_certain; row_nan] /\
  remove_low_confidence entry2 (Rows [row_certain; row_nan]) NaN = Ok ([], []) /\
  remove_low_confidence entry2 Empty1D (Finite (5 # 10)) = Raise IndexError.
Proof.
  split; [reflexivity|]. split; [|split; reflexivity].
  intros H. inversion H as [|a l1 l2 l H1|a l1 l2 l H1]; subst.
  inversion H1.
Qed.

(** C10 (amended): on a two-dimensional array [remove_low_confidence]
    returns two arrays; a row is among the kept ones exactly when its
    confidence is at least the threshold and among the low-confidence ones
    exactly when it is below, so a row whose confidence equals the threshold
    is kept.  When neither the threshold nor a confidence is NaN, the input
    is an interleaving of the two outputs: every row goes to exactly one of
    them, unchanged and in its original relative order. *)
Theorem remove_low_confidence_partition {A : Type} (conf : A -> float64)
  (classifications : list A) (confidence_threshold : float64) :
  exists kept low,
    remove_low_confidence conf (Rows classifications) confidence_threshold
    = Ok (kept, low) /\
    (forall r, In r kept <->
               In r classifications /\ float_le confidence_threshold (conf r)) /\
    (forall r, In r low <->
               In r classifications /\ float_less (conf r) confidence_threshold) /\
    (forall r, In r classifications ->
               float_equal (conf r) confidence_threshold ->
               In r kept /\ ~ In r low) /\
    (confidence_threshold <> NaN ->
     (forall r, In r classifications -> conf r <> NaN) ->
     Interleave kept low classifications).
Proof.
  eexists. eexists. split; [reflexivity|].
  split; [|split; [|split]].
  - intros r. rewrite filter_In, float_ge_iff. reflexivity.
  - intros r. rewrite filter_In, float_lt_iff. reflexivity.
  - intros r Hin Heq. rewrite !filter_In, float_ge_iff, float_lt_iff.
    destruct (conf r) as [c|], confidence_threshold as [t|];
      cbn in *; try contradiction.
    split; [split; [exact Hin|]|intros [_ Hlt]].
    + rewrite Heq. apply Qle_refl.
    + rewrite Heq in Hlt. exact (Qlt_irrefl _ Hlt).
  - intros Ht Hrows. apply filter_interleave_in. intros r Hin.
    specialize (Hrows r Hin).
    destruct (conf r) as [c|], confidence_threshold as [t|];
      cbn; try contradiction.
    apply Qlt_bool_negb_Qle_bool.
Qed.

(** Three rows with confidences 0.5, 0.3 and 0.7 and the threshold 0.5: the
    first row, whose confidence equals the threshold, is kept, and the three
    rows are split between the two outputs. *)
Lemma remove_low_confidence_partition_witness :
  let rows := [mkRow 10 10 (5 # 10) 0 4 4; mkRow 20 20 (3 # 10) 0 4 4;
               mkRow 30 30 (7 # 10) 1 4 4] in
  exists kept low,
    remove_low_confidence row_conf64 (Rows rows) (Finite (5 # 10))
    = Ok (kept, low) /\
    In (mkRow 10 10 (5 # 10) 0 4 4) kept /\
    ~ In (mkRow 10 10 (5 # 10) 0 4 4) low /\
    Interleave kept low rows.
Proof.
  cbv zeta.
  destruct (remove_low_confidence_partition row_conf64
              [mkRow 10 10 (5 # 10) 0 4 4; mkRow 20 20 (3 # 10) 0 4 4;
               mkRow 30 30 (7 # 10) 1 4 4] (Finite (5 # 10)))
    as (kept & low & E & _ & _ & Heq & Hpart).
  exists kept, low. split; [exact E|].
  destruct (Heq (mkRow 10 10 (5 # 10) 0 4 4) (or_introl eq_refl)
                ltac:(cbn; reflexivity)) as [Hk Hl].
  split; [exact Hk|]. split; [exact Hl|].
  apply Hpart; [discriminate|]. intros r _. discriminate.
Defined.

(** ** Label files *)

Lemma string_app_assoc (a b c : string) : ((a ++ b) ++ c = a ++ (b ++ c))%string.
Proof. induction a as [|x a IH]; simpl; [reflexivity|]. rewrite IH. reflexivity. Qed.

Lemma no_char_app (c : ascii) (a b : string) :
  no_char c (a ++ b) = no_char c a && no_char c b.
Proof.
  induction a as [|x a IH]; simpl; [reflexivity|].
  rewrite IH, andb_assoc. reflexivity.
Qed.

Lemma prefix_empty (s : string) : prefix EmptyString s = true.
Proof. destruct s; reflexivity. Qed.

Lemma split_go_char_free (c : ascii) (s : string) :
  no_char c s = true -> split_go (String c EmptyString) 0 s = (s, []).
Proof.
  induction s as [|a s IH]; simpl; intros H; [reflexivity|].
  apply andb_prop in H. destruct H as [Ha Hs].
  destruct (ascii_dec c a) as [E|_].
  - subst. rewrite Ascii.eqb_refl in Ha. discriminate.
  - rewrite (IH Hs). reflexivity.
Qed.

Lemma py_split_char_last (c : ascii) (u v : string) :
  no_char c v = true ->
  py_split (String c EmptyString) (u ++ String c v)
  = (py_split (String c EmptyString) u ++ [v])%list.
Proof.
  intros Hv. unfold py_split.
  induction u as [|a u IH].
  - cbn [append split_go prefix]. destruct (ascii_dec c c) as [_|N]; [|contradiction].
    cbn [String.length Nat.sub]. rewrite prefix_empty.
    rewrite (split_go_char_free c v Hv). reflexivity.
  - cbn [append split_go prefix]. 
    destruct (ascii_dec c a) as [E|N].
    + cbn [String.length Nat.sub]. rewrite !prefix_empty.
      destruct (split_go (String c "") 0 (u ++ String c v)) as [p ps].
      destruct (split_go (String c "") 0 u) as [q qs].
      inversion IH; subst. reflexivity.
    + destruct (split_go (String c "") 0 (u ++ String c v)) as [p ps].
      destruct (split_go (String c "") 0 u) as [q qs].
      inversion IH; subst. reflexivity.
Qed.

Lemma split_txt_suffix (p : string) :
  no_char "." p = true ->
  py_split ".txt" (p ++ ".txt") = [p; EmptyString].
Proof.
  intros Hp. unfold py_split.
  induction p as [|a p IH].
  - reflexivity.
  - simpl in Hp. apply andb_prop in Hp. destruct Hp as [Ha Hp].
    cbn [append split_go prefix].
    destruct (ascii_dec "." a) as [E|N].
    + subst. discriminate.
    + specialize (IH Hp).
      destruct (split_go ".txt" 0 (p ++ ".txt")) as [q qs].
      inversion IH; subst. reflexivity.
Qed.

Lemma neg_index_last_two {A : Type} (l : list A) (a b : A) :
  neg_index ((l ++ [a]) ++ [b]) 2 = Ok a /\
  neg_index ((l ++ [a]) ++ [b]) 1 = Ok b.
Proof.
  unfold neg_index. rewrite !rev_app_distr. simpl. split; reflexivity.
Qed.

(** For a well-named label file, [classification_file_info] finds the tile
    offsets and then reads the file. *)
Lemma classification_file_info_named
  (STRIDE : Z) (fs : FileSystem) (file image rs cs : string) (row col : Z) :
  label_name file image rs cs ->
  py_int rs = Ok row -> py_int cs = Ok col ->
  classification_file_info STRIDE fs file
  = (lines <- read_lines fs file ;; Ok (col * STRIDE, row * STRIDE, lines)%Z).
Proof.
  intros (Hbase & Himg & Hrs_ & Hrs & Hcs_ & Hcs) Hrow Hcol.
  unfold classification_file_info. rewrite Hbase.
  assert (E : (image ++ "_" ++ rs ++ "_" ++ cs ++ ".txt"
               = ((image ++ String "_" rs) ++ String "_" cs) ++ ".txt")%string).
  { rewrite !string_app_assoc. reflexivity. }
  rewrite E, split_txt_suffix.
  2:{ rewrite !no_char_app. cbn [no_char]. rewrite Himg, Hrs, Hcs. reflexivity. }
  cbn [hd].
  rewrite (py_split_char_last "_" _ cs Hcs_), (py_split_char_last "_" _ rs Hrs_).
  destruct (neg_index_last_two (py_split "_" image) rs cs) as [E2 E1].
  rewrite E2. cbn [bind]. rewrite Hrow. cbn [bind].
  rewrite E1. cbn [bind]. rewrite Hcol. cbn [bind]. reflexivity.
Qed.

(** C4 (counterexample): the label file [img_0_1.txt] does not exist, and
    [parse_classifications] raises [FileNotFoundError] instead of returning
    an empty sequence; an empty file whose name carries no row and column,
    [labels.txt], raises [IndexError]. *)
Lemma parse_missing_file_raises :
  no_files "img_0_1.txt" = None /\
  parse_classifications 416 104 no_files "img_0_1.txt" = Raise FileNotFoundError /\
  parse_classifications 416 104 no_files "img_0_1.txt" <> Ok [] /\
  parse_classifications 416 104 (one_file "labels.txt" "") "labels.txt"
  = Raise IndexError.
Proof.
  split; [reflexivity|]. split; [reflexivity|]. split; [|reflexivity].
  intro H. vm_compute in H. discriminate H.
Qed.

Lemma py_int_raise (s : string) (e : exn) :
  py_int s = Raise e -> e = ValueError.
Proof.
  unfold py_int. destruct (take_sign (strip s)) as [neg body].
  destruct (digits_value body); [discriminate|].
  intros H. injection H as <-. reflexivity.
Qed.

Lemma neg_index_raise {A : Type} (l : list A) (k : nat) (e : exn) :
  neg_index l k = Raise e -> e = IndexError.
Proof.
  unfold neg_index. destruct (nth_error (rev l) (k - 1)); [discriminate|].
  intros H. injection H as <-. reflexivity.
Qed.

(** [classification_file_info] reads the row and the column from the name,
    and only then the file. *)
Lemma classification_file_info_name (STRIDE : Z) (fs : FileSystem)
  (file : string) :
  classification_file_info STRIDE fs file
  = (rc <- name_row_col file ;;
     lines <- read_lines fs file ;;
     Ok (snd rc * STRIDE, fst rc * STRIDE, lines)%Z).
Proof.
  unfold classification_file_info, name_row_col.
  destruct (neg_index _ 2) as [r|e]; cbn [bind]; [|reflexivity].
  destruct (py_int r) as [row|e]; cbn [bind]; [|reflexivity].
  destruct (neg_index _ 1) as [c|e]; cbn [bind]; [|reflexivity].
  destruct (py_int c) as [col|e]; cbn [bind]; reflexivity.
Qed.

(** The only exceptions of the reading of the name. *)
Lemma name_row_col_raise (file : string) (e : exn) :
  name_row_col file = Raise e -> e = IndexError \/ e = ValueError.
Proof.
  unfold name_row_col.
  destruct (neg_index _ 2) as [r|e1] eqn:E1; cbn [bind].
  - destruct (py_int r) as [row|e2] eqn:E2; cbn [bind].
    + destruct (neg_index _ 1) as [c|e3] eqn:E3; cbn [bind].
      * destruct (py_int c) as [col|e4] eqn:E4; cbn [bind]; [discriminate|].
        intros H. injection H as <-. right. exact (py_int_raise _ _ E4).
      * intros H. injection H as <-. left. exact (neg_index_raise _ _ _ E3).
    + intros H. injection H as <-. right. exact (py_int_raise _ _ E2).
  - intros H. injection H as <-. left. exact (neg_index_raise _ _ _ E1).
Qed.

(** A name [<image>_<row>_<col>.txt] whose image has no dot carries its row
    and its column. *)
Lemma name_row_col_named (file image rs cs : string) (row col : Z) :
  label_name file image rs cs ->
  py_int rs = Ok row -> py_int cs = Ok col ->
  name_row_col file = Ok (row, col).
Proof.
  intros (Hbase & Himg & Hrs_ & Hrs & Hcs_ & Hcs) Hrow Hcol.
  unfold name_row_col. rewrite Hbase.
  assert (E : (image ++ "_" ++ rs ++ "_" ++ cs ++ ".txt"
               = ((image ++ String "_" rs) ++ String "_" cs) ++ ".txt")%string).
  { rewrite !string_app_assoc. reflexivity. }
  rewrite E, split_txt_suffix.
  2:{ rewrite !no_char_app. cbn [no_char]. rewrite Himg, Hrs, Hcs. reflexivity. }
  cbn [hd].
  rewrite (py_split_char_last "_" _ cs Hcs_), (py_split_char_last "_" _ rs Hrs_).
  destruct (neg_index_last_two (py_split "_" image) rs cs) as [E2 E1].
  rewrite E2. cbn [bind]. rewrite Hrow. cbn [bind].
  rewrite E1. cbn [bind]. rewrite Hcol. cbn [bind]. reflexivity.
Qed.

(** C4 (amended): [parse_classifications] reads a row and a column from the
    name before it opens the file.  When the name carries them, as a name
    [<image>_<row>_<col>.txt] whose image has no dot does, the empty
    sequence is returned, without exception, for a file that exists and is
    empty, and [FileNotFoundError] is raised for a file that does not
    exist.  When the name does not carry them, [IndexError] or [ValueError]
    is raised and the file is not opened, be it empty or missing. *)
Theorem parse_empty_or_missing_file
  (TILE_SIZE STRIDE : Z) (fs : FileSystem) (file : string) :
  (forall row col,
      name_row_col file = Ok (row, col) ->
      (fs file = Some EmptyString ->
       parse_classifications TILE_SIZE STRIDE fs file = Ok []) /\
      (fs file = None ->
       parse_classifications TILE_SIZE STRIDE fs file = Raise FileNotFoundError)) /\
  (forall e,
      name_row_col file = Raise e ->
      (e = IndexError \/ e = ValueError) /\
      parse_classifications TILE_SIZE STRIDE fs file = Raise e) /\
  (forall image rs cs row col,
      label_name file image rs cs ->
      py_int rs = Ok row -> py_int cs = Ok col ->
      name_row_col file = Ok (row, col)).
Proof.
  unfold parse_classifications. rewrite classification_file_info_name.
  split; [|split].
  - intros row col E. rewrite E. cbn [bind]. unfold read_lines.
    split; intros Hf; rewrite Hf; reflexivity.
  - intros e E. split; [exact (name_row_col_raise file e E)|].
    rewrite E. reflexivity.
  - intros image rs cs row col. apply name_row_col_named.
Qed.

(** The label file of the tile in row 0, column 1 of [img], once empty and
    once missing. *)
Lemma parse_empty_or_missing_file_witness :
  name_row_col "runs/labels/img_0_1.txt" = Ok (0, 1)%Z /\
  one_file "runs/labels/img_0_1.txt" "" "runs/labels/img_0_1.txt"
  = Some EmptyString /\
  parse_classifications 416 104 (one_file "runs/labels/img_0_1.txt" "")
                        "runs/labels/img_0_1.txt" = Ok [] /\
  no_files "runs/labels/img_0_1.txt" = None /\
  parse_classifications 416 104 no_files "runs/labels/img_0_1.txt"
  = Raise FileNotFoundError /\
  name_row_col "a.txt_0_1.txt" = Raise IndexError /\
  parse_classifications 416 104 (one_file "a.txt_0_1.txt" "") "a.txt_0_1.txt"
  = Raise IndexError.
Proof.
  assert (Hname : name_row_col "runs/labels/img_0_1.txt" = Ok (0, 1)%Z)
    by reflexivity.
  assert (Hbad : name_row_col "a.txt_0_1.txt" = Raise IndexError)
    by reflexivity.
  split; [exact Hname|]. split; [reflexivity|]. split; [|split; [reflexivity|]].
  - exact (proj1 (proj1 (parse_empty_or_missing_file 416 104
                           (one_file "runs/labels/img_0_1.txt" "")
                           "runs/labels/img_0_1.txt") 0%Z 1%Z Hname) eq_refl).
  - split; [|split; [exact Hbad|]].
    + exact (proj2 (proj1 (parse_empty_or_missing_file 416 104 no_files
                             "runs/labels/img_0_1.txt") 0%Z 1%Z Hname) eq_refl).
    + exact (proj2 (proj1 (proj2 (parse_empty_or_missing_file 416 104
                                    (one_file "a.txt_0_1.txt" "")
                                    "a.txt_0_1.txt")) IndexError Hbad)).
Defined.

(** ** Malformed label lines *)

Lemma mapM_length {A B : Type} (f : A -> result B) (l : list A) (bs : list B) :
  mapM f l = Ok bs -> List.length bs = List.length l.
Proof.
  revert bs. induction l as [|a l IH]; simpl; intros bs H.
  - inversion H. reflexivity.
  - destruct (f a) as [b|e]; [|discriminate]. simpl in H.
    destruct (mapM f l) as [bs'|e]; [|discriminate]. simpl in H.
    inversion H; subst. simpl. rewrite (IH bs' eq_refl). reflexivity.
Qed.

Lemma parse_row_short (TILE_SIZE across down : Z) (r : list string) :
  (List.length r < 6)%nat ->
  parse_row TILE_SIZE across down r = Raise IndexError.
Proof.
  intros H. unfold parse_row.
  destruct r as [|a [|b [|c [|d [|e [|f r]]]]]]; try reflexivity.
  simpl in H. lia.
Qed.

(** The rows of [np.array] all have as many entries as the first one. *)
Lemma np_array_ok (rows : list (list string)) (k : nat) (arr : list (list string)) :
  np_array rows = Ok (k, arr) ->
  arr = rows /\
  forall r, In r rows ->
            List.length r = k /\ k = List.length (hd [] rows).
Proof.
  unfold np_array. destruct rows as [|r0 rows]; intros H.
  - inversion H; subst. split; [reflexivity|]. intros r [].
  - destruct (forallb _ _) eqn:F; [|discriminate].
    inversion H; subst. split; [reflexivity|].
    intros r Hr. rewrite forallb_forall in F.
    specialize (F r Hr). apply Nat.eqb_eq in F. split; [exact F|reflexivity].
Qed.

Lemma np_array_ragged (rows : list (list string)) (r : list string) :
  In r rows -> List.length r <> List.length (hd [] rows) ->
  np_array rows = Raise ValueError.
Proof.
  intros Hin Hlen. destruct (np_array rows) as [[k arr]|e] eqn:E.
  - destruct (np_array_ok rows k arr E) as [_ H].
    destruct (H r Hin) as [H1 H2]. congruence.
  - unfold np_array in E. destruct rows as [|r0 rows]; [destruct Hin|].
    destruct (forallb _ _); [discriminate|]. symmetry. exact E.
Qed.

(** C5 (counterexample): on a label file with a well-formed line followed by
    a line of one field, [parse_classifications] raises [ValueError]; it
    returns no detection at all, not even that of the well-formed line. *)
Lemma parse_aborts_on_bad_line :
  file_lines one_bad_line = ["0 0.5 0.5 0.2 0.2 0.8"; "oops"] /\
  parse_classifications 416 104 (one_file "img_0_1.txt" one_bad_line)
                        "img_0_1.txt" = Raise ValueError /\
  ~ exists detections,
      parse_classifications 416 104 (one_file "img_0_1.txt" one_bad_line)
                            "img_0_1.txt" = Ok detections.
Proof.
  split; [reflexivity|]. split; [reflexivity|].
  intros [detections H]. vm_compute in H. discriminate H.
Qed.

(** C5 (amended): [parse_classifications] never skips a line.  Once the name
    of the label file has been taken apart and its lines read, a result, if
    there is one, has exactly one detection per line; and a line with fewer
    than five fields, or with a number of fields other than that of the
    first line, makes the call raise an exception, so that the whole file is
    lost. *)
Theorem parse_never_skips_a_line
  (TILE_SIZE STRIDE : Z) (fs : FileSystem) (file : string)
  (across down : Z) (lines : list string) :
  classification_file_info STRIDE fs file = Ok (across, down, lines) ->
  (forall detections,
      parse_classifications TILE_SIZE STRIDE fs file = Ok detections ->
      List.length detections = List.length lines) /\
  (forall line,
      In line lines ->
      (List.length (py_split " " line) < 5)%nat \/
      List.length (py_split " " line)
      <> List.length (py_split " " (hd EmptyString lines)) ->
      exists e, parse_classifications TILE_SIZE STRIDE fs file = Raise e).
Proof.
  intros Hinfo. unfold parse_classifications. rewrite Hinfo. cbn [bind].
  destruct lines as [|l0 lines]; [split; [intros d H; inversion H; reflexivity|intros line []]|].
  set (ls := l0 :: lines). set (rows := map (py_split " ") ls).
  split.
  - intros detections H.
    destruct (np_array rows) as [[k arr]|e] eqn:E; [|discriminate].
    cbn [bind] in H. apply np_array_ok in E. destruct E as [-> _].
    apply mapM_length in H. rewrite H.
    destruct (Nat.eqb k 5); unfold rows; rewrite ?length_map; reflexivity.
  - intros line Hin Hbad.
    assert (Hrow : In (py_split " " line) rows) by (apply in_map; exact Hin).
    destruct (Nat.eq_dec (List.length (py_split " " line))
                         (List.length (py_split " " l0))) as [Esame|Ediff].
    + destruct Hbad as [Hshort|Hne]; [|contradiction].
      destruct (np_array rows) as [[k arr]|e] eqn:E; [|exists e; reflexivity].
      cbn [bind]. apply np_array_ok in E. destruct E as [-> Hk].
      destruct (Hk _ Hrow) as [Hlen _].
      assert (Hk0 : List.length (py_split " " l0) = k).
      { apply (Hk (py_split " " l0)). left. reflexivity. }
      destruct (Nat.eqb_spec k 5) as [->|_]; [lia|].
      unfold rows, ls. cbn [map mapM].
      rewrite parse_row_short by lia. exists IndexError. reflexivity.
    + rewrite (np_array_ragged rows (py_split " " line) Hrow Ediff).
      exists ValueError. reflexivity.
Qed.

(** The label file [one_bad_line]: its second line has one field. *)
Lemma parse_never_skips_a_line_witness :
  classification_file_info 104 (one_file "img_0_1.txt" one_bad_line) "img_0_1.txt"
  = Ok (104%Z, 0%Z, ["0 0.5 0.5 0.2 0.2 0.8"; "oops"]) /\
  In "oops" ["0 0.5 0.5 0.2 0.2 0.8"; "oops"] /\
  (List.length (py_split " " "oops") < 5)%nat /\
  exists e,
    parse_classifications 416 104 (one_file "img_0_1.txt" one_bad_line)
                          "img_0_1.txt" = Raise e.
Proof.
  assert (Hin : In "oops" ["0 0.5 0.5 0.2 0.2 0.8"; "oops"])
    by (right; left; reflexivity).
  assert (Hshort : (List.length (py_split " " "oops") < 5)%nat)
    by (vm_compute; lia).
  split; [reflexivity|]. split; [exact Hin|]. split; [exact Hshort|].
  exact (proj2 (parse_never_skips_a_line 416 104
                  (one_file "img_0_1.txt" one_bad_line) "img_0_1.txt"
                  104 0 ["0 0.5 0.5 0.2 0.2 0.8"; "oops"] eq_refl)
               "oops" Hin (or_introl Hshort)).
Defined.

(** ** Tile offsets of parsed detections *)









(** ** Condensation *)

Lemma Qmax2_cases (a b : Q) :
  (Qmax2 a b = a \/ Qmax2 a b = b) /\ a <= Qmax2 a b /\ b <= Qmax2 a b.
Proof.
  unfold Qmax2. destruct (Qle_bool a b) eqn:E.
  - apply Qle_bool_iff in E. repeat split; auto using Qle_refl.
  - assert (b <= a).
    { destruct (Qlt_le_dec a b) as [H|H]; [|exact H].
      apply Qlt_le_weak, Qle_bool_iff in H. congruence. }
    repeat split; auto using Qle_refl.
Qed.

(** [np.max] returns an entry of the column that bounds all entries. *)
Lemma np_max_spec (l : list Q) :
  l <> [] ->
  exists m, np_max l = Ok m /\ In m l /\ forall v, In v l -> v <= m.
Proof.
  destruct l as [|a l]; [contradiction|]. intros _. simpl np_max.
  exists (fold_left Qmax2 l a). split; [reflexivity|].
  revert a. induction l as [|b l IH]; intros a.
  - simpl. split; [left; reflexivity|]. intros v [<-|[]]. apply Qle_refl.
  - cbn [fold_left]. destruct (IH (Qmax2 a b)) as [Hin Hle].
    destruct (Qmax2_cases a b) as (Hc & Ha & Hb).
    split.
    + destruct Hin as [E|Hin]; [|right; right; exact Hin].
      rewrite <- E. destruct Hc as [-> | ->]; [left|right; left]; reflexivity.
    + intros v [<-|[<-|Hv]].
      * eapply Qle_trans; [exact Ha|]. apply Hle. left. reflexivity.
      * eapply Qle_trans; [exact Hb|]. apply Hle. left. reflexivity.
      * apply Hle. right. exact Hv.
Qed.

Lemma mode_pref_refl (l : list Q) (a : Q) : mode_pref l a a.
Proof. right. split; [reflexivity|apply Qle_refl]. Qed.

Lemma mode_pref_trans (l : list Q) (a b c : Q) :
  mode_pref l a b -> mode_pref l b c -> mode_pref l a c.
Proof.
  unfold mode_pref. intros [H1|[H1 L1]] [H2|[H2 L2]].
  - left. lia.
  - left. lia.
  - left. lia.
  - right. split; [lia|]. eapply Qle_trans; eassumption.
Qed.

Lemma better_mode_pref (l : list Q) (a b : Q) :
  better_mode l a b = true -> mode_pref l a b.
Proof.
  unfold better_mode, mode_pref. intros H.
  apply orb_prop in H. destruct H as [H|H].
  - left. apply Nat.ltb_lt. exact H.
  - apply andb_prop in H. destruct H as [H1 H2].
    right. split; [apply Nat.eqb_eq; exact H1|].
    apply Qlt_le_weak, Qlt_bool_iff. exact H2.
Qed.

Lemma not_better_mode_pref (l : list Q) (a b : Q) :
  better_mode l a b = false -> mode_pref l b a.
Proof.
  unfold better_mode, mode_pref. intros H.
  apply orb_false_elim in H. destruct H as [H1 H2].
  apply Nat.ltb_ge in H1.
  destruct (Nat.eq_dec (occurrences a l) (occurrences b l)) as [E|N].
  - right. split; [symmetry; exact E|].
    rewrite (proj2 (Nat.eqb_eq _ _) E) in H2. cbn [andb] in H2.
    destruct (Qlt_le_dec a b) as [Hlt|Hle]; [|exact Hle].
    apply Qlt_bool_iff in Hlt. congruence.
  - left. lia.
Qed.

Lemma fold_mode_spec (L l : list Q) (a : Q) :
  let r := fold_left (fun best v => if better_mode L v best then v else best) l a in
  In r (a :: l) /\ forall v, In v (a :: l) -> mode_pref L r v.
Proof.
  cbv zeta. revert a. induction l as [|b l IH]; intros a.
  - simpl. split; [left; reflexivity|]. intros v [<-|[]]. apply mode_pref_refl.
  - cbn [fold_left].
    set (best := if better_mode L b a then b else a).
    destruct (IH best) as [Hin Hpref].
    assert (Hbest : (best = a \/ best = b) /\ mode_pref L best a /\ mode_pref L best b).
    { unfold best. destruct (better_mode L b a) eqn:E.
      - split; [right; reflexivity|]. split.
        + apply better_mode_pref. exact E.
        + apply mode_pref_refl.
      - split; [left; reflexivity|]. split.
        + apply mode_pref_refl.
        + apply not_better_mode_pref. exact E. }
    destruct Hbest as (Hc & Ha & Hb).
    split.
    + destruct Hin as [E|Hin]; [|right; right; exact Hin].
      rewrite <- E. destruct Hc as [-> | ->]; [left|right; left]; reflexivity.
    + intros v [<-|[<-|Hv]].
      * eapply mode_pref_trans; [|exact Ha]. apply Hpref. left. reflexivity.
      * eapply mode_pref_trans; [|exact Hb]. apply Hpref. left. reflexivity.
      * apply Hpref. right. exact Hv.
Qed.

(** [scipy.stats.mode] returns an entry that is preferred to all entries. *)
Lemma stats_mode_spec (l : list Q) :
  l <> [] ->
  In (stats_mode l) l /\ forall v, In v l -> mode_pref l (stats_mode l) v.
Proof.
  destruct l as [|a l0]; [contradiction|]. intros _.
  exact (fold_mode_spec (a :: l0) l0 a).
Qed.

(** C7: [condense] on a non-empty cluster returns one row whose x, y, width
    and height are the arithmetic means of the members' (the sum divided by
    the number of members), whose confidence is the greatest confidence of a
    member, and whose class is a class of a member that no other class
    outnumbers and that is the smallest among the classes as frequent; on a
    cluster of one row it returns the fields of that row. *)
Theorem condense_aggregates (cluster : list Row) :
  cluster <> [] ->
  exists d,
    condense cluster = Ok d /\
    let n := inject_Z (Z.of_nat (List.length cluster)) in
    let classes := map row_class cluster in
    row_x d == Qsum (map row_x cluster) / n /\
    row_y d == Qsum (map row_y cluster) / n /\
    row_w d == Qsum (map row_w cluster) / n /\
    row_h d == Qsum (map row_h cluster) / n /\
    (exists r, In r cluster /\ row_conf d = row_conf r) /\
    (forall r, In r cluster -> row_conf r <= row_conf d) /\
    (exists r, In r cluster /\ row_class d = row_class r) /\
    (forall r, In r cluster ->
               (occurrences (row_class r) classes
                <= occurrences (row_class d) classes)%nat) /\
    (forall r, In r cluster ->
               occurrences (row_class r) classes
               = occurrences (row_class d) classes ->
               row_class d <= row_class r) /\
    (forall r, cluster = [r] ->
               row_x d == row_x r /\ row_y d == row_y r /\
               row_conf d == row_conf r /\ row_class d == row_class r /\
               row_w d == row_w r /\ row_h d == row_h r).
Proof.
  intros Hne. unfold condense.
  assert (Hconf : map row_conf cluster <> [])
    by (destruct cluster; [contradiction|discriminate]).
  assert (Hclass : map row_class cluster <> [])
    by (destruct cluster; [contradiction|discriminate]).
  destruct (np_max_spec _ Hconf) as (m & Em & Hm & Hmax).
  destruct (stats_mode_spec _ Hclass) as (Hmode & Hpref).
  rewrite Em. cbn [bind]. eexists. split; [reflexivity|].
  cbv zeta. cbn [row_x row_y row_conf row_class row_w row_h].
  unfold np_mean. rewrite !length_map.
  repeat (split; [reflexivity|]).
  split; [|split; [|split; [|split; [|split]]]].
  - apply in_map_iff in Hm. destruct Hm as (r & E & Hr). exists r. auto.
  - intros r Hr. apply Hmax. apply in_map. exact Hr.
  - apply in_map_iff in Hmode. destruct Hmode as (r & E & Hr). exists r. auto.
  - intros r Hr.
    destruct (Hpref (row_class r) (in_map row_class _ _ Hr)) as [H|[H _]]; lia.
  - intros r Hr Hocc.
    destruct (Hpref (row_class r) (in_map row_class _ _ Hr)) as [H|[_ H]];
      [lia|exact H].
  - intros r ->. simpl in Hm. destruct Hm as [<-|[]].
    cbn [map List.length]. simpl Z.of_nat.
    repeat split; try reflexivity; unfold Qsum, inject_Z; cbn [fold_right]; field.
Qed.

(** The scenario of the specification: the mean position is (101.5, 100.5)
    and the confidence 0.9. *)
Lemma condense_aggregates_witness :
  scenario_cluster <> [] /\
  exists d,
    condense scenario_cluster = Ok d /\
    row_x d == 203 # 2 /\ row_y d == 201 # 2 /\ row_conf d = 9 # 10.
Proof.
  assert (Hne : scenario_cluster <> []) by discriminate.
  split; [exact Hne|].
  destruct (condense_aggregates scenario_cluster Hne)
    as (d & E & Hx & Hy & _ & _ & _ & _).
  exists d. split; [exact E|].
  split; [rewrite Hx; reflexivity|].
  split; [rewrite Hy; reflexivity|].
  vm_compute in E. inversion E. reflexivity.
Defined.

(** ** Clustering *)

(** *** Sums and average linkage *)

Lemma Qsum_app (l1 l2 : list Q) : Qsum (l1 ++ l2) == Qsum l1 + Qsum l2.
Proof.
  induction l1 as [|a l1 IH]; simpl.
  - ring.
  - rewrite IH. ring.
Qed.

Lemma Qsum_perm (l1 l2 : list Q) : Permutation l1 l2 -> Qsum l1 == Qsum l2.
Proof.
  induction 1 as [|a l1 l2 _ IH|a b l|l1 l2 l3 _ IH1 _ IH2]; simpl.
  - reflexivity.
  - rewrite IH. reflexivity.
  - ring.
  - rewrite IH1. exact IH2.
Qed.

(** The sum over a rectangle of entries may be taken by rows or by
    columns. *)
Lemma Qsum_exchange (F : nat -> nat -> Q) (A B : list nat) :
  Qsum (flat_map (fun i => map (fun j => F i j) B) A)
  == Qsum (flat_map (fun j => map (fun i => F i j) A) B).
Proof.
  induction A as [|a A IH]; simpl.
  - induction B as [|b B IHB]; simpl; [reflexivity|exact IHB].
  - rewrite Qsum_app, IH. clear IH.
    induction B as [|b B IHB]; simpl.
    + ring.
    + rewrite !Qsum_app, <- IHB. ring.
Qed.

Lemma flat_map_perm_pointwise {X Y : Type} (f g : X -> list Y) (l : list X) :
  (forall x, Permutation (f x) (g x)) ->
  Permutation (flat_map f l) (flat_map g l).
Proof.
  intros H. induction l as [|x l IH]; simpl; [constructor|].
  apply Permutation_app; [apply H|exact IH].
Qed.

Lemma condensed_sym (d : list (list Q)) (i j : nat) :
  condensed d i j = condensed d j i.
Proof.
  unfold condensed. rewrite (Nat.min_comm i j), (Nat.max_comm i j). reflexivity.
Qed.

(** The average distance of two clusters does not depend on the order in
    which their members are listed, nor on which cluster comes first. *)
Lemma average_perm (d : list (list Q)) (A A' B B' : Cluster) :
  Permutation A A' -> Permutation B B' ->
  average d A B == average d A' B'.
Proof.
  intros HA HB. unfold average.
  rewrite (Permutation_length HA), (Permutation_length HB).
  assert (E : Qsum (flat_map (fun i => map (fun j => condensed d i j) B) A)
              == Qsum (flat_map (fun i => map (fun j => condensed d i j) B') A')).
  { apply Qsum_perm.
    transitivity (flat_map (fun i => map (fun j => condensed d i j) B) A').
    - apply Permutation_flat_map. exact HA.
    - apply flat_map_perm_pointwise. intros i. apply Permutation_map. exact HB. }
  rewrite E. reflexivity.
Qed.

Lemma average_sym (d : list (list Q)) (A B : Cluster) :
  average d A B == average d B A.
Proof.
  unfold average. rewrite (Nat.mul_comm (List.length A)).
  rewrite Qsum_exchange.
  assert (E : flat_map (fun j => map (fun i => condensed d i j) A) B
              = flat_map (fun i => map (fun j => condensed d i j) A) B).
  { apply flat_map_ext. intros j. apply map_ext. intros i. apply condensed_sym. }
  rewrite E. reflexivity.
Qed.

(** *** Lists of clusters up to order *)

Lemma sim_refl (S : list Cluster) : sim S S.
Proof. unfold sim. reflexivity. Qed.

Lemma sim_sym (S T : list Cluster) : sim S T -> sim T S.
Proof. unfold sim. intros H. symmetry. exact H. Qed.

Lemma sim_trans (S T U : list Cluster) : sim S T -> sim T U -> sim S U.
Proof. unfold sim. intros H1 H2. etransitivity; eassumption. Qed.

Lemma sim_skip (A B : Cluster) (S T : list Cluster) :
  Permutation A B -> sim S T -> sim (A :: S) (B :: T).
Proof. intros HA HS. apply permA_skip; assumption. Qed.

Lemma sim_swap (A B : Cluster) (S : list Cluster) :
  sim (A :: B :: S) (B :: A :: S).
Proof. apply permA_swap. Qed.

Lemma sim_length (S T : list Cluster) : sim S T -> List.length S = List.length T.
Proof.
  induction 1 as [|A B S T _ _ IH|A B S|S T U _ IH1 _ IH2]; simpl; congruence.
Qed.

Lemma cand_sim_trans (c1 c2 c3 : Candidate) :
  cand_sim c1 c2 -> cand_sim c2 c3 -> cand_sim c1 c3.
Proof.
  destruct c1 as [[A1 B1] R1], c2 as [[A2 B2] R2], c3 as [[A3 B3] R3].
  unfold cand_sim. intros [H12 S12] [H23 S23].
  split; [|eapply sim_trans; eassumption].
  destruct H12 as [[Ha Hb]|[Ha Hb]], H23 as [[Ha' Hb']|[Ha' Hb']].
  - left. split; etransitivity; eassumption.
  - right. split; etransitivity; eassumption.
  - right. split; etransitivity; eassumption.
  - left. split; etransitivity; eassumption.
Qed.

(** The linkage distance of a candidate depends on the two clusters only. *)
Lemma linkage_distance_sim (d : list (list Q)) (c c' : Candidate) :
  cand_sim c c' -> linkage_distance d c == linkage_distance d c'.
Proof.
  destruct c as [[A B] R], c' as [[A' B'] R']. simpl.
  intros [[[Ha Hb]|[Ha Hb]] _].
  - apply average_perm; assumption.
  - rewrite (average_sym d A' B'). apply average_perm; assumption.
Qed.

(** Transfer of [select] along [sim]. *)
Lemma select_sim (S T : list Cluster) :
  sim S T ->
  forall B R, In (B, R) (select S) ->
  exists B' R', In (B', R') (select T) /\ Permutation B B' /\ sim R R'.
Proof.
  induction 1 as [|X Y S T HXY HST IH|X Y S|S T U _ IH1 _ IH2]; intros B R Hin.
  - destruct Hin.
  - simpl in Hin. destruct Hin as [E|Hin].
    + inversion E; subst. exists Y, T. simpl. auto.
    + apply in_map_iff in Hin. destruct Hin as ([B0 R0] & E & Hin).
      inversion E; subst.
      destruct (IH _ _ Hin) as (B' & R' & Hin' & HB & HR).
      exists B', (Y :: R'). split; [|split; [exact HB|apply sim_skip; assumption]].
      simpl. right. apply in_map_iff. exists (B', R'). auto.
  - simpl in Hin. destruct Hin as [E|[E|Hin]].
    + inversion E; subst. exists B, (X :: S). simpl.
      split; [right; left; reflexivity|]. split; [reflexivity|apply sim_refl].
    + inversion E; subst. exists B, (Y :: S). simpl.
      split; [left; reflexivity|]. split; [reflexivity|apply sim_refl].
    + rewrite map_map in Hin. apply in_map_iff in Hin.
      destruct Hin as ([B0 R0] & E & Hin). inversion E; subst.
      exists B, (X :: Y :: R0). split; [|split; [reflexivity|apply sim_swap]].
      simpl. right. right. rewrite map_map. apply in_map_iff.
      exists (B, R0). auto.
  - destruct (IH1 _ _ Hin) as (B1 & R1 & Hin1 & HB1 & HR1).
    destruct (IH2 _ _ Hin1) as (B2 & R2 & Hin2 & HB2 & HR2).
    exists B2, R2. split; [exact Hin2|].
    split; [etransitivity; eassumption|eapply sim_trans; eassumption].
Qed.

(** Transfer of [candidates] along [sim]: the same pairs of clusters are
    proposed, possibly with the two clusters in the other order. *)
Lemma candidates_sim (S T : list Cluster) :
  sim S T ->
  forall c, In c (candidates S) ->
  exists c', In c' (candidates T) /\ cand_sim c c'.
Proof.
  induction 1 as [|X Y S T HXY HST IH|X Y S|S T U _ IH1 _ IH2]; intros c Hin.
  - destruct Hin.
  - cbn [candidates] in Hin. apply in_app_or in Hin. destruct Hin as [Hin|Hin].
    + apply in_map_iff in Hin. destruct Hin as ([B R] & E & Hin). subst c.
      destruct (select_sim S T HST _ _ Hin) as (B' & R' & Hin' & HB & HR).
      exists (Y, B', R'). split.
      * cbn [candidates]. apply in_or_app. left.
        apply in_map_iff. exists (B', R'). auto.
      * split; [left; split; assumption|exact HR].
    + apply in_map_iff in Hin. destruct Hin as ([[A B] R] & E & Hin). subst c.
      destruct (IH _ Hin) as ([[A' B'] R'] & Hin' & Hab & HR).
      exists (A', B', Y :: R'). split.
      * cbn [candidates]. apply in_or_app. right.
        apply in_map_iff. exists (A', B', R'). auto.
      * split; [exact Hab|apply sim_skip; assumption].
  - cbn [candidates select map] in Hin.
    cbn [app] in Hin. destruct Hin as [E|Hin].
    + subst c. exists (X, Y, S). split.
      * cbn [candidates select map app]. left. reflexivity.
      * split; [right; split; reflexivity|apply sim_refl].
    + apply in_app_or in Hin. destruct Hin as [Hin|Hin].
      * rewrite map_map in Hin. apply in_map_iff in Hin.
        destruct Hin as ([B R] & E & Hin). subst c.
        exists (Y, B, X :: R). split.
        -- cbn [candidates]. apply in_or_app. right.
           apply in_map_iff. exists (Y, B, R). split; [reflexivity|].
           apply in_or_app. left. apply in_map_iff. exists (B, R). auto.
        -- split; [left; split; reflexivity|apply sim_refl].
      * rewrite map_app in Hin. apply in_app_or in Hin. destruct Hin as [Hin|Hin].
        -- rewrite map_map in Hin. apply in_map_iff in Hin.
           destruct Hin as ([B R] & E & Hin). subst c.
           exists (X, B, Y :: R). split.
           ++ cbn [candidates select map app]. right.
              apply in_or_app. left. rewrite map_map.
              apply in_map_iff. exists (B, R). auto.
           ++ split; [left; split; reflexivity|apply sim_refl].
        -- rewrite map_map in Hin. apply in_map_iff in Hin.
           destruct Hin as ([[A B] R] & E & Hin). subst c.
           exists (A, B, X :: Y :: R). split.
           ++ cbn [candidates]. apply in_or_app. right.
              apply in_map_iff. exists (A, B, Y :: R). split; [reflexivity|].
              apply in_or_app. right.
              apply in_map_iff. exists (A, B, R). auto.
           ++ split; [left; split; reflexivity|apply sim_swap].
  - destruct (IH1 _ Hin) as (c1 & Hin1 & H1).
    destruct (IH2 _ Hin1) as (c2 & Hin2 & H2).
    exists c2. split; [exact Hin2|]. eapply cand_sim_trans; eassumption.
Qed.

(** *** Closest pair *)

Lemma argmin_none {T : Type} (v : T -> Q) (l : list T) :
  argmin v l = None -> l = [].
Proof.
  destruct l as [|c l]; [reflexivity|]. simpl.
  destruct (argmin v l) as [c'|]; [|discriminate].
  destruct (Qle_bool (v c) (v c')); discriminate.
Qed.

Lemma Qle_bool_false (a b : Q) : Qle_bool a b = false -> b <= a.
Proof.
  intros H. destruct (Qlt_le_dec a b) as [Hlt|Hle]; [|exact Hle].
  apply Qlt_le_weak, Qle_bool_iff in Hlt. congruence.
Qed.

Lemma argmin_spec {T : Type} (v : T -> Q) (l : list T) (c : T) :
  argmin v l = Some c ->
  In c l /\ forall c', In c' l -> v c <= v c'.
Proof.
  revert c. induction l as [|a l IH]; intros c H; [discriminate|].
  simpl in H. destruct (argmin v l) as [b|] eqn:E.
  - destruct (IH b eq_refl) as [Hin Hmin].
    destruct (Qle_bool (v a) (v b)) eqn:L; inversion H; subst.
    + apply Qle_bool_iff in L. split; [left; reflexivity|].
      intros c' [<-|Hc']; [apply Qle_refl|].
      eapply Qle_trans; [exact L|apply Hmin; exact Hc'].
    + apply Qle_bool_false in L. split; [right; exact Hin|].
      intros c' [<-|Hc']; [exact L|apply Hmin; exact Hc'].
  - inversion H; subst. apply argmin_none in E. subst l.
    split; [left; reflexivity|]. intros c' [<-|[]]. apply Qle_refl.
Qed.

Lemma unique_closest_spec (d : list (list Q)) (S : list Cluster) (c : Candidate) :
  unique_closest d S = true ->
  argmin (linkage_distance d) (candidates S) = Some c ->
  forall c', In c' (candidates S) ->
             c' = c \/ linkage_distance d c < linkage_distance d c'.
Proof.
  unfold unique_closest. intros H E c' Hin. rewrite E in H.
  rewrite forallb_forall in H. specialize (H c' Hin).
  destruct (candidate_dec c' c); [left; assumption|].
  right. apply Qlt_bool_iff. exact H.
Qed.

Lemma Qle_bool_compat (a a' t : Q) : a == a' -> Qle_bool a t = Qle_bool a' t.
Proof.
  intros E. destruct (Qle_bool a t) eqn:H1, (Qle_bool a' t) eqn:H2; try reflexivity.
  - apply Qle_bool_iff in H1. rewrite E in H1. apply Qle_bool_iff in H1. congruence.
  - apply Qle_bool_iff in H2. rewrite <- E in H2. apply Qle_bool_iff in H2. congruence.
Qed.

(** Without ties the agglomeration does not depend on the order in which
    the clusters are listed. *)
Lemma agglomerate_sim (d : list (list Q)) (t : Q) (fuel : nat) :
  forall S T, sim S T -> tie_free fuel d t S = true ->
              sim (agglomerate fuel d t S) (agglomerate fuel d t T).
Proof.
  induction fuel as [|fuel IH]; intros S T HST Hfree; [exact HST|].
  cbn [agglomerate tie_free] in *.
  destruct (argmin (linkage_distance d) (candidates S)) as [[[A B] R]|] eqn:ES.
  - destruct (argmin_spec _ _ _ ES) as [HinS HminS].
    destruct (candidates_sim S T HST _ HinS) as (cT & HinT & HcT).
    destruct (argmin (linkage_distance d) (candidates T)) as [[[A2 B2] R2]|] eqn:ET.
    2:{ apply argmin_none in ET. rewrite ET in HinT. destruct HinT. }
    destruct (argmin_spec _ _ _ ET) as [Hin2 Hmin2].
    destruct (candidates_sim T S (sim_sym S T HST) _ Hin2) as (c1 & Hin1 & Hc1).
    pose proof (linkage_distance_sim d _ _ HcT) as EcT.
    pose proof (linkage_distance_sim d _ _ Hc1) as Ec1.
    pose proof (Hmin2 _ HinT) as L2.
    pose proof (HminS _ Hin1) as L1.
    assert (Eq : average d A B == average d A2 B2).
    { change (linkage_distance d (A, B, R) == linkage_distance d (A2, B2, R2)).
      apply Qle_antisym.
      - rewrite Ec1. exact L1.
      - rewrite EcT. exact L2. }
    rewrite <- (Qle_bool_compat _ _ t Eq).
    destruct (Qle_bool (average d A B) t); [|exact HST].
    apply andb_prop in Hfree. destruct Hfree as [Huniq Hfree].
    destruct (unique_closest_spec d S _ Huniq ES c1 Hin1) as [->|Hlt].
    + apply IH; [|exact Hfree].
      destruct Hc1 as [Hab HR]. apply sim_sym. apply sim_skip; [|exact HR].
      destruct Hab as [[Ha Hb]|[Ha Hb]].
      * apply Permutation_app; assumption.
      * etransitivity; [apply Permutation_app_comm|].
        apply Permutation_app; assumption.
    + exfalso. rewrite <- Ec1 in Hlt.
      change (average d A B < average d A2 B2) in Hlt. rewrite Eq in Hlt.
      exact (Qlt_irrefl _ Hlt).
  - apply argmin_none in ES.
    destruct (argmin (linkage_distance d) (candidates T)) as [c2|] eqn:ET;
      [|exact HST].
    destruct (argmin_spec _ _ _ ET) as [Hin2 _].
    destruct (candidates_sim T S (sim_sym S T HST) _ Hin2) as (c1 & Hin1 & _).
    rewrite ES in Hin1. destruct Hin1.
Qed.

(** *** Distances of a permuted list of points *)

Lemma Qsqrt_compat (p q : Q) : p == q -> Qsqrt p = Qsqrt q.
Proof.
  intros E. unfold Qsqrt. rewrite (Qred_complete p q E). reflexivity.
Qed.

Lemma euclidean_sym (p q : Q * Q) : euclidean p q = euclidean q p.
Proof. unfold euclidean. apply Qsqrt_compat. ring. Qed.

(** The rows of the condensed matrix hold the distances of the pairs. *)
Lemma pdist_entry (points : list (Q * Q)) (dp : Q * Q) (i j : nat) :
  (i < j)%nat -> (j < List.length points)%nat ->
  nth (j - i - 1) (nth i (pdist points) []) 0
  = euclidean (nth i points dp) (nth j points dp).
Proof.
  revert i j. induction points as [|p ps IH]; intros i j Hij Hj.
  - simpl in Hj. lia.
  - destruct i as [|i].
    + destruct j as [|j]; [lia|]. cbn [pdist nth].
      replace (S j - 0 - 1)%nat with j by lia.
      simpl in Hj.
      rewrite (nth_indep _ 0 (euclidean p dp)) by (rewrite length_map; lia).
      apply map_nth.
    + destruct j as [|j]; [lia|]. cbn [pdist nth].
      replace (S j - S i - 1)%nat with (j - i - 1)%nat by lia.
      apply IH; simpl in Hj; lia.
Qed.

Lemma condensed_pdist (points : list (Q * Q)) (dp : Q * Q) (i j : nat) :
  i <> j -> (i < List.length points)%nat -> (j < List.length points)%nat ->
  condensed (pdist points) i j = euclidean (nth i points dp) (nth j points dp).
Proof.
  intros Hne Hi Hj. unfold condensed.
  destruct (Nat.lt_ge_cases i j) as [Hlt|Hge].
  - rewrite Nat.min_l, Nat.max_r by lia. apply pdist_entry; lia.
  - rewrite Nat.min_r, Nat.max_l by lia. rewrite euclidean_sym.
    apply pdist_entry; lia.
Qed.

(** *** Relabelling the observations *)

Lemma select_map {X Y : Type} (f : X -> Y) (l : list X) :
  select (map f l) = map (fun br => (f (fst br), map f (snd br))) (select l).
Proof.
  induction l as [|a l IH]; simpl; [reflexivity|].
  rewrite IH, !map_map. f_equal. apply map_ext. intros [b r]. reflexivity.
Qed.

Lemma candidates_map (s : nat -> nat) (S : list Cluster) :
  candidates (map (map s) S) = map (relabel s) (candidates S).
Proof.
  induction S as [|A S IH]; [reflexivity|].
  cbn [map candidates]. rewrite IH, select_map, map_app, !map_map.
  f_equal; apply map_ext.
  - intros [B R]. reflexivity.
  - intros [[X Y] R]. reflexivity.
Qed.

Lemma argmin_map {X Y : Type} (v : Y -> Q) (f : X -> Y) (l : list X) :
  argmin v (map f l) = option_map f (argmin (fun c => v (f c)) l).
Proof.
  induction l as [|a l IH]; [reflexivity|]. simpl. rewrite IH.
  destruct (argmin (fun c => v (f c)) l) as [b|]; simpl; [|reflexivity].
  destruct (Qle_bool (v (f a)) (v (f b))); reflexivity.
Qed.

Lemma argmin_ext_in {X : Type} (v w : X -> Q) (l : list X) :
  (forall c, In c l -> v c = w c) -> argmin v l = argmin w l.
Proof.
  induction l as [|a l IH]; intros H; [reflexivity|]. simpl.
  rewrite IH by (intros c Hc; apply H; right; exact Hc).
  destruct (argmin w l) as [b|] eqn:E; [|reflexivity].
  rewrite (H a (or_introl eq_refl)).
  assert (Hb : In b l).
  { clear - E. revert b E. induction l as [|x l IH]; intros b E; [discriminate|].
    simpl in E. destruct (argmin w l) as [y|].
    - destruct (Qle_bool (w x) (w y)); inversion E; subst;
        [left; reflexivity|right; apply IH; reflexivity].
    - inversion E. left. reflexivity. }
  rewrite (H b (or_intror Hb)). reflexivity.
Qed.

(** The members of a candidate are the members of the list of clusters. *)
Lemma select_members (S : list Cluster) (B : Cluster) (R : list Cluster) :
  In (B, R) (select S) ->
  Permutation (B ++ List.concat R) (List.concat S).
Proof.
  revert B R. induction S as [|A S IH]; intros B R Hin; [destruct Hin|].
  simpl in Hin. destruct Hin as [E|Hin].
  - inversion E; subst. reflexivity.
  - apply in_map_iff in Hin. destruct Hin as ([B0 R0] & E & Hin).
    inversion E; subst. cbn [List.concat].
    rewrite <- (IH _ _ Hin).
    rewrite !app_assoc. apply Permutation_app_tail. apply Permutation_app_comm.
Qed.

Lemma candidates_members (S : list Cluster) (A B : Cluster) (R : list Cluster) :
  In (A, B, R) (candidates S) ->
  Permutation ((A ++ B) ++ List.concat R) (List.concat S).
Proof.
  revert A B R. induction S as [|X S IH]; intros A B R Hin; [destruct Hin|].
  cbn [candidates] in Hin. apply in_app_or in Hin. destruct Hin as [Hin|Hin].
  - apply in_map_iff in Hin. destruct Hin as ([B0 R0] & E & Hin).
    inversion E; subst. cbn [List.concat]. rewrite <- app_assoc.
    apply Permutation_app_head. apply select_members. exact Hin.
  - apply in_map_iff in Hin. destruct Hin as ([[A0 B0] R0] & E & Hin).
    inversion E; subst. cbn [List.concat].
    rewrite <- (IH _ _ _ Hin).
    apply Permutation_app_swap_app.
Qed.

Lemma partitions_merge (n : nat) (S : list Cluster) (A B : Cluster)
  (R : list Cluster) :
  partitions n S -> In (A, B, R) (candidates S) ->
  partitions n ((A ++ B)%list :: R).
Proof.
  unfold partitions. intros HS Hin. cbn [List.concat].
  rewrite (candidates_members S A B R Hin). exact HS.
Qed.

Lemma agglomerate_partitions (d : list (list Q)) (t : Q) (n fuel : nat) :
  forall S, partitions n S -> partitions n (agglomerate fuel d t S).
Proof.
  induction fuel as [|fuel IH]; intros S HS; [exact HS|].
  cbn [agglomerate].
  destruct (argmin (linkage_distance d) (candidates S)) as [[[A B] R]|] eqn:E;
    [|exact HS].
  destruct (Qle_bool (average d A B) t); [|exact HS].
  apply IH. apply (partitions_merge n S); [exact HS|].
  apply (argmin_spec _ _ _ E).
Qed.

Lemma NoDup_app_disjoint {X : Type} (l1 l2 : list X) (a : X) :
  NoDup (l1 ++ l2) -> In a l1 -> In a l2 -> False.
Proof.
  induction l1 as [|b l1 IH]; intros Hnd H1 H2; [destruct H1|].
  simpl in Hnd. inversion Hnd as [|? ? Hnotin Hnd']; subst.
  destruct H1 as [->|H1].
  - apply Hnotin. apply in_or_app. right. exact H2.
  - exact (IH Hnd' H1 H2).
Qed.

Section Relabel.

Variables (d d' : list (list Q)) (s : nat -> nat) (n : nat).

(** [d'] is the condensed matrix [d] with the observations renamed by
    [s]. *)
Hypothesis renamed : forall i j,
  i <> j -> (i < n)%nat -> (j < n)%nat ->
  condensed d' i j = condensed d (s i) (s j).

Lemma candidate_separated (S : list Cluster) (A B : Cluster) (R : list Cluster) :
  partitions n S -> In (A, B, R) (candidates S) ->
  forall i j, In i A -> In j B -> i <> j /\ (i < n)%nat /\ (j < n)%nat.
Proof.
  intros HS Hin i j Hi Hj.
  pose proof (candidates_members S A B R Hin) as HP.
  unfold partitions in HS. rewrite HS in HP.
  assert (Hnd : NoDup (A ++ B)).
  { apply (NoDup_app_remove_r _ (List.concat R)).
    apply (Permutation_NoDup (Permutation_sym HP)). apply seq_NoDup. }
  assert (Hb : forall k, In k (A ++ B) -> (k < n)%nat).
  { intros k Hk.
    assert (Hk' : In k (seq 0 n)).
    { apply (Permutation_in _ HP). apply in_or_app. left. exact Hk. }
    apply in_seq in Hk'. lia. }
  split; [|split].
  - intros ->. exact (NoDup_app_disjoint A B j Hnd Hi Hj).
  - apply Hb. apply in_or_app. left. exact Hi.
  - apply Hb. apply in_or_app. right. exact Hj.
Qed.

Lemma average_relabel (A B : Cluster) :
  (forall i j, In i A -> In j B -> i <> j /\ (i < n)%nat /\ (j < n)%nat) ->
  average d (map s A) (map s B) = average d' A B.
Proof.
  intros H. unfold average. rewrite !length_map. f_equal. f_equal.
  rewrite !flat_map_concat_map, map_map. f_equal.
  apply map_ext_in. intros i Hi. rewrite map_map.
  apply map_ext_in. intros j Hj.
  destruct (H i j Hi Hj) as (Hne & Hin & Hjn).
  symmetry. apply renamed; assumption.
Qed.

(** Renaming the observations commutes with the agglomeration. *)
Lemma agglomerate_relabel (t : Q) (fuel : nat) :
  forall S, partitions n S ->
            map (map s) (agglomerate fuel d' t S)
            = agglomerate fuel d t (map (map s) S).
Proof.
  induction fuel as [|fuel IH]; intros S HS; [reflexivity|].
  cbn [agglomerate].
  rewrite candidates_map, argmin_map.
  rewrite (argmin_ext_in (fun c => linkage_distance d (relabel s c))
                         (linkage_distance d') (candidates S)).
  2:{ intros [[A B] R] Hin. cbn [relabel linkage_distance].
      apply average_relabel. apply (candidate_separated S A B R HS Hin). }
  destruct (argmin (linkage_distance d') (candidates S)) as [[[A B] R]|] eqn:E;
    [|reflexivity].
  cbn [option_map relabel].
  destruct (argmin_spec _ _ _ E) as [Hin _].
  rewrite (average_relabel A B (candidate_separated S A B R HS Hin)).
  destruct (Qle_bool (average d' A B) t); [|reflexivity].
  rewrite (IH _ (partitions_merge n S A B R HS Hin)).
  cbn [map]. rewrite map_app. reflexivity.
Qed.

End Relabel.

(** *** Cluster numbers and partitions *)

Lemma existsb_eqb_In (i : nat) (C : Cluster) :
  existsb (Nat.eqb i) C = true <-> In i C.
Proof.
  rewrite existsb_exists. split.
  - intros (k & Hk & E). apply Nat.eqb_eq in E. subst. exact Hk.
  - intros H. exists i. split; [exact H|apply Nat.eqb_refl].
Qed.

Lemma cluster_id_pos (S : list Cluster) (i : nat) : (1 <= cluster_id S i)%Z.
Proof.
  induction S as [|C S IH]; cbn [cluster_id]; [lia|].
  destruct (existsb (Nat.eqb i) C); lia.
Qed.

Lemma cluster_id_same (S : list Cluster) (i j : nat) :
  In i (List.concat S) -> cluster_id S i = cluster_id S j -> same_cluster S i j.
Proof.
  induction S as [|C S IH]; intros Hi E; [destruct Hi|].
  cbn [cluster_id] in E. cbn [List.concat] in Hi.
  destruct (existsb (Nat.eqb i) C) eqn:Ei.
  - destruct (existsb (Nat.eqb j) C) eqn:Ej; cbv iota in E.
    + exists C. rewrite existsb_eqb_In in Ei, Ej. split; [left; reflexivity|auto].
    + pose proof (cluster_id_pos S j). lia.
  - destruct (existsb (Nat.eqb j) C) eqn:Ej; cbv iota in E.
    + pose proof (cluster_id_pos S i). lia.
    + apply in_app_or in Hi. destruct Hi as [Hi|Hi].
      * apply existsb_eqb_In in Hi. congruence.
      * destruct (IH Hi ltac:(lia)) as (D & HD & H).
        exists D. split; [right; exact HD|exact H].
Qed.

Lemma same_cluster_id (S : list Cluster) (i j : nat) :
  NoDup (List.concat S) -> same_cluster S i j -> cluster_id S i = cluster_id S j.
Proof.
  induction S as [|C S IH]; intros Hnd (D & HD & Hi & Hj); [destruct HD|].
  cbn [List.concat] in Hnd. cbn [cluster_id].
  destruct HD as [->|HD].
  - rewrite (proj2 (existsb_eqb_In i D) Hi), (proj2 (existsb_eqb_In j D) Hj).
    reflexivity.
  - assert (HiS : In i (List.concat S)) by (apply in_concat; exists D; auto).
    assert (HjS : In j (List.concat S)) by (apply in_concat; exists D; auto).
    destruct (existsb (Nat.eqb i) C) eqn:Ei.
    { apply existsb_eqb_In in Ei.
      destruct (NoDup_app_disjoint C (List.concat S) i Hnd Ei HiS). }
    destruct (existsb (Nat.eqb j) C) eqn:Ej.
    { apply existsb_eqb_In in Ej.
      destruct (NoDup_app_disjoint C (List.concat S) j Hnd Ej HjS). }
    f_equal. apply IH.
    + exact (NoDup_app_remove_l _ _ Hnd).
    + exists D. auto.
Qed.

Lemma same_cluster_sim (S T : list Cluster) (i j : nat) :
  sim S T -> same_cluster S i j -> same_cluster T i j.
Proof.
  induction 1 as [|X Y S T HXY _ IH|X Y S|S T U _ IH1 _ IH2];
    intros (C & HC & Hi & Hj).
  - destruct HC.
  - destruct HC as [->|HC].
    + exists Y. split; [left; reflexivity|].
      split; apply (Permutation_in _ HXY); assumption.
    + destruct IH as (D & HD & H); [exists C; auto|].
      exists D. split; [right; exact HD|exact H].
  - exists C. split; [|auto].
    destruct HC as [->|[->|HC]]; [right; left|left|right; right]; auto.
  - apply IH2, IH1. exists C. auto.
Qed.

Lemma same_cluster_map (s : nat -> nat) (S : list Cluster) (i j : nat) :
  same_cluster S i j -> same_cluster (map (map s) S) (s i) (s j).
Proof.
  intros (C & HC & Hi & Hj). exists (map s C).
  split; [apply in_map; exact HC|]. split; apply in_map; assumption.
Qed.

Lemma same_cluster_map_inv (s : nat -> nat) (n : nat) (S : list Cluster)
  (i j : nat) :
  (forall a b, (a < n)%nat -> (b < n)%nat -> s a = s b -> a = b) ->
  partitions n S -> (i < n)%nat -> (j < n)%nat ->
  same_cluster (map (map s) S) (s i) (s j) -> same_cluster S i j.
Proof.
  intros Hinj HS Hi Hj (C' & HC' & Hsi & Hsj).
  apply in_map_iff in HC'. destruct HC' as (C & <- & HC).
  assert (Hb : forall k, In k C -> (k < n)%nat).
  { intros k Hk.
    assert (In k (seq 0 n)).
    { apply (Permutation_in _ HS). apply in_concat. exists C. auto. }
    apply in_seq in H. lia. }
  exists C. split; [exact HC|]. split.
  - apply in_map_iff in Hsi. destruct Hsi as (k & E & Hk).
    rewrite <- (Hinj k i (Hb k Hk) Hi E). exact Hk.
  - apply in_map_iff in Hsj. destruct Hsj as (k & E & Hk).
    rewrite <- (Hinj k j (Hb k Hk) Hj E). exact Hk.
Qed.

Lemma partitions_singletons (n : nat) :
  partitions n (map (fun i => [i]) (seq 0 n)).
Proof.
  unfold partitions. generalize 0%nat as a.
  induction n as [|n IH]; intros a; simpl; [constructor|].
  constructor. apply IH.
Qed.

Lemma nth_error_combine {X Y : Type} (l1 : list X) (l2 : list Y) (i : nat)
  (a : X) (b : Y) :
  nth_error l1 i = Some a -> nth_error l2 i = Some b ->
  nth_error (combine l1 l2) i = Some (a, b).
Proof.
  revert l2 i. induction l1 as [|x l1 IH]; intros l2 i H1 H2.
  - destruct i; discriminate.
  - destruct l2 as [|y l2]; [destruct i; discriminate|].
    destruct i as [|i]; simpl in *.
    + congruence.
    + apply IH; assumption.
Qed.

Lemma cluster_of_cluster {A : Type} (xy : A -> Q * Q) (rows : list A)
  (cutoff : Q) (i : nat) :
  (i < List.length rows)%nat ->
  cluster_of (cluster xy rows cutoff) i
  = Some (cluster_id (flat_clusters xy rows cutoff) i).
Proof.
  intros Hi. destruct rows as [|r0 [|r1 rows]].
  - simpl in Hi. lia.
  - simpl in Hi. assert (i = 0%nat) by lia. subst. reflexivity.
  - unfold cluster, flat_clusters, linkage_fcluster, cluster_of.
    rewrite length_map.
    set (rs := r0 :: r1 :: rows) in *.
    destruct (nth_error rs i) as [r|] eqn:Er.
    2:{ apply nth_error_None in Er. lia. }
    rewrite (nth_error_combine rs _ i r
               (cluster_id (agglomerate (List.length rs) (pdist (map xy rs)) cutoff
                              (map (fun k => [k]) (seq 0 (List.length rs)))) i) Er).
    + reflexivity.
    + rewrite nth_error_map.
      rewrite (nth_error_nth' _ 0%nat) by (rewrite length_seq; exact Hi).
      rewrite seq_nth by exact Hi. reflexivity.
Qed.

(** *** Order of the input rows *)

Lemma permutation_index (sigma : list nat) (n : nat) :
  Permutation sigma (seq 0 n) ->
  List.length sigma = n /\
  (forall a, (a < n)%nat -> (nth a sigma 0 < n)%nat) /\
  (forall a b, (a < n)%nat -> (b < n)%nat ->
               nth a sigma 0%nat = nth b sigma 0%nat -> a = b).
Proof.
  intros HP.
  assert (Hlen : List.length sigma = n).
  { rewrite (Permutation_length HP). apply length_seq. }
  split; [exact Hlen|]. split.
  - intros a Ha.
    assert (H : In (nth a sigma 0%nat) (seq 0 n)).
    { apply (Permutation_in _ HP). apply nth_In. lia. }
    apply in_seq in H. lia.
  - intros a b Ha Hb E.
    assert (Hnd : NoDup sigma).
    { apply (Permutation_NoDup (Permutation_sym HP)). apply seq_NoDup. }
    apply (proj1 (NoDup_nth sigma 0%nat) Hnd); [lia|lia|exact E].
Qed.

(** The condensed matrix of the permuted rows is that of the rows with the
    observations renamed. *)
Lemma pdist_permute {A : Type} (xy : A -> Q * Q) (dflt : A) (rows : list A)
  (sigma : list nat) :
  Permutation sigma (seq 0 (List.length rows)) ->
  forall i j,
    i <> j -> (i < List.length rows)%nat -> (j < List.length rows)%nat ->
    condensed (pdist (map xy (permute dflt sigma rows))) i j
    = condensed (pdist (map xy rows)) (nth i sigma 0%nat) (nth j sigma 0%nat).
Proof.
  intros HP i j Hne Hi Hj.
  destruct (permutation_index sigma _ HP) as (Hlen & Hb & Hinj).
  unfold permute. rewrite map_map.
  rewrite (condensed_pdist _ (xy (nth 0 rows dflt)) i j Hne)
    by (rewrite length_map; lia).
  rewrite (condensed_pdist _ (xy dflt) (nth i sigma 0%nat) (nth j sigma 0%nat)).
  - rewrite !(map_nth (fun k => xy (nth k rows dflt)) sigma 0%nat).
    rewrite !(map_nth xy rows dflt). reflexivity.
  - intros E. apply Hne. apply Hinj; assumption.
  - rewrite length_map. apply Hb. exact Hi.
  - rewrite length_map. apply Hb. exact Hj.
Qed.

(** C6 (counterexample): the three detections of [collinear] are clustered
    with cutoff 1.2, as listed and in reverse order.  The two lists have the
    same condensed distance matrix (1, 2, 1), so both runs return the cluster
    numbers 1, 1, 2: in the reversed list the detections at x = 2 and x = 1
    share a cluster, in the original list they do not. *)
Lemma cluster_depends_on_order :
  let dflt := mkRow 0 0 0 0 0 0 in
  let reversed := permute dflt [2; 1; 0]%nat collinear in
  Permutation [2; 1; 0]%nat (seq 0 (List.length collinear)) /\
  pdist (map row_xy reversed) = pdist (map row_xy collinear) /\
  map snd (cluster row_xy collinear (12 # 10)) = [1; 1; 2]%Z /\
  map snd (cluster row_xy reversed (12 # 10)) = [1; 1; 2]%Z /\
  ~ (cluster_of (cluster row_xy reversed (12 # 10)) 0
     = cluster_of (cluster row_xy reversed (12 # 10)) 1
     <-> cluster_of (cluster row_xy collinear (12 # 10)) 2
         = cluster_of (cluster row_xy collinear (12 # 10)) 1).
Proof.
  cbv zeta. split.
  - simpl. apply Permutation_sym.
    change [2; 1; 0]%nat with (rev [0; 1; 2]%nat). apply Permutation_rev.
  - split; [vm_compute; reflexivity|].
    split; [vm_compute; reflexivity|].
    split; [vm_compute; reflexivity|].
    intros [H _]. specialize (H eq_refl). vm_compute in H. discriminate H.
Qed.

(** C6 (amended): when no tie occurs during the clustering of [rows] (every
    merge joins the one closest pair of clusters), the partition given by
    the cluster numbers does not depend on the order of the rows: for the
    rows listed in the order of any permutation [sigma], two rows receive
    the same cluster number exactly when they do in the original order. *)
Theorem cluster_partition_order_independent {A : Type} (xy : A -> Q * Q)
  (dflt : A) (rows : list A) (sigma : list nat) (cutoff : Q) :
  Permutation sigma (seq 0 (List.length rows)) ->
  no_ties xy rows cutoff = true ->
  forall i j,
    (i < List.length rows)%nat -> (j < List.length rows)%nat ->
    (cluster_of (cluster xy (permute dflt sigma rows) cutoff) i
     = cluster_of (cluster xy (permute dflt sigma rows) cutoff) j
     <-> cluster_of (cluster xy rows cutoff) (nth i sigma 0%nat)
         = cluster_of (cluster xy rows cutoff) (nth j sigma 0%nat)).
Proof.
  intros HP Hfree i j Hi Hj.
  destruct (permutation_index sigma _ HP) as (Hlen & Hb & Hinj).
  set (n := List.length rows) in *.
  set (s := fun k => nth k sigma 0%nat).
  assert (Hlen' : List.length (permute dflt sigma rows) = n)
    by (unfold permute; rewrite length_map; exact Hlen).
  rewrite !cluster_of_cluster by (try rewrite Hlen'; auto).
  unfold flat_clusters. rewrite Hlen'. fold n.
  set (d := pdist (map xy rows)).
  set (d' := pdist (map xy (permute dflt sigma rows))).
  set (S0 := map (fun k => [k]) (seq 0 n)).
  set (F := agglomerate n d cutoff S0).
  set (F' := agglomerate n d' cutoff S0).
  assert (HF : partitions n F)
    by (apply agglomerate_partitions, partitions_singletons).
  assert (HF' : partitions n F')
    by (apply agglomerate_partitions, partitions_singletons).
  assert (Hsim : sim F (map (map s) F')).
  { unfold F'.
    rewrite (agglomerate_relabel d d' s n
               (pdist_permute xy dflt rows sigma HP) cutoff n S0
               (partitions_singletons n)).
    apply agglomerate_sim; [|exact Hfree].
    unfold S0. rewrite map_map. cbn [map].
    change (fun x => [s x]) with (fun x => (fun k => [k]) (s x)).
    rewrite <- (map_map s (fun k => [k])).
    apply Permutation_PermutationA; [typeclasses eauto|].
    apply Permutation_map. apply Permutation_sym.
    replace (map s (seq 0 n)) with sigma; [exact HP|].
    apply (nth_ext _ _ 0%nat (s 0%nat)).
    - rewrite length_map, length_seq. exact Hlen.
    - intros k Hk. rewrite Hlen in Hk.
      rewrite (map_nth s), seq_nth by exact Hk. reflexivity. }
  assert (HndF : NoDup (List.concat F))
    by (apply (Permutation_NoDup (Permutation_sym HF)), seq_NoDup).
  assert (HndF' : NoDup (List.concat F'))
    by (apply (Permutation_NoDup (Permutation_sym HF')), seq_NoDup).
  assert (Hin : forall k S, partitions n S -> (k < n)%nat -> In k (List.concat S)).
  { intros k S HS Hk. apply (Permutation_in _ (Permutation_sym HS)).
    apply in_seq. lia. }
  split; intros E.
  - f_equal. apply same_cluster_id; [exact HndF|].
    apply (same_cluster_sim (map (map s) F') F); [apply sim_sym; exact Hsim|].
    apply (same_cluster_map s). apply cluster_id_same; [apply Hin; assumption|].
    injection E as E. exact E.
  - f_equal. apply same_cluster_id; [exact HndF'|].
    apply (same_cluster_map_inv s n F' i j Hinj HF' Hi Hj).
    apply (same_cluster_sim F); [exact Hsim|].
    apply cluster_id_same; [apply Hin; [exact HF|apply Hb; exact Hi]|].
    injection E as E. exact E.
Qed.

(** The detections of [spread], as listed and reversed: the rows at x = 1 and
    x = 0 share a cluster in both runs. *)
Lemma cluster_partition_order_independent_witness :
  Permutation [2; 1; 0]%nat (seq 0 (List.length spread)) /\
  no_ties row_xy spread (12 # 10) = true /\
  (cluster_of (cluster row_xy (permute (mkRow 0 0 0 0 0 0) [2; 1; 0]%nat spread)
                       (12 # 10)) 1
   = cluster_of (cluster row_xy (permute (mkRow 0 0 0 0 0 0) [2; 1; 0]%nat spread)
                         (12 # 10)) 2
   <-> cluster_of (cluster row_xy spread (12 # 10)) 1
       = cluster_of (cluster row_xy spread (12 # 10)) 0).
Proof.
  assert (HP : Permutation [2; 1; 0]%nat (seq 0 (List.length spread))).
  { simpl. apply Permutation_sym.
    change [2; 1; 0]%nat with (rev [0; 1; 2]%nat). apply Permutation_rev. }
  assert (Hfree : no_ties row_xy spread (12 # 10) = true)
    by (vm_compute; reflexivity).
  split; [exact HP|]. split; [exact Hfree|].
  exact (cluster_partition_order_independent row_xy (mkRow 0 0 0 0 0 0) spread
           [2; 1; 0]%nat (12 # 10) HP Hfree 1%nat 2%nat
           ltac:(simpl; lia) ltac:(simpl; lia)).
Defined.

(** * Part IV: further properties of the code *)

(** ** Tiles *)

Lemma mapM_inv {A B : Type} (f : A -> result B) (l : list A) (bs : list B) :
  mapM f l = Ok bs -> Forall2 (fun a b => f a = Ok b) l bs.
Proof.
  revert bs. induction l as [|a l IH]; simpl; intros bs H.
  - inversion H. constructor.
  - destruct (f a) as [b|e] eqn:E; [|discriminate]. simpl in H.
    destruct (mapM f l) as [bs'|e]; [|discriminate]. simpl in H.
    inversion H; subst. constructor; [exact E|apply IH; reflexivity].
Qed.

Lemma subseq_app {A : Type} (l1 l2 k1 k2 : list A) :
  subseq l1 l2 -> subseq k1 k2 -> subseq (l1 ++ k1) (l2 ++ k2).
Proof.
  induction 1 as [|a l1 l2 _ IH|a l1 l2 _ IH]; intros Hk; simpl.
  - exact Hk.
  - apply subseq_skip. apply IH. exact Hk.
  - apply subseq_keep. apply IH. exact Hk.
Qed.

Lemma subseq_in {A : Type} (l1 l2 : list A) (a : A) :
  subseq l1 l2 -> In a l1 -> In a l2.
Proof.
  induction 1; intros Hin; [exact Hin| |].
  - right. auto.
  - destruct Hin as [->|Hin]; [left; reflexivity|right; auto].
Qed.

Lemma keep_saved_app (l1 l2 : list (option Tile)) :
  keep_saved (l1 ++ l2) = (keep_saved l1 ++ keep_saved l2)%list.
Proof. unfold keep_saved. apply flat_map_app. Qed.

(** The number of border samples does not depend on the pixels. *)
Lemma border_counts_total (img : Image) (tile_size left top : Z) :
  snd (border_counts img tile_size left top)
  = (4 * Z.of_nat (List.length (py_range8 (tile_size - 1))))%Z /\
  (0 <= fst (border_counts img tile_size left top)
   <= snd (border_counts img tile_size left top))%Z.
Proof.
  unfold border_counts.
  generalize (py_range8 (tile_size - 1)) as offsets. intros offsets.
  assert (G : forall offsets acc,
    (0 <= fst acc <= snd acc)%Z ->
    let r := fold_left
      (fun acc f =>
         let acc := tally acc (im_black img (left + f) top)%Z in
         let acc := tally acc (im_black img left (top + f))%Z in
         let acc := tally acc (im_black img (left + tile_size - 1) (top + f))%Z in
         tally acc (im_black img (left + f) (top + tile_size - 1))%Z)
      offsets acc in
    snd r = (snd acc + 4 * Z.of_nat (List.length offsets))%Z /\
    (0 <= fst r <= snd r)%Z).
  { clear offsets. induction offsets as [|f offsets IH]; intros acc Hacc.
    - simpl. split; [lia|exact Hacc].
    - cbn [fold_left]. cbv zeta.
      set (acc4 := tally _ _).
      assert (H4 : snd acc4 = (snd acc + 4)%Z /\ (0 <= fst acc4 <= snd acc4)%Z).
      { unfold acc4, tally. destruct acc as [pe total]. cbn [fst snd] in *.
        destruct (im_black img (left + f) top), (im_black img left (top + f)),
          (im_black img (left + tile_size - 1) (top + f)),
          (im_black img (left + f) (top + tile_size - 1)); cbn [fst snd]; lia. }
      destruct H4 as [Hs Hb].
      destruct (IH acc4 Hb) as [IH1 IH2]. cbv zeta in IH1, IH2.
      split; [rewrite IH1, Hs; cbn [List.length]; lia|exact IH2]. }
  destruct (G offsets (0, 0)%Z ltac:(simpl; lia)) as [G1 G2].
  cbv zeta in G1, G2. split; [rewrite G1; simpl; lia|exact G2].
Qed.

(** A visit raises no exception when the tile is at least two pixels wide,
    and a tile that is saved has its offsets at its indices times the
    stride. *)
Lemma visit_tile_cases (img : Image) (tile_size stride i j : Z) :
  (2 <= tile_size)%Z ->
  visit_tile img tile_size stride i j = Ok None \/
  visit_tile img tile_size stride i j
  = Ok (Some (mkTile i j (j * stride) (i * stride))).
Proof.
  intros Hsize. unfold visit_tile.
  destruct (border_counts_total img tile_size (j * stride) (i * stride))
    as [Htotal _].
  destruct (border_counts img tile_size (j * stride) (i * stride))
    as [pe total]. cbn [snd] in Htotal.
  pose proof (py_range8_length (tile_size - 1)%Z ltac:(lia)) as Hlen.
  destruct (Z.eqb_spec total 0); [lia|].
  destruct (93 * total <? 100 * pe)%Z; [left|right]; reflexivity.
Qed.

Lemma visit_tile_saved (img : Image) (tile_size stride i j : Z) (t : Tile) :
  visit_tile img tile_size stride i j = Ok (Some t) ->
  t = mkTile i j (j * stride) (i * stride).
Proof.
  unfold visit_tile.
  destruct (border_counts img tile_size (j * stride) (i * stride)) as [pe total].
  destruct (total =? 0)%Z; [discriminate|].
  destruct (93 * total <? 100 * pe)%Z; intros H; inversion H. reflexivity.
Qed.

Lemma row_saved_subseq (img : Image) (tile_size stride i : Z) (js : list Z)
  (r : list (option Tile)) :
  Forall2 (fun j o => visit_tile img tile_size stride i j = Ok o) js r ->
  subseq (keep_saved r)
         (map (fun j => mkTile i j (j * stride) (i * stride)) js).
Proof.
  induction 1 as [|j o js r Hv _ IH]; [constructor|].
  cbn [map]. change (keep_saved (o :: r))
    with ((match o with Some t => [t] | None => [] end) ++ keep_saved r)%list.
  destruct o as [t|].
  - rewrite (visit_tile_saved _ _ _ _ _ _ Hv). simpl. apply subseq_keep. exact IH.
  - simpl. apply subseq_skip. exact IH.
Qed.

Lemma in_py_range (n k : Z) : In k (py_range n) <-> (0 <= k < n)%Z.
Proof.
  unfold py_range. rewrite in_map_iff. split.
  - intros (m & <- & Hm). apply in_seq in Hm. lia.
  - intros Hk. exists (Z.to_nat k). split; [lia|]. apply in_seq. lia.
Qed.

Lemma in_row_major (rows cols stride : Z) (t : Tile) :
  In t (row_major rows cols stride) <->
  (0 <= tile_i t < rows)%Z /\ (0 <= tile_j t < cols)%Z /\
  tile_left t = (tile_j t * stride)%Z /\ tile_top t = (tile_i t * stride)%Z.
Proof.
  unfold row_major. rewrite in_flat_map. split.
  - intros (i & Hi & Ht). apply in_map_iff in Ht. destruct Ht as (j & <- & Hj).
    apply in_py_range in Hi, Hj. cbn. auto.
  - intros (Hi & Hj & Hl & Ht). exists (tile_i t).
    split; [apply in_py_range; exact Hi|].
    apply in_map_iff. exists (tile_j t).
    split; [|apply in_py_range; exact Hj].
    destruct t as [i j l tp]. cbn in *. subst. reflexivity.
Qed.

(** The progress message raises when the height is five strides. *)
Lemma print_progress_raises (height stride i : Z) :
  stride <> 0%Z -> height = (5 * stride)%Z ->
  print_progress height stride i = Raise ZeroDivisionError.
Proof.
  intros Hs ->. unfold print_progress.
  assert (Hq : ~ inject_Z stride == 0).
  { intros H. apply Hs. unfold Qeq, inject_Z in H. cbn [Qnum Qden] in H. lia. }
  assert (E : inject_Z (5 * stride) / inject_Z stride - 5 == 0)
    by (rewrite inject_Z_mult; field; exact Hq).
  apply Qeq_bool_iff in E. rewrite E. reflexivity.
Qed.

Lemma print_progress_cases (height stride i : Z) :
  print_progress height stride i = Ok tt \/
  print_progress height stride i = Raise ZeroDivisionError.
Proof.
  unfold print_progress. destruct (Qeq_bool _ _); [right|left]; reflexivity.
Qed.

(** One turn of the loop over the rows: the tiles of the row, then the
    progress message. *)
Lemma segment_row_inv (f : Z -> result (option Tile)) (cols : list Z)
  (height stride i : Z) (r : list (option Tile)) :
  (row <- mapM f cols ;; _ <- print_progress height stride i ;; Ok row) = Ok r ->
  mapM f cols = Ok r /\ print_progress height stride i = Ok tt.
Proof.
  destruct (mapM f cols) as [row|e]; cbn [bind]; [|discriminate].
  destruct (print_progress height stride i) as [[]|e]; cbn [bind];
    [|discriminate].
  intros H. injection H as ->. split; reflexivity.
Qed.

(** Whenever the call returns, the checks have passed, the tiles saved form
    a sub-sequence of the row-major grid, and the height is not five
    strides unless there is no row of tiles. *)
Lemma segment_inv (img : Image) (tile_size stride : Z) (tiles : list Tile) :
  segment_image_for_classification img tile_size stride = Ok tiles ->
  (stride <> 0 /\ im_width img mod stride = 0 /\ im_height img mod stride = 0 /\
   tile_size mod stride = 0)%Z /\
  subseq tiles (row_major (n_rows (im_height img) tile_size stride)
                          (n_cols (im_width img) tile_size stride) stride) /\
  ((0 < n_rows (im_height img) tile_size stride)%Z ->
   im_height img <> (5 * stride)%Z).
Proof.
  unfold segment_image_for_classification. intros H.
  destruct (Z.eqb_spec stride 0) as [|Hs]; [discriminate|].
  destruct (Z.eqb_spec (im_width img mod stride) 0) as [Hw|]; [|discriminate].
  destruct (Z.eqb_spec (im_height img mod stride) 0) as [Hh|]; [|discriminate].
  destruct (Z.eqb_spec (tile_size mod stride) 0) as [Ht|]; [|discriminate].
  cbn [negb orb] in H.
  destruct (mapM _ (py_range (n_rows (im_height img) tile_size stride)))
    as [rows|e] eqn:E; [|discriminate].
  cbn [bind] in H. inversion H; subst tiles; clear H.
  split; [auto|].
  apply mapM_inv in E. split.
  - unfold row_major.
    induction E as [|i r ixs rows Hr _ IH]; [constructor|].
    cbn [List.concat flat_map]. rewrite keep_saved_app.
    apply subseq_app; [|exact IH].
    apply row_saved_subseq with (img := img) (tile_size := tile_size).
    apply mapM_inv. apply segment_row_inv in Hr. exact (proj1 Hr).
  - intros Hrows H5.
    assert (Hin : In 0%Z (py_range (n_rows (im_height img) tile_size stride)))
      by (apply in_py_range; lia).
    revert Hin. induction E as [|i r ixs rows Hr _ IH]; [intros []|].
    intros [->|Hin]; [|exact (IH Hin)].
    apply segment_row_inv in Hr. destruct Hr as [_ Hp].
    rewrite (print_progress_raises _ _ _ Hs H5) in Hp. discriminate.
Qed.

(** X1: whenever [segment_image_for_classification] returns, the stride is
    not zero and divides the width, the height and the tile size, and the
    tiles saved are tiles of the grid in row-major order, none of them twice
    (a sub-sequence of the row-major grid); for a positive stride every
    saved tile lies inside the image.  The call never returns for an image
    five strides high that has a row of tiles. *)
Theorem segment_tiles_on_grid (img : Image) (tile_size stride : Z)
  (tiles : list Tile) :
  segment_image_for_classification img tile_size stride = Ok tiles ->
  (stride <> 0 /\ im_width img mod stride = 0 /\ im_height img mod stride = 0 /\
   tile_size mod stride = 0)%Z /\
  subseq tiles (row_major (n_rows (im_height img) tile_size stride)
                          (n_cols (im_width img) tile_size stride) stride) /\
  ((0 < n_rows (im_height img) tile_size stride)%Z ->
   im_height img <> (5 * stride)%Z) /\
  ((0 < stride)%Z ->
   forall t, In t tiles ->
     (tile_left t = tile_j t * stride /\ tile_top t = tile_i t * stride /\
      0 <= tile_left t /\ tile_left t + tile_size <= im_width img /\
      0 <= tile_top t /\ tile_top t + tile_size <= im_height img)%Z).
Proof.
  intros H. destruct (segment_inv img tile_size stride tiles H)
    as ((Hs & Hw & Hh & Ht) & Hsub & H5).
  split; [auto|]. split; [exact Hsub|]. split; [exact H5|].
  intros Hpos t Hin.
  apply (subseq_in _ _ t Hsub) in Hin. apply in_row_major in Hin.
  destruct Hin as (Hi & Hj & Hl & Htop). unfold n_rows, n_cols in *.
  pose proof (Z.div_mod (im_width img) stride Hs) as Dw.
  pose proof (Z.div_mod (im_height img) stride Hs) as Dh.
  pose proof (Z.div_mod tile_size stride Hs) as Dt.
  rewrite Hl, Htop. nia.
Qed.

(** The raster [clear_832] cut into tiles of 416 pixels with stride 104. *)
Lemma segment_tiles_on_grid_witness :
  segment_image_for_classification clear_832 416 104 = Ok (row_major 4 5 104) /\
  (0 < 104)%Z /\
  In (mkTile 3 4 416 312) (row_major 4 5 104) /\
  (tile_left (mkTile 3 4 416 312) + 416 <= im_width clear_832)%Z /\
  (tile_top (mkTile 3 4 416 312) + 416 <= im_height clear_832)%Z.
Proof.
  assert (E : segment_image_for_classification clear_832 416 104
              = Ok (row_major 4 5 104)).
  { rewrite segment_clear_image; try reflexivity; simpl; lia. }
  assert (Hin : In (mkTile 3 4 416 312) (row_major 4 5 104))
    by (vm_compute; tauto).
  split; [exact E|]. split; [lia|]. split; [exact Hin|].
  destruct (proj2 (proj2 (proj2 (segment_tiles_on_grid clear_832 416 104 _ E)))
              ltac:(lia) _ Hin) as (_ & _ & _ & Hw & _ & Hh).
  split; assumption.
Defined.

Lemma border_counts_black (img : Image) (tile_size left top : Z) :
  (forall x y, im_black img x y = true) ->
  fst (border_counts img tile_size left top)
  = snd (border_counts img tile_size left top).
Proof.
  intros Hblack. unfold border_counts.
  generalize (py_range8 (tile_size - 1)) as offsets. intros offsets.
  assert (G : forall offsets acc,
    fst acc = snd acc ->
    let r := fold_left
      (fun acc f =>
         let acc := tally acc (im_black img (left + f) top)%Z in
         let acc := tally acc (im_black img left (top + f))%Z in
         let acc := tally acc (im_black img (left + tile_size - 1) (top + f))%Z in
         tally acc (im_black img (left + f) (top + tile_size - 1))%Z)
      offsets acc in
    fst r = snd r).
  { clear offsets. induction offsets as [|f offsets IH]; intros acc Hacc.
    - exact Hacc.
    - cbn [fold_left]. cbv zeta. apply IH. rewrite !Hblack.
      destruct acc as [pe total]. cbn [fst snd tally] in *. lia. }
  exact (G offsets (0, 0)%Z eq_refl).
Qed.

Lemma visit_tile_black (img : Image) (tile_size stride i j : Z) :
  (forall x y, im_black img x y = true) ->
  (2 <= tile_size)%Z ->
  visit_tile img tile_size stride i j = Ok None.
Proof.
  intros Hblack Hsize. unfold visit_tile.
  pose proof (border_counts_black img tile_size (j * stride) (i * stride) Hblack)
    as Heq.
  destruct (border_counts_total img tile_size (j * stride) (i * stride))
    as [Htotal _].
  destruct (border_counts img tile_size (j * stride) (i * stride))
    as [pe total]. cbn [fst snd] in *.
  pose proof (py_range8_length (tile_size - 1)%Z ltac:(lia)) as Hlen.
  destruct (Z.eqb_spec total 0); [lia|].
  destruct (Z.ltb_spec (93 * total) (100 * pe)); [reflexivity|lia].
Qed.

Lemma keep_saved_none (rows : list (list Z)) :
  keep_saved (List.concat (map (map (fun _ : Z => @None Tile)) rows)) = [].
Proof.
  induction rows as [|r rows IH]; [reflexivity|].
  cbn [map List.concat]. rewrite keep_saved_app, IH, app_nil_r.
  induction r as [|j r IHr]; [reflexivity|exact IHr].
Qed.

(** X2: on an image that passes the divisibility checks and whose pixels
    are all black, such as a raster that is padding only, every tile is
    dropped: the call returns the empty list (unless the image is five
    strides high, when the progress message divides by zero). *)
Theorem segment_black_image_no_tiles (img : Image) (tile_size stride : Z) :
  (forall x y, im_black img x y = true) ->
  (0 < stride)%Z -> (2 <= tile_size)%Z ->
  (im_width img mod stride = 0)%Z ->
  (im_height img mod stride = 0)%Z ->
  (tile_size mod stride = 0)%Z ->
  im_height img <> (5 * stride)%Z ->
  segment_image_for_classification img tile_size stride = Ok [].
Proof.
  intros Hblack Hpos Ht Hw Hh Hts H5. unfold segment_image_for_classification.
  assert (Hs : stride <> 0%Z) by lia.
  destruct (Z.eqb_spec stride 0); [contradiction|].
  rewrite Hw, Hh, Hts. cbn [Z.eqb negb orb].
  rewrite (mapM_all_ok _
    (fun i => map (fun _ : Z => @None Tile)
                  (py_range (n_cols (im_width img) tile_size stride)))).
  - cbn [bind]. f_equal.
    rewrite <- (map_map (fun _ : Z => py_range (n_cols (im_width img) tile_size stride))
                        (map (fun _ : Z => @None Tile))).
    apply keep_saved_none.
  - intros i _.
    rewrite (mapM_all_ok _ (fun _ : Z => @None Tile)).
    + cbn [bind]. rewrite print_progress_ok; [reflexivity|exact Hs|exact H5].
    + intros j _. apply visit_tile_black; assumption.
Qed.

Lemma segment_black_image_no_tiles_witness :
  (forall x y, im_black (black_image 832 832) x y = true) /\
  (0 < 104)%Z /\ (2 <= 416)%Z /\
  (im_width (black_image 832 832) mod 104 = 0)%Z /\
  (im_height (black_image 832 832) mod 104 = 0)%Z /\
  (416 mod 104 = 0)%Z /\
  im_height (black_image 832 832) <> (5 * 104)%Z /\
  segment_image_for_classification (black_image 832 832) 416 104 = Ok [].
Proof.
  assert (Hb : forall x y, im_black (black_image 832 832) x y = true)
    by (intros x y; reflexivity).
  split; [exact Hb|]. split; [lia|]. split; [lia|].
  split; [reflexivity|]. split; [reflexivity|]. split; [reflexivity|].
  split; [discriminate|].
  exact (segment_black_image_no_tiles (black_image 832 832) 416 104 Hb
           ltac:(lia) ltac:(lia) eq_refl eq_refl eq_refl ltac:(discriminate)).
Defined.

(** For a tile size of at least two pixels, dimensions that pass the
    checks and a height other than five strides, the call returns. *)
Lemma segment_returns (img : Image) (tile_size stride : Z) :
  stride <> 0%Z -> (2 <= tile_size)%Z ->
  (im_width img mod stride = 0)%Z ->
  (im_height img mod stride = 0)%Z ->
  (tile_size mod stride = 0)%Z ->
  im_height img <> (5 * stride)%Z ->
  exists tiles, segment_image_for_classification img tile_size stride = Ok tiles.
Proof.
  intros Hs Ht Hw Hh Hts H5. unfold segment_image_for_classification.
  destruct (Z.eqb_spec stride 0); [contradiction|].
  rewrite Hw, Hh, Hts. cbn [Z.eqb negb orb].
  assert (Hrow : forall i js, exists r,
             mapM (fun j => visit_tile img tile_size stride i j) js = Ok r).
  { intros i js. induction js as [|j js [r IH]]; [exists []; reflexivity|].
    cbn [mapM]. rewrite IH.
    destruct (visit_tile_cases img tile_size stride i j Ht) as [E|E];
      rewrite E; cbn [bind]; eexists; reflexivity. }
  generalize (py_range (n_rows (im_height img) tile_size stride)) as ixs.
  intros ixs.
  assert (Hrows : exists rows,
    mapM (fun i =>
            row <- mapM (fun j => visit_tile img tile_size stride i j)
                        (py_range (n_cols (im_width img) tile_size stride)) ;;
            _ <- print_progress (im_height img) stride i ;;
            Ok row)
         ixs = Ok rows).
  { induction ixs as [|i ixs [rows IH]]; [exists []; reflexivity|].
    cbn [mapM]. destruct (Hrow i (py_range (n_cols (im_width img) tile_size stride)))
      as [r Er]. rewrite Er. cbn [bind].
    rewrite (print_progress_ok _ _ _ Hs H5). cbn [bind]. rewrite IH.
    cbn [bind]. eexists; reflexivity. }
  destruct Hrows as [rows Er]. rewrite Er. cbn [bind]. eexists; reflexivity.
Qed.

Lemma py_range_cons (n : Z) :
  (0 < n)%Z -> exists rest, py_range n = 0%Z :: rest.
Proof.
  intros Hn. unfold py_range.
  destruct (Z.to_nat n) as [|m] eqn:E; [lia|].
  cbn [seq map]. eexists; reflexivity.
Qed.

(** X3: a tile size of at most one pixel leaves the border scan without a
    sample, and the first visit of a tile divides by zero: when the checks
    pass and the grid is not empty, the call raises [ZeroDivisionError]. *)
Theorem segment_tiny_tile_raises (img : Image) (tile_size stride : Z) :
  stride <> 0%Z -> (tile_size <= 1)%Z ->
  (im_width img mod stride = 0)%Z ->
  (im_height img mod stride = 0)%Z ->
  (tile_size mod stride = 0)%Z ->
  (0 < n_rows (im_height img) tile_size stride)%Z ->
  (0 < n_cols (im_width img) tile_size stride)%Z ->
  segment_image_for_classification img tile_size stride = Raise ZeroDivisionError.
Proof.
  intros Hs Ht Hw Hh Hts Hr Hc. unfold segment_image_for_classification.
  destruct (Z.eqb_spec stride 0); [contradiction|].
  rewrite Hw, Hh, Hts. cbn [Z.eqb negb orb].
  destruct (py_range_cons _ Hr) as [rs ->].
  destruct (py_range_cons _ Hc) as [cs ->].
  cbn [mapM].
  assert (E : visit_tile img tile_size stride 0 0 = Raise ZeroDivisionError).
  { unfold visit_tile.
    destruct (border_counts_total img tile_size (0 * stride) (0 * stride))
      as [Htotal _].
    destruct (border_counts img tile_size (0 * stride) (0 * stride))
      as [pe total]. cbn [snd] in Htotal.
    assert (Hlen : List.length (py_range8 (tile_size - 1)) = 0%nat).
    { unfold py_range8. rewrite length_map, length_seq.
      assert ((tile_size - 1 + 7) / 8 <= 0)%Z.
      { apply Z.lt_succ_r. apply Z.div_lt_upper_bound; lia. }
      lia. }
    rewrite Hlen in Htotal. subst total. reflexivity. }
  rewrite E. reflexivity.
Qed.

Lemma segment_tiny_tile_raises_witness :
  1%Z <> 0%Z /\ (1 <= 1)%Z /\
  (im_width (black_image 2 2) mod 1 = 0)%Z /\
  (im_height (black_image 2 2) mod 1 = 0)%Z /\
  (1 mod 1 = 0)%Z /\
  (0 < n_rows (im_height (black_image 2 2)) 1 1)%Z /\
  (0 < n_cols (im_width (black_image 2 2)) 1 1)%Z /\
  segment_image_for_classification (black_image 2 2) 1 1 = Raise ZeroDivisionError.
Proof.
  split; [lia|]. split; [lia|]. split; [reflexivity|]. split; [reflexivity|].
  split; [reflexivity|]. split; [reflexivity|]. split; [reflexivity|].
  exact (segment_tiny_tile_raises (black_image 2 2) 1 1 ltac:(lia) ltac:(lia)
           eq_refl eq_refl eq_refl eq_refl eq_refl).
Defined.

Lemma mapM_raise {A B : Type} (f : A -> result B) (l : list A) (e : exn) :
  mapM f l = Raise e -> exists a, In a l /\ f a = Raise e.
Proof.
  induction l as [|a l IH]; cbn [mapM]; [discriminate|].
  destruct (f a) as [b|e'] eqn:E; cbn [bind].
  - destruct (mapM f l) as [bs|e'']; cbn [bind]; [discriminate|].
    intros H. injection H as ->.
    destruct (IH eq_refl) as (x & Hx & Ex). exists x. split; [right; exact Hx|exact Ex].
  - intros H. injection H as ->. exists a. split; [left; reflexivity|exact E].
Qed.





(** ** Padding *)

Lemma ceil_div_padding (a b : Z) :
  (0 < b)%Z -> (0 <= ceil_div a b * b - a < b)%Z.
Proof.
  intros Hb. unfold ceil_div.
  pose proof (Z.div_mod (- a) b ltac:(lia)).
  pose proof (Z.mod_pos_bound (- a) b Hb). nia.
Qed.

Lemma floor_ceil_halves (x : Z) :
  (floor_div x 2 + ceil_div x 2 = x)%Z /\
  (0 <= ceil_div x 2 - floor_div x 2 <= 1)%Z.
Proof.
  unfold floor_div, ceil_div.
  pose proof (Z.div_mod x 2 ltac:(lia)).
  pose proof (Z.mod_pos_bound x 2 ltac:(lia)).
  pose proof (Z.div_mod (- x) 2 ltac:(lia)).
  pose proof (Z.mod_pos_bound (- x) 2 ltac:(lia)).
  lia.
Qed.

Lemma mod_0_mul (a b : Z) : b <> 0%Z -> (a mod b = 0)%Z -> exists q, a = (q * b)%Z.
Proof.
  intros Hb H. exists (a / b)%Z.
  pose proof (Z.div_mod a b Hb). lia.
Qed.

(** The size of the padded image: each dimension is rounded up to a
    multiple of the stride and grows by [tile_size - stride] on both
    sides. *)
Lemma create_padded_png_size (img : Image) (tile_size stride : Z) :
  stride <> 0%Z ->
  exists p,
    create_padded_png img tile_size stride = Ok p /\
    im_width p
    = (ceil_div (im_width img) stride * stride + 2 * (tile_size - stride))%Z /\
    im_height p
    = (ceil_div (im_height img) stride * stride + 2 * (tile_size - stride))%Z.
Proof.
  intros Hs. unfold create_padded_png.
  destruct (Z.eqb_spec stride 0); [contradiction|].
  eexists. split; [reflexivity|]. unfold add_margin. cbn [im_width im_height].
  destruct (floor_ceil_halves (ceil_div (im_width img) stride * stride - im_width img))
    as [Hw _].
  destruct (floor_ceil_halves (ceil_div (im_height img) stride * stride - im_height img))
    as [Hh _].
  split; lia.
Qed.

(** X5: for a positive stride that divides the tile size,
    [create_padded_png] returns an image whose width and height are
    multiples of the stride, at least as large as the raster plus
    [tile_size - stride] on every side and less than one stride larger.
    For a tile size of at least two pixels, cutting the padded image into
    tiles raises no exception unless it is five strides high, which it
    never is when the tile size is at least four strides. *)
Theorem padded_image_can_be_tiled (img : Image) (tile_size stride : Z) :
  (0 < stride <= tile_size)%Z -> (tile_size mod stride = 0)%Z ->
  exists p,
    create_padded_png img tile_size stride = Ok p /\
    (im_width p mod stride = 0)%Z /\ (im_height p mod stride = 0)%Z /\
    (0 <= im_width p - im_width img - 2 * (tile_size - stride) < stride)%Z /\
    (0 <= im_height p - im_height img - 2 * (tile_size - stride) < stride)%Z /\
    ((2 <= tile_size)%Z -> im_height p <> (5 * stride)%Z ->
     exists tiles, segment_image_for_classification p tile_size stride = Ok tiles) /\
    ((4 * stride <= tile_size)%Z -> (0 <= im_height img)%Z ->
     im_height p <> (5 * stride)%Z).
Proof.
  intros [Hs Hle] Ht.
  destruct (create_padded_png_size img tile_size stride ltac:(lia))
    as (p & Ep & Hw & Hh).
  exists p. split; [exact Ep|].
  destruct (mod_0_mul tile_size stride ltac:(lia) Ht) as [q Hq].
  assert (Hwm : (im_width p mod stride = 0)%Z).
  { rewrite Hw, Hq.
    replace (ceil_div (im_width img) stride * stride + 2 * (q * stride - stride))%Z
      with ((ceil_div (im_width img) stride + 2 * (q - 1)) * stride)%Z by ring.
    apply Z.mod_mul. lia. }
  assert (Hhm : (im_height p mod stride = 0)%Z).
  { rewrite Hh, Hq.
    replace (ceil_div (im_height img) stride * stride + 2 * (q * stride - stride))%Z
      with ((ceil_div (im_height img) stride + 2 * (q - 1)) * stride)%Z by ring.
    apply Z.mod_mul. lia. }
  pose proof (ceil_div_padding (im_width img) stride Hs).
  pose proof (ceil_div_padding (im_height img) stride Hs).
  split; [exact Hwm|]. split; [exact Hhm|].
  split; [lia|]. split; [lia|]. split.
  - intros Hsize H5. apply segment_returns; try assumption. lia.
  - intros H4 Hpos. lia.
Qed.

(** A raster of 830 by 1000 pixels, tile size 416 and stride 104. *)
Lemma padded_image_can_be_tiled_witness :
  exists p tiles,
    create_padded_png (mkImage 830 1000 (fun _ _ => false)) 416 104 = Ok p /\
    (im_width p mod 104 = 0)%Z /\ (im_height p mod 104 = 0)%Z /\
    segment_image_for_classification p 416 104 = Ok tiles.
Proof.
  destruct (padded_image_can_be_tiled (mkImage 830 1000 (fun _ _ => false))
              416 104 ltac:(lia) eq_refl)
    as (p & Ep & Hw & Hh & _ & _ & Hseg & H5).
  destruct (Hseg ltac:(lia) (H5 ltac:(lia) ltac:(cbn; lia))) as [tiles Et].
  exists p, tiles. repeat split; assumption.
Defined.

Lemma div_of_multiple (a q s : Z) : (0 < s)%Z -> a = (q * s)%Z -> (a / s = q)%Z.
Proof. intros Hs ->. apply Z.div_mul. lia. Qed.

(** Position of a stride band: the quotient [m] of [v] by [s] lies between
    the quotients of the bounds of [v]. *)
Lemma band_bounds (v s lo hi : Z) :
  (0 < s)%Z -> (lo * s <= v < hi * s)%Z ->
  (lo <= v / s < hi)%Z /\ (v / s * s <= v < v / s * s + s)%Z.
Proof.
  intros Hs Hv.
  pose proof (Z.div_mod v s ltac:(lia)).
  pose proof (Z.mod_pos_bound v s Hs).
  split; nia.
Qed.

(** X6: for a positive stride that divides the tile size, the padded image
    holds the raster unchanged at an offset [(L, T)], and the grid of tiles
    covers it densely: every pixel of the raster lies in
    [tile_size / stride] consecutive tile columns and in at least
    [tile_size / stride - 1] consecutive tile rows of the grid.  A tile row
    that holds the pixel is one of the [tile_size / stride] rows that end
    with the row of its stride band; for the pixels of the bottom row of the
    raster that last row is not in the grid, so they lie in exactly
    [tile_size / stride - 1] tile rows. *)
Theorem raster_pixels_covered (img : Image) (tile_size stride : Z) :
  (0 < stride <= tile_size)%Z -> (tile_size mod stride = 0)%Z ->
  exists p L T,
    create_padded_png img tile_size stride = Ok p /\
    forall x y,
      (0 <= x < im_width img)%Z -> (0 <= y < im_height img)%Z ->
      im_black p (x + L) (y + T) = im_black img x y /\
      (forall k, (0 <= k < tile_size / stride)%Z ->
                 let j := ((x + L) / stride - k)%Z in
                 (0 <= j < n_cols (im_width p) tile_size stride)%Z /\
                 (j * stride <= x + L < j * stride + tile_size)%Z) /\
      (forall k, (1 <= k < tile_size / stride)%Z ->
                 let i := ((y + T) / stride - k)%Z in
                 (0 <= i < n_rows (im_height p) tile_size stride)%Z /\
                 (i * stride <= y + T < i * stride + tile_size)%Z) /\
      (forall i, (0 <= i < n_rows (im_height p) tile_size stride)%Z ->
                 (i * stride <= y + T < i * stride + tile_size)%Z ->
                 exists k, (0 <= k < tile_size / stride)%Z /\
                           i = ((y + T) / stride - k)%Z /\
                           (y = im_height img - 1 -> 1 <= k)%Z).
Proof.
  intros [Hs _] Ht.
  destruct (mod_0_mul tile_size stride ltac:(lia) Ht) as [q Hq].
  pose proof (div_of_multiple tile_size q stride Hs Hq) as Hdiv.
  destruct (create_padded_png_size img tile_size stride ltac:(lia))
    as (p & Ep & Hw & Hh).
  set (wp := (ceil_div (im_width img) stride * stride - im_width img)%Z) in *.
  set (hp := (ceil_div (im_height img) stride * stride - im_height img)%Z) in *.
  exists p, (tile_size - stride + floor_div wp 2)%Z,
         (tile_size - stride + floor_div hp 2)%Z.
  split; [exact Ep|]. intros x y Hx Hy.
  pose proof (ceil_div_padding (im_width img) stride Hs) as Bw.
  pose proof (ceil_div_padding (im_height img) stride Hs) as Bh.
  fold wp in Bw. fold hp in Bh.
  destruct (floor_ceil_halves wp) as [Sw Dw].
  destruct (floor_ceil_halves hp) as [Sh Dh].
  assert (Fw : (0 <= floor_div wp 2 <= wp)%Z) by lia.
  assert (Fh : (0 <= floor_div hp 2 <= hp)%Z) by lia.
  assert (Hhq : (im_height p / stride
                 = ceil_div (im_height img) stride + 2 * (q - 1))%Z).
  { apply div_of_multiple; [exact Hs|]. rewrite Hh, Hq. ring. }
  split; [|split; [|split]].
  - unfold create_padded_png in Ep.
    destruct (Z.eqb_spec stride 0); [lia|].
    inversion Ep; subst p; clear Ep. unfold add_margin. cbn [im_black].
    fold wp hp.
    replace ((tile_size - stride + floor_div wp 2 <=? x + (tile_size - stride + floor_div wp 2))
             && (x + (tile_size - stride + floor_div wp 2)
                 <? tile_size - stride + floor_div wp 2 + im_width img)
             && (tile_size - stride + floor_div hp 2 <=? y + (tile_size - stride + floor_div hp 2))
             && (y + (tile_size - stride + floor_div hp 2)
                 <? tile_size - stride + floor_div hp 2 + im_height img))%Z
      with true.
    + f_equal; lia.
    + symmetry. repeat (apply andb_true_intro; split);
        first [apply Z.leb_le; lia | apply Z.ltb_lt; lia].
  - intros k Hk. cbv zeta. unfold n_cols. rewrite Hdiv in *.
    assert (Hwq : (im_width p / stride
                   = ceil_div (im_width img) stride + 2 * (q - 1))%Z).
    { apply div_of_multiple; [exact Hs|]. rewrite Hw, Hq. ring. }
    rewrite Hwq.
    set (v := (x + (tile_size - stride + floor_div wp 2))%Z).
    destruct (band_bounds v stride (q - 1)
                (q - 1 + ceil_div (im_width img) stride) Hs) as [B1 B2].
    { unfold v. unfold wp in *. nia. }
    split; nia.
  - intros k Hk. cbv zeta. unfold n_rows. rewrite Hdiv in *.
    rewrite Hhq.
    set (v := (y + (tile_size - stride + floor_div hp 2))%Z).
    destruct (band_bounds v stride (q - 1)
                (q - 1 + ceil_div (im_height img) stride) Hs) as [B1 B2].
    { unfold v. unfold hp in *. nia. }
    split; nia.
  - intros i Hi Hin. unfold n_rows in Hi. rewrite Hdiv in *. rewrite Hhq in Hi.
    set (v := (y + (tile_size - stride + floor_div hp 2))%Z) in *.
    destruct (band_bounds v stride (q - 1)
                (q - 1 + ceil_div (im_height img) stride) Hs) as [B1 B2].
    { unfold v. unfold hp in *. nia. }
    exists (v / stride - i)%Z. split; [nia|]. split; [lia|].
    intros Hy'.
    assert (Hlast : (ceil_div (im_height img) stride + q - 2 <= v / stride)%Z).
    { apply Z.div_le_lower_bound; [exact Hs|]. unfold v. unfold hp in *. nia. }
    lia.
Qed.

(** A raster of 830 by 1000 pixels whose diagonal is black: its top left
    pixel is found again in the padded image and lies in the first column
    of tiles, and its bottom left pixel lies in a tile row of the grid but
    not in the row of its own stride band, which is never cut. *)
Lemma raster_pixels_covered_witness :
  exists p L T,
    create_padded_png (mkImage 830 1000 Z.eqb) 416 104 = Ok p /\
    im_black p (0 + L) (0 + T) = im_black (mkImage 830 1000 Z.eqb) 0 0 /\
    (0 <= (0 + L) / 104 - 0 < n_cols (im_width p) 416 104)%Z /\
    (0 <= (999 + T) / 104 - 1 < n_rows (im_height p) 416 104)%Z /\
    ~ ((999 + T) / 104 < n_rows (im_height p) 416 104)%Z.
Proof.
  destruct (raster_pixels_covered (mkImage 830 1000 Z.eqb) 416 104
              ltac:(lia) eq_refl) as (p & L & T & Ep & H).
  exists p, L, T. split; [exact Ep|].
  destruct (H 0%Z 0%Z ltac:(simpl; lia) ltac:(simpl; lia)) as (Hb & Hc & _).
  split; [exact Hb|].
  split; [exact (proj1 (Hc 0%Z ltac:(split; [lia|reflexivity])))|].
  destruct (H 0%Z 999%Z ltac:(simpl; lia) ltac:(simpl; lia))
    as (_ & _ & Hr & Hex).
  destruct (Hr 1%Z ltac:(split; [lia|reflexivity])) as [Hr1 Hr2].
  split; [exact Hr1|].
  intros Hlt.
  assert (Hband : ((999 + T) / 104 * 104 <= 999 + T
                   < (999 + T) / 104 * 104 + 416)%Z).
  { pose proof (Z.div_mod (999 + T) 104 ltac:(lia)).
    pose proof (Z.mod_pos_bound (999 + T) 104 ltac:(lia)). lia. }
  destruct (Hex ((999 + T) / 104)%Z ltac:(lia) Hband) as (k & Hk & Ek & Hk1).
  specialize (Hk1 eq_refl). lia.
Defined.

(** ** Numbers in names *)

Lemma digits_acc_uint (d : Decimal.uint) (acc : Z) :
  digits_acc acc (DecimalString.NilEmpty.string_of_uint d)
  = Some (uint_value acc d).
Proof.
  revert acc. induction d; intros acc; cbn [DecimalString.NilEmpty.string_of_uint
    digits_acc uint_value]; try reflexivity;
    match goal with
    | |- context [digit_of ?c] =>
        let v := eval vm_compute in (digit_of c) in
        change (digit_of c) with v
    end; cbv iota; apply IHd.
Qed.

Lemma uint_value_acc (d : Decimal.uint) (acc : positive) :
  uint_value (Z.pos acc) d = Z.pos (Pos.of_uint_acc d acc).
Proof.
  revert acc. induction d; intros acc; cbn [uint_value Pos.of_uint_acc];
    try reflexivity;
    match goal with
    | |- uint_value ?a _ = Z.pos (Pos.of_uint_acc _ ?b) =>
        replace a with (Z.pos b) by lia; apply IHd
    end.
Qed.

Lemma uint_value_of_uint (d : Decimal.uint) :
  uint_value 0 d = Z.of_N (Pos.of_uint d).
Proof.
  induction d; cbn [uint_value Pos.of_uint]; try reflexivity;
    try (change (10 * 0 + 0)%Z with 0%Z; exact IHd);
    match goal with
    | |- uint_value ?a _ = Z.of_N (N.pos (Pos.of_uint_acc _ ?b)) =>
        change a with (Z.pos b); apply uint_value_acc
    end.
Qed.

Lemma rstrip_uint (d : Decimal.uint) :
  rstrip (DecimalString.NilEmpty.string_of_uint d)
  = DecimalString.NilEmpty.string_of_uint d.
Proof.
  induction d; cbn [DecimalString.NilEmpty.string_of_uint rstrip];
    try reflexivity; rewrite IHd;
    destruct (DecimalString.NilEmpty.string_of_uint d); reflexivity.
Qed.

Lemma no_char_uint (c : ascii) (d : Decimal.uint) :
  digit_of c = None ->
  no_char c (DecimalString.NilEmpty.string_of_uint d) = true.
Proof.
  intros Hc.
  induction d; cbn [DecimalString.NilEmpty.string_of_uint no_char];
    try reflexivity; rewrite IHd, andb_true_r;
    match goal with
    | |- negb (Ascii.eqb ?a c) = true =>
        destruct (Ascii.eqb_spec a c) as [E|]; [|reflexivity];
        subst c; vm_compute in Hc; discriminate Hc
    end.
Qed.

(** The text of a non-negative integer: digits only, at least one. *)
Lemma py_str_digits (n : Z) :
  (0 <= n)%Z ->
  exists d, d <> Decimal.Nil /\
            py_str n = DecimalString.NilEmpty.string_of_uint d /\
            uint_value 0 d = n.
Proof.
  intros Hn. unfold py_str. destruct n as [|p|p]; [| |lia].
  - exists (Decimal.D0 Decimal.Nil). split; [discriminate|].
    split; reflexivity.
  - exists (Pos.to_uint p). cbn [Z.to_int DecimalString.NilZero.string_of_int].
    assert (Hnil : Pos.to_uint p <> Decimal.Nil).
    { intros E. pose proof (DecimalPos.Unsigned.of_to p) as H.
      rewrite E in H. discriminate H. }
    split; [exact Hnil|]. split.
    + unfold DecimalString.NilZero.string_of_uint.
      destruct (Pos.to_uint p); [contradiction|reflexivity..].
    + rewrite uint_value_of_uint, DecimalPos.Unsigned.of_to. reflexivity.
Qed.

Lemma py_int_py_str_nonneg (n : Z) : (0 <= n)%Z -> py_int (py_str n) = Ok n.
Proof.
  intros Hn. destruct (py_str_digits n Hn) as (d & Hnil & -> & Hv).
  unfold py_int, strip. rewrite rstrip_uint.
  assert (Hl : lstrip (DecimalString.NilEmpty.string_of_uint d)
               = DecimalString.NilEmpty.string_of_uint d)
    by (destruct d; reflexivity).
  assert (Hsign : take_sign (DecimalString.NilEmpty.string_of_uint d)
                  = (false, DecimalString.NilEmpty.string_of_uint d))
    by (destruct d; reflexivity).
  rewrite Hl, Hsign.
  assert (Hd : digits_value (DecimalString.NilEmpty.string_of_uint d)
               = digits_acc 0 (DecimalString.NilEmpty.string_of_uint d))
    by (destruct d; [contradiction|reflexivity..]).
  rewrite Hd, digits_acc_uint, Hv. reflexivity.
Qed.

(** X7: [int(str(n)) == n] for every integer [n]: the text of an integer,
    such as the row and the column in the name of a tile, is read back as
    the same integer. *)
Theorem py_int_py_str (n : Z) : py_int (py_str n) = Ok n.
Proof.
  destruct (Z.neg_nonneg_cases n) as [Hneg|Hn];
    [|exact (py_int_py_str_nonneg n Hn)].
  destruct n as [|p|p]; [lia|lia|].
  destruct (py_str_digits (Z.pos p) ltac:(lia)) as (d & Hnil & Ed & Hv).
  assert (Es : py_str (Z.neg p)
               = String "-" (DecimalString.NilEmpty.string_of_uint d)).
  { unfold py_str in *. cbn [Z.to_int DecimalString.NilZero.string_of_int] in *.
    rewrite Ed. reflexivity. }
  rewrite Es. unfold py_int, strip.
  assert (Hr : rstrip (String "-" (DecimalString.NilEmpty.string_of_uint d))
               = String "-" (DecimalString.NilEmpty.string_of_uint d)).
  { cbn [rstrip]. rewrite rstrip_uint.
    destruct (DecimalString.NilEmpty.string_of_uint d); reflexivity. }
  rewrite Hr. cbn [lstrip is_space take_sign].
  change (is_space "-") with false. cbv iota. cbn [take_sign].
  assert (Hd : digits_value (DecimalString.NilEmpty.string_of_uint d)
               = digits_acc 0 (DecimalString.NilEmpty.string_of_uint d))
    by (destruct d; [contradiction|reflexivity..]).
  rewrite Hd, digits_acc_uint, Hv. reflexivity.
Qed.

Lemma basename_join (dir name : string) :
  no_char "/" name = true -> basename (dir ++ "/" ++ name) = name.
Proof.
  intros H. unfold basename.
  change (dir ++ "/" ++ name)%string with (dir ++ String "/" name)%string.
  rewrite (py_split_char_last "/" dir name H). apply last_last.
Qed.

(** X8: the parser recovers the offsets of a tile from the name of its label
    file: for a tile saved by [segment_image_for_classification] with the
    stride of the parser, and an image name without dot or slash,
    [classification_file_info] reads the lines of the label file and returns
    [across = tile_left] and [down = tile_top]. *)
Theorem tile_label_offsets (img : Image) (tile_size STRIDE : Z)
  (tiles : list Tile) (fs : FileSystem) (dir image : string) (t : Tile) :
  segment_image_for_classification img tile_size STRIDE = Ok tiles ->
  In t tiles ->
  no_char "." image = true -> no_char "/" image = true ->
  classification_file_info STRIDE fs (tile_label_file dir image t)
  = (lines <- read_lines fs (tile_label_file dir image t) ;;
     Ok (tile_left t, tile_top t, lines)).
Proof.
  intros Hseg Hin Hdot Hslash.
  destruct (segment_inv img tile_size STRIDE tiles Hseg) as (_ & Hsub & _).
  apply (subseq_in _ _ t Hsub) in Hin. apply in_row_major in Hin.
  destruct Hin as (Hi & Hj & Hl & Htop).
  destruct (py_str_digits (tile_i t) ltac:(lia)) as (di & _ & Ei & _).
  destruct (py_str_digits (tile_j t) ltac:(lia)) as (dj & _ & Ej & _).
  assert (Hname : label_name (tile_label_file dir image t) image
                             (py_str (tile_i t)) (py_str (tile_j t))).
  { unfold label_name, tile_label_file. split.
    - apply basename_join. rewrite !no_char_app, Hslash, Ei, Ej.
      rewrite !(no_char_uint "/") by reflexivity. reflexivity.
    - rewrite Ei, Ej. split; [exact Hdot|].
      repeat split; apply no_char_uint; reflexivity. }
  rewrite (classification_file_info_named STRIDE fs _ image _ _
             (tile_i t) (tile_j t) Hname
             (py_int_py_str_nonneg (tile_i t) ltac:(lia))
             (py_int_py_str_nonneg (tile_j t) ltac:(lia))).
  rewrite Hl, Htop. reflexivity.
Qed.

(** The tile in row 0, column 1 of [clear_832] and its label file
    [runs/labels/img_0_1.txt]. *)
Lemma tile_label_offsets_witness :
  segment_image_for_classification clear_832 416 104 = Ok (row_major 4 5 104) /\
  In (mkTile 0 1 104 0) (row_major 4 5 104) /\
  no_char "." "img" = true /\ no_char "/" "img" = true /\
  tile_label_file "runs/labels" "img" (mkTile 0 1 104 0)
  = "runs/labels/img_0_1.txt" /\
  classification_file_info 104 no_files
    (tile_label_file "runs/labels" "img" (mkTile 0 1 104 0))
  = (lines <- read_lines no_files
                (tile_label_file "runs/labels" "img" (mkTile 0 1 104 0)) ;;
     Ok (104%Z, 0%Z, lines)).
Proof.
  assert (E : segment_image_for_classification clear_832 416 104
              = Ok (row_major 4 5 104)).
  { rewrite segment_clear_image; try reflexivity; simpl; lia. }
  assert (Hin : In (mkTile 0 1 104 0) (row_major 4 5 104))
    by (vm_compute; tauto).
  split; [exact E|]. split; [exact Hin|].
  split; [reflexivity|]. split; [reflexivity|]. split; [reflexivity|].
  exact (tile_label_offsets clear_832 416 104 (row_major 4 5 104) no_files
           "runs/labels" "img" (mkTile 0 1 104 0) E Hin eq_refl eq_refl).
Defined.

(** ** Padding offsets *)

(** X9: [get_required_padding] returns the margins that
    [create_padded_png] adds: for a positive stride not larger than the tile
    size and a raster whose size is the one read from
    the metadata, the padded image is larger by the left and right (top and
    bottom) margins, the pixel [(x, y)] of the raster is the pixel
    [(x + left, y + top)] of the padded image, and every pixel outside the
    pasted raster is black. *)
Theorem padding_offsets_agree (img : Image) (metadata : string)
  (tile_size stride : Z) :
  (0 < stride <= tile_size)%Z ->
  metadata_size metadata = Ok (im_width img, im_height img) ->
  exists left right top bottom p,
    get_required_padding metadata tile_size stride
    = Ok (left, right, top, bottom) /\
    create_padded_png img tile_size stride = Ok p /\
    im_width p = (im_width img + left + right)%Z /\
    im_height p = (im_height img + top + bottom)%Z /\
    (forall x y, (0 <= x < im_width img)%Z -> (0 <= y < im_height img)%Z ->
                 im_black p (x + left) (y + top) = im_black img x y) /\
    (forall x y, (x < left \/ left + im_width img <= x \/
                  y < top \/ top + im_height img <= y)%Z ->
                 im_black p x y = true).
Proof.
  intros [Hs _] Hmeta. unfold get_required_padding, create_padded_png.
  rewrite Hmeta. cbn [bind].
  destruct (Z.eqb_spec stride 0); [lia|].
  do 5 eexists. split; [reflexivity|]. split; [reflexivity|].
  unfold add_margin. cbn [im_width im_height im_black].
  split; [lia|]. split; [lia|]. split.
  - intros x y Hx Hy.
    match goal with
    | |- (if ?c then _ else _) = _ => replace c with true
    end.
    + f_equal; lia.
    + symmetry. repeat (apply andb_true_intro; split);
        first [apply Z.leb_le; lia | apply Z.ltb_lt; lia].
  - intros x y Hout.
    match goal with
    | |- (if ?c then _ else _) = _ => destruct c eqn:E
    end; [|reflexivity].
    apply andb_prop in E. destruct E as [E E4].
    apply andb_prop in E. destruct E as [E E3].
    apply andb_prop in E. destruct E as [E1 E2].
    apply Z.leb_le in E1, E3. apply Z.ltb_lt in E2, E4. lia.
Qed.

Lemma strip_space_uint (d : Decimal.uint) :
  d <> Decimal.Nil ->
  strip (String " " (DecimalString.NilEmpty.string_of_uint d))
  = strip (DecimalString.NilEmpty.string_of_uint d).
Proof.
  intros Hd. unfold strip. cbn [rstrip]. rewrite rstrip_uint.
  destruct d; [contradiction|reflexivity..].
Qed.

Lemma py_split_char_free (c : ascii) (s : string) :
  no_char c s = true -> py_split (String c EmptyString) s = [s].
Proof.
  intros H. unfold py_split. rewrite (split_go_char_free c s H). reflexivity.
Qed.

(** X10: the two readers of the size line of [gdal.Info] agree: when the
    third line of the metadata is [Size is <w>, <h>] for non-negative
    integers, [get_required_padding] reads the width [w] and the height
    [h], and [metadata_get_w_h] returns the same pair. *)
Theorem metadata_size_line (metadata : string) (rest : list string) (w h : Z) :
  (0 <= w)%Z -> (0 <= h)%Z ->
  nth_error (py_split LF metadata) 2
  = Some ("Size is " ++ py_str w ++ ", " ++ py_str h)%string ->
  metadata_size metadata = Ok (w, h) /\
  metadata_get_w_h (("Size is " ++ py_str w ++ ", " ++ py_str h)%string :: rest)
  = Ok (Some (w, h)).
Proof.
  intros Hw Hh Hline.
  pose proof (py_int_py_str_nonneg w Hw) as Iw.
  pose proof (py_int_py_str_nonneg h Hh) as Ih.
  destruct (py_str_digits w Hw) as (dw & Nw & Ew & _).
  destruct (py_str_digits h Hh) as (dh & Nh & Eh & _).
  assert (Ih' : py_int (String " " (py_str h)) = Ok h).
  { unfold py_int in *. rewrite Eh in *. rewrite strip_space_uint by exact Nh.
    exact Ih. }
  assert (Cw : forall c, digit_of c = None -> no_char c (py_str w) = true)
    by (intros c Hc; rewrite Ew; apply no_char_uint; exact Hc).
  assert (Ch : forall c, digit_of c = None -> no_char c (py_str h) = true)
    by (intros c Hc; rewrite Eh; apply no_char_uint; exact Hc).
  assert (S1 : py_split "," ("Size is " ++ py_str w ++ ", " ++ py_str h)
               = [("Size is " ++ py_str w)%string; String " " (py_str h)]).
  { replace ("Size is " ++ py_str w ++ ", " ++ py_str h)%string
      with (("Size is " ++ py_str w) ++ String "," (String " " (py_str h)))%string
      by (rewrite string_app_assoc; reflexivity).
    rewrite py_split_char_last.
    - rewrite py_split_char_free; [reflexivity|].
      rewrite no_char_app, Cw by reflexivity. reflexivity.
    - cbn [no_char]. rewrite Ch by reflexivity. reflexivity. }
  assert (S2 : forall tail, no_char " " tail = true ->
               py_split " " ("Size is " ++ tail) = ["Size"; "is"; tail]).
  { intros tail Ht.
    change ("Size is " ++ tail)%string with ("Size is" ++ String " " tail)%string.
    rewrite py_split_char_last by exact Ht. reflexivity. }
  split.
  - unfold metadata_size, py_index. rewrite Hline. cbn [bind].
    rewrite S1. cbn [nth_error bind]. rewrite Ih'. cbn [bind].
    rewrite S2 by (apply Cw; reflexivity).
    cbn [nth_error bind]. rewrite Iw. reflexivity.
  - cbn [metadata_get_w_h].
    change (substring 0 4 ("Size is " ++ py_str w ++ ", " ++ py_str h)) with "Size".
    cbn [String.eqb Ascii.eqb Bool.eqb].
    assert (S3 : py_split " " ("Size is " ++ py_str w ++ ", " ++ py_str h)
                 = ["Size"; "is"; (py_str w ++ ",")%string; py_str h]).
    { replace ("Size is " ++ py_str w ++ ", " ++ py_str h)%string
        with (("Size is " ++ py_str w ++ ",") ++ String " " (py_str h))%string
        by (rewrite !string_app_assoc; reflexivity).
      rewrite py_split_char_last by (apply Ch; reflexivity).
      rewrite S2; [reflexivity|].
      rewrite no_char_app, Cw by reflexivity. reflexivity. }
    rewrite S3. unfold py_index. cbn [nth_error bind].
    replace (py_str w ++ ",")%string with (py_str w ++ String "," EmptyString)%string
      by reflexivity.
    rewrite py_split_char_last by reflexivity.
    rewrite py_split_char_free by (apply Cw; reflexivity).
    cbn [app nth_error bind]. rewrite Iw. cbn [bind]. rewrite Ih. reflexivity.
Qed.

Lemma metadata_size_line_witness :
  (0 <= 830)%Z /\ (0 <= 1000)%Z /\
  nth_error (py_split LF gdal_info_830_1000) 2
  = Some ("Size is " ++ py_str 830 ++ ", " ++ py_str 1000)%string /\
  metadata_size gdal_info_830_1000 = Ok (830, 1000)%Z /\
  metadata_get_w_h (("Size is " ++ py_str 830 ++ ", " ++ py_str 1000)%string :: [])
  = Ok (Some (830, 1000)%Z).
Proof.
  split; [lia|]. split; [lia|]. split; [reflexivity|].
  exact (metadata_size_line gdal_info_830_1000 [] 830 1000
           ltac:(lia) ltac:(lia) eq_refl).
Defined.

Lemma padding_offsets_agree_witness :
  (0 < 104 <= 416)%Z /\
  metadata_size gdal_info_830_1000
  = Ok (im_width (mkImage 830 1000 Z.eqb), im_height (mkImage 830 1000 Z.eqb)) /\
  exists left right top bottom p,
    get_required_padding gdal_info_830_1000 416 104
    = Ok (left, right, top, bottom) /\
    create_padded_png (mkImage 830 1000 Z.eqb) 416 104 = Ok p /\
    im_black p (0 + left) (0 + top) = im_black (mkImage 830 1000 Z.eqb) 0 0.
Proof.
  split; [lia|]. split; [reflexivity|].
  destruct (padding_offsets_agree (mkImage 830 1000 Z.eqb) gdal_info_830_1000
              416 104 ltac:(lia) eq_refl)
    as (l & r & t & b & p & Eg & Ec & _ & _ & Hpix & _).
  exists l, r, t, b, p. split; [exact Eg|]. split; [exact Ec|].
  exact (Hpix 0%Z 0%Z ltac:(simpl; lia) ltac:(simpl; lia)).
Defined.

(** ** Dates and day batches *)

Lemma py_split_char_first (c : ascii) (p rest : string) :
  no_char c p = true ->
  py_split (String c EmptyString) (p ++ String c rest)
  = p :: py_split (String c EmptyString) rest.
Proof.
  intros Hp. unfold py_split.
  induction p as [|a p IH].
  - cbn [append split_go prefix].
    destruct (ascii_dec c c) as [_|N]; [|contradiction].
    cbn [String.length Nat.sub]. rewrite prefix_empty.
    destruct (split_go (String c "") 0 rest) as [q qs]. reflexivity.
  - simpl in Hp. apply andb_prop in Hp. destruct Hp as [Ha Hp].
    cbn [append split_go prefix].
    destruct (ascii_dec c a) as [E|N].
    + subst. rewrite Ascii.eqb_refl in Ha. discriminate.
    + specialize (IH Hp).
      destruct (split_go (String c "") 0 (p ++ String c rest)) as [q qs].
      destruct (split_go (String c "") 0 rest) as [q' qs'].
      inversion IH; subst. reflexivity.
Qed.

(** X11: for a name that starts with four characters for the year, two for
    the month, two for the day and an underscore, [get_date_from_filename]
    returns [day/month/year]; the characters are not checked to be
    digits. *)
Theorem get_date_of_dated_name (year month day rest : string) :
  String.length year = 4%nat -> String.length month = 2%nat ->
  String.length day = 2%nat ->
  no_char "_" (year ++ month ++ day) = true ->
  get_date_from_filename (year ++ month ++ day ++ "_" ++ rest)
  = Some (day ++ "/" ++ month ++ "/" ++ year)%string.
Proof.
  intros Hy Hm Hd Hfree. unfold get_date_from_filename.
  replace (year ++ month ++ day ++ "_" ++ rest)%string
    with ((year ++ month ++ day) ++ String "_" rest)%string
    by (rewrite !string_app_assoc; reflexivity).
  rewrite (py_split_char_first "_" _ rest Hfree). cbn [hd].
  destruct year as [|y1 [|y2 [|y3 [|y4 [|? ?]]]]]; try discriminate Hy.
  destruct month as [|m1 [|m2 [|? ?]]]; try discriminate Hm.
  destruct day as [|d1 [|d2 [|? ?]]]; try discriminate Hd.
  reflexivity.
Qed.

Lemma get_date_of_dated_name_witness :
  String.length "2023" = 4%nat /\ String.length "01" = 2%nat /\
  String.length "15" = 2%nat /\ no_char "_" ("2023" ++ "01" ++ "15") = true /\
  get_date_from_filename ("2023" ++ "01" ++ "15" ++ "_" ++ "3B_Visual_clip.tif")
  = Some ("15" ++ "/" ++ "01" ++ "/" ++ "2023")%string.
Proof.
  split; [reflexivity|]. split; [reflexivity|]. split; [reflexivity|].
  split; [reflexivity|].
  exact (get_date_of_dated_name "2023" "01" "15" "3B_Visual_clip.tif"
           eq_refl eq_refl eq_refl eq_refl).
Defined.

Lemma NoDup_remove_elt {A : Type} (dec : forall x y : A, {x = y} + {x <> y})
  (a : A) (l : list A) :
  NoDup l -> NoDup (remove dec a l).
Proof.
  induction 1 as [|x l Hx _ IH]; simpl; [constructor|].
  destruct (dec a x); [exact IH|].
  constructor; [|exact IH].
  intros Hin. apply in_remove in Hin. tauto.
Qed.

Lemma days_of_NoDup (listing : list string) : NoDup (days_of listing).
Proof. unfold days_of. apply NoDup_remove_elt. apply NoDup_nodup. Qed.

Lemma in_days_of (listing : list string) (d : string) :
  In (Some d) (days_of listing) <->
  exists file, In file listing /\ get_date_from_filename file = Some d.
Proof.
  unfold days_of. split.
  - intros H. apply in_remove in H. destruct H as [H _].
    apply nodup_In, in_map_iff in H. destruct H as (f & E & Hf). eauto.
  - intros (f & Hf & E). apply in_in_remove; [discriminate|].
    apply nodup_In. rewrite <- E. apply in_map. exact Hf.
Qed.

Lemma same_date_refl (a : option string) : same_date a a = true.
Proof. unfold same_date. destruct (option_string_dec a a); congruence. Qed.

Lemma classify_directory_nth (listing : list string) (k : nat) (call : DayCall) :
  nth_error (classify_directory listing) k = Some call ->
  call_i call = k /\
  call_n_days call = List.length (classify_directory listing) /\
  nth_error (daily_data listing) k = Some (call_files call, call_day call).
Proof.
  unfold classify_directory, enumerate. intros H.
  assert (Hlen : List.length
            (map (fun '(i, (files, day)) =>
                    mkDayCall files day i (List.length (days_of listing)))
                 (combine (seq 0 (List.length (daily_data listing)))
                          (daily_data listing)))
          = List.length (days_of listing)).
  { rewrite length_map, length_combine, length_seq, Nat.min_id.
    unfold daily_data. apply length_map. }
  rewrite Hlen. rewrite nth_error_map in H.
  destruct (nth_error (combine (seq 0 (List.length (daily_data listing)))
                               (daily_data listing)) k)
    as [[i [files day]]|] eqn:E; [|discriminate].
  cbn [option_map] in H. inversion H; subst call; clear H. cbn.
  assert (Hk : (k < List.length (daily_data listing))%nat).
  { assert (Hsome : nth_error (combine (seq 0 (List.length (daily_data listing)))
                                       (daily_data listing)) k <> None)
      by (rewrite E; discriminate).
    apply nth_error_Some in Hsome.
    rewrite length_combine, length_seq, Nat.min_id in Hsome. exact Hsome. }
  destruct (nth_error (daily_data listing) k) as [fd|] eqn:Ed.
  2:{ apply nth_error_None in Ed. lia. }
  assert (Es : nth_error (seq 0 (List.length (daily_data listing))) k = Some k).
  { rewrite (nth_error_nth' _ 0%nat) by (rewrite length_seq; exact Hk).
    rewrite seq_nth by exact Hk. reflexivity. }
  rewrite (nth_error_combine _ _ k k fd Es Ed) in E.
  inversion E; subst. auto.
Qed.

(** X12: the calls of [process_day] made by [classify_directory] split the
    dated files by day: the days of the calls are pairwise different, call
    number [k] carries the index [k] and the number of days, its files are
    the files of the directory with the date of its day, in the order of
    the listing and at least one, and every file with a date is among the
    files of the call of its date. *)
Theorem classify_directory_batches (listing : list string) :
  let calls := classify_directory listing in
  NoDup (map call_day calls) /\
  (forall k call,
      nth_error calls k = Some call ->
      call_i call = k /\ call_n_days call = List.length calls /\
      call_files call
      = filter (fun file => same_date (get_date_from_filename file) (call_day call))
               listing /\
      call_files call <> []) /\
  (forall file d,
      In file listing -> get_date_from_filename file = Some d ->
      exists call, In call calls /\ call_day call = Some d /\
                   In file (call_files call)).
Proof.
  cbv zeta.
  assert (Hdays : map call_day (classify_directory listing) = days_of listing).
  { apply (nth_ext _ _ None None).
    - unfold classify_directory, enumerate, daily_data.
      rewrite !length_map, length_combine, length_seq, length_map.
      apply Nat.min_id.
    - intros k Hk. rewrite length_map in Hk.
      destruct (nth_error (classify_directory listing) k) as [call|] eqn:E.
      2:{ apply nth_error_None in E. lia. }
      destruct (classify_directory_nth listing k call E) as (_ & _ & Hd).
      rewrite (nth_error_nth _ _ None (map_nth_error call_day _ _ E)).
      unfold daily_data in Hd. rewrite nth_error_map in Hd.
      destruct (nth_error (days_of listing) k) as [day|] eqn:Ek; [|discriminate].
      cbn in Hd. injection Hd as Hf Hday. rewrite <- Hday.
      symmetry. apply (nth_error_nth _ _ None Ek). }
  split; [rewrite Hdays; apply days_of_NoDup|]. split.
  - intros k call Hk.
    destruct (classify_directory_nth listing k call Hk) as (Hi & Hn & Hd).
    split; [exact Hi|]. split; [exact Hn|].
    unfold daily_data in Hd. rewrite nth_error_map in Hd.
    destruct (nth_error (days_of listing) k) as [day|] eqn:Ek; [|discriminate].
    cbn in Hd. injection Hd as Hf Hday. rewrite <- Hday, <- Hf.
    split; [reflexivity|].
    apply nth_error_In in Ek. destruct day as [d|].
    + apply in_days_of in Ek. destruct Ek as (file & Hfile & Edate).
      intros Hnil.
      assert (Hin : In file (filter
                (fun file => same_date (get_date_from_filename file) (Some d))
                listing)).
      { apply filter_In. split; [exact Hfile|]. rewrite Edate.
        apply same_date_refl. }
      rewrite Hnil in Hin. destruct Hin.
    + unfold days_of in Ek. apply in_remove in Ek. tauto.
  - intros file d Hfile Edate.
    assert (Hd : In (Some d) (days_of listing))
      by (apply in_days_of; eauto).
    rewrite <- Hdays in Hd. apply in_map_iff in Hd.
    destruct Hd as (call & Ecall & Hcall). exists call.
    split; [exact Hcall|]. split; [exact Ecall|].
    apply In_nth_error in Hcall. destruct Hcall as [k Hk].
    destruct (classify_directory_nth listing k call Hk) as (_ & _ & Hdd).
    unfold daily_data in Hdd. rewrite nth_error_map in Hdd.
    destruct (nth_error (days_of listing) k) as [day|]; [|discriminate].
    cbn in Hdd. injection Hdd as Hf Hday. rewrite <- Hf.
    apply filter_In. split; [exact Hfile|].
    rewrite Edate, Hday, Ecall. apply same_date_refl.
Qed.

(** A directory with two rasters of one day and a file without date. *)
Lemma classify_directory_batches_witness :
  In "20230115_a.tif" ["20230115_a.tif"; "notes_2023.txt"; "20230115_b.tif"] /\
  get_date_from_filename "20230115_a.tif" = Some "15/01/2023" /\
  exists call,
    In call (classify_directory
               ["20230115_a.tif"; "notes_2023.txt"; "20230115_b.tif"]) /\
    call_day call = Some "15/01/2023" /\
    In "20230115_a.tif" (call_files call).
Proof.
  assert (Hin : In "20230115_a.tif"
                   ["20230115_a.tif"; "notes_2023.txt"; "20230115_b.tif"])
    by (left; reflexivity).
  split; [exact Hin|]. split; [reflexivity|].
  exact (proj2 (proj2 (classify_directory_batches
                         ["20230115_a.tif"; "notes_2023.txt"; "20230115_b.tif"]))
               "20230115_a.tif" "15/01/2023" Hin eq_refl).
Defined.

(** ** Clusters and condensed rows *)

Lemma select_length {T : Type} (l : list T) (b : T) (r : list T) :
  In (b, r) (select l) -> List.length l = S (List.length r).
Proof.
  revert b r. induction l as [|a l IH]; intros b r Hin; [destruct Hin|].
  simpl in Hin. destruct Hin as [E|Hin].
  - inversion E; subst. reflexivity.
  - apply in_map_iff in Hin. destruct Hin as ([b0 r0] & E & Hin).
    inversion E; subst. simpl. rewrite (IH _ _ Hin). reflexivity.
Qed.

Lemma candidates_length (S : list Cluster) (A B : Cluster) (R : list Cluster) :
  In (A, B, R) (candidates S) -> List.length S = Datatypes.S (Datatypes.S (List.length R)).
Proof.
  revert A B R. induction S as [|X S IH]; intros A B R Hin; [destruct Hin|].
  cbn [candidates] in Hin. apply in_app_or in Hin. destruct Hin as [Hin|Hin].
  - apply in_map_iff in Hin. destruct Hin as ([B0 R0] & E & Hin).
    inversion E; subst. simpl. rewrite (select_length _ _ _ Hin). reflexivity.
  - apply in_map_iff in Hin. destruct Hin as ([[A0 B0] R0] & E & Hin).
    inversion E; subst. simpl. rewrite (IH _ _ _ Hin). reflexivity.
Qed.

(** Agglomeration never adds a cluster and never removes the last one. *)
Lemma agglomerate_length (d : list (list Q)) (t : Q) (fuel : nat) :
  forall S, (List.length (agglomerate fuel d t S) <= List.length S)%nat /\
            (S <> [] -> agglomerate fuel d t S <> []).
Proof.
  induction fuel as [|fuel IH]; intros S; cbn [agglomerate];
    [split; [lia|auto]|].
  destruct (argmin (linkage_distance d) (candidates S)) as [[[A B] R]|] eqn:E;
    [|split; [lia|auto]].
  destruct (Qle_bool (average d A B) t); [|split; [lia|auto]].
  destruct (argmin_spec _ _ _ E) as [Hin _].
  pose proof (candidates_length S A B R Hin) as Hlen.
  destruct (IH ((A ++ B)%list :: R)) as [H1 H2].
  split; [simpl in H1; lia|]. intros _. apply H2. discriminate.
Qed.

Lemma cluster_id_bound (S : list Cluster) (i : nat) :
  In i (List.concat S) ->
  (1 <= cluster_id S i <= Z.of_nat (List.length S))%Z.
Proof.
  induction S as [|C S IH]; intros Hin; [destruct Hin|].
  cbn [cluster_id List.concat] in *.
  destruct (existsb (Nat.eqb i) C) eqn:E.
  - simpl List.length. lia.
  - apply in_app_or in Hin. destruct Hin as [Hin|Hin].
    + apply existsb_eqb_In in Hin. congruence.
    + specialize (IH Hin). simpl List.length. lia.
Qed.

Lemma map_fst_combine {X Y : Type} (l1 : list X) (l2 : list Y) :
  List.length l1 = List.length l2 -> map fst (combine l1 l2) = l1.
Proof.
  revert l2. induction l1 as [|a l1 IH]; intros l2 H; [reflexivity|].
  destruct l2 as [|b l2]; [discriminate|]. simpl. rewrite IH; [reflexivity|].
  simpl in H. lia.
Qed.

Lemma cluster_map_fst {A : Type} (xy : A -> Q * Q) (rows : list A) (cutoff : Q) :
  map fst (cluster xy rows cutoff) = rows.
Proof.
  destruct rows as [|r0 [|r1 rows]]; [reflexivity|reflexivity|].
  unfold cluster, linkage_fcluster. apply map_fst_combine.
  rewrite !length_map, length_seq. reflexivity.
Qed.

(** X13: [cluster] returns the rows it was given, unchanged and in their
    order, each with a cluster number between 1 and the number of rows. *)
Theorem cluster_keeps_rows {A : Type} (xy : A -> Q * Q) (rows : list A)
  (cutoff : Q) :
  map fst (cluster xy rows cutoff) = rows /\
  forall r id, In (r, id) (cluster xy rows cutoff) ->
               (1 <= id <= Z.of_nat (List.length rows))%Z.
Proof.
  split; [apply cluster_map_fst|].
  intros r id Hin.
  apply In_nth_error in Hin. destruct Hin as [i Hi].
  assert (Hlt : (i < List.length rows)%nat).
  { rewrite <- (cluster_map_fst xy rows cutoff), length_map.
    apply nth_error_Some. rewrite Hi. discriminate. }
  pose proof (cluster_of_cluster xy rows cutoff i Hlt) as Hc.
  unfold cluster_of in Hc. rewrite Hi in Hc. cbn in Hc.
  injection Hc as ->. unfold flat_clusters.
  set (n := List.length rows) in *.
  set (F := agglomerate n (pdist (map xy rows)) cutoff
                        (map (fun k => [k]) (seq 0 n))).
  assert (HF : partitions n F)
    by (apply agglomerate_partitions, partitions_singletons).
  assert (Hin : In i (List.concat F)).
  { apply (Permutation_in _ (Permutation_sym HF)). apply in_seq. lia. }
  pose proof (cluster_id_bound F i Hin) as Hb.
  destruct (agglomerate_length (pdist (map xy rows)) cutoff n
              (map (fun k => [k]) (seq 0 n))) as [Hlen _].
  fold F in Hlen. rewrite length_map, length_seq in Hlen. lia.
Qed.

Lemma cluster_keeps_rows_witness :
  In (boat_row boat_a, 1%Z)
     (cluster row_xy [boat_row boat_a; boat_row boat_b] (1 # 2)) /\
  (1 <= 1 <= Z.of_nat (List.length [boat_row boat_a; boat_row boat_b]))%Z.
Proof.
  assert (H : In (boat_row boat_a, 1%Z)
                 (cluster row_xy [boat_row boat_a; boat_row boat_b] (1 # 2)))
    by (vm_compute; left; reflexivity).
  split; [exact H|].
  exact (proj2 (cluster_keeps_rows row_xy [boat_row boat_a; boat_row boat_b]
                  (1 # 2)) _ _ H).
Defined.

Lemma in_insert_unique_by (lt : Z -> Z -> bool) (i x : Z) (l : list Z) :
  In x (insert_unique_by lt i l) -> x = i \/ In x l.
Proof.
  induction l as [|h t IH]; simpl.
  - intros [<-|[]]. left. reflexivity.
  - destruct (Z.eqb i h); [auto|].
    destruct (lt i h).
    + intros [<-|H]; [left; reflexivity|right; exact H].
    + intros [<-|H]; [right; left; reflexivity|].
      destruct (IH H) as [->|H']; [left; reflexivity|right; right; exact H'].
Qed.

Lemma length_insert_unique_by (lt : Z -> Z -> bool) (i : Z) (l : list Z) :
  (1 <= List.length (insert_unique_by lt i l) <= S (List.length l))%nat.
Proof.
  induction l as [|h t IH]; simpl; [lia|].
  destruct (Z.eqb i h); [simpl; lia|].
  destruct (lt i h); simpl; lia.
Qed.

Lemma unique_by_spec (lt : Z -> Z -> bool) (l : list Z) :
  (forall x, In x (fold_right (insert_unique_by lt) [] l) -> In x l) /\
  (List.length (fold_right (insert_unique_by lt) [] l) <= List.length l)%nat /\
  (l <> [] -> fold_right (insert_unique_by lt) [] l <> []).
Proof.
  induction l as [|a l (IH1 & IH2 & IH3)]; [split; [auto|split; [simpl; lia|auto]]|].
  cbn [fold_right].
  pose proof (length_insert_unique_by lt a (fold_right (insert_unique_by lt) [] l)).
  split; [|split].
  - intros x Hx. apply in_insert_unique_by in Hx.
    destruct Hx as [->|Hx]; [left; reflexivity|right; auto].
  - simpl. lia.
  - intros _ E. rewrite E in H. simpl in H. lia.
Qed.

Lemma mapM_total {X Y : Type} (f : X -> result Y) (P : Y -> Prop) (l : list X) :
  (forall a, In a l -> exists b, f a = Ok b /\ P b) ->
  exists bs, mapM f l = Ok bs /\ List.length bs = List.length l /\ Forall P bs.
Proof.
  induction l as [|a l IH]; intros H.
  - exists []. repeat split. constructor.
  - destruct (H a (or_introl eq_refl)) as (b & Eb & Pb).
    destruct IH as (bs & Ebs & Hlen & HP); [intros x Hx; apply H; right; exact Hx|].
    exists (b :: bs). cbn [mapM]. rewrite Eb. cbn [bind]. rewrite Ebs.
    repeat split; [simpl; lia|constructor; assumption].
Qed.

(** A condensed row takes its confidence and its class from members of the
    cluster. *)
Lemma condense_from_members (cl : list Row) :
  cl <> [] ->
  exists d, condense cl = Ok d /\
            (exists r, In r cl /\ row_conf d = row_conf r) /\
            (exists r, In r cl /\ row_class d = row_class r).
Proof.
  intros Hne. unfold condense.
  assert (Hconf : map row_conf cl <> [])
    by (destruct cl; [contradiction|discriminate]).
  assert (Hclass : map row_class cl <> [])
    by (destruct cl; [contradiction|discriminate]).
  destruct (np_max_spec _ Hconf) as (m & Em & Hm & _).
  destruct (stats_mode_spec _ Hclass) as (Hmode & _).
  rewrite Em. cbn [bind]. eexists. split; [reflexivity|].
  cbn [row_conf row_class]. split.
  - apply in_map_iff in Hm. destruct Hm as (r & E & Hr). exists r. auto.
  - apply in_map_iff in Hmode. destruct Hmode as (r & E & Hr). exists r. auto.
Qed.

(** Clustering followed by condensation: one condensed row for each
    distinct cluster number, each made of given rows. *)
Lemma process_clusters_cluster (rows : list Row) (cutoff : Q) :
  exists boats,
    process_clusters (cluster row_xy rows cutoff) = Ok boats /\
    List.length boats
    = List.length (fold_right (insert_unique_by Z.ltb) []
                     (map snd (cluster row_xy rows cutoff))) /\
    forall b, In b boats ->
              (exists r, In r rows /\ row_conf b = row_conf r) /\
              (exists r, In r rows /\ row_class b = row_class r).
Proof.
  set (out := cluster row_xy rows cutoff).
  assert (Hfst : map fst out = rows) by apply cluster_map_fst.
  unfold process_clusters, process_clusters_with.
  destruct (unique_by_spec Z.ltb (map snd out)) as (U1 & _ & _).
  destruct (mapM_total
              (fun i => condense (map fst (filter (fun rc => Z.eqb (snd rc) i) out)))
              (fun b => (exists r, In r rows /\ row_conf b = row_conf r) /\
                        (exists r, In r rows /\ row_class b = row_class r))
              (fold_right (insert_unique_by Z.ltb) [] (map snd out)))
    as (boats & E & Hlen & HP).
  { intros i Hi. apply U1 in Hi. apply in_map_iff in Hi.
    destruct Hi as ([r id] & Eid & Hin). cbn in Eid. subst id.
    set (group := map fst (filter (fun rc => Z.eqb (snd rc) i) out)).
    assert (Hsub : forall x, In x group -> In x rows).
    { intros x Hx. unfold group in Hx. apply in_map_iff in Hx.
      destruct Hx as (rc & <- & Hrc). apply filter_In in Hrc.
      rewrite <- Hfst. apply in_map. tauto. }
    assert (Hne : group <> []).
    { assert (Hg : In r group).
      { unfold group. apply in_map_iff. exists (r, i). split; [reflexivity|].
        apply filter_In. split; [exact Hin|]. apply Z.eqb_refl. }
      intros E. rewrite E in Hg. destruct Hg. }
    destruct (condense_from_members group Hne)
      as (d & Ed & (r1 & H1 & C1) & (r2 & H2 & C2)).
    exists d. split; [exact Ed|]. split; eauto. }
  exists boats. split; [exact E|]. split; [exact Hlen|].
  intros b Hb. rewrite Forall_forall in HP. apply HP. exact Hb.
Qed.

(** X14: clustering followed by condensation raises no exception on any
    array of rows: [process_clusters] applied to the result of [cluster]
    returns at most as many rows as it was given, at least one unless there
    was none, and every row returned carries the confidence of one of the
    given rows and the class of one of the given rows. *)
Theorem cluster_then_condense (rows : list Row) (cutoff : Q) :
  exists boats,
    process_clusters (cluster row_xy rows cutoff) = Ok boats /\
    (List.length boats <= List.length rows)%nat /\
    (rows <> [] -> boats <> []) /\
    forall b, In b boats ->
              (exists r, In r rows /\ row_conf b = row_conf r) /\
              (exists r, In r rows /\ row_class b = row_class r).
Proof.
  destruct (process_clusters_cluster rows cutoff) as (boats & E & Hlen & HP).
  set (out := cluster row_xy rows cutoff) in *.
  assert (Hfst : map fst out = rows) by apply cluster_map_fst.
  destruct (unique_by_spec Z.ltb (map snd out)) as (_ & U2 & U3).
  exists boats. split; [exact E|].
  assert (Hout : List.length out = List.length rows)
    by (rewrite <- Hfst, length_map; reflexivity).
  split; [rewrite Hlen; rewrite length_map in U2; lia|]. split; [|exact HP].
  intros Hne Hb. subst boats. simpl in Hlen.
  apply U3.
  - destruct out; [simpl in Hout; destruct rows; [contradiction|discriminate]|].
    discriminate.
  - destruct (fold_right _ _ _); [reflexivity|discriminate].
Qed.

Lemma cluster_then_condense_witness :
  exists boats,
    process_clusters
      (cluster row_xy [boat_row boat_a; boat_row boat_b] (1 # 2)) = Ok boats /\
    boats <> [].
Proof.
  destruct (cluster_then_condense [boat_row boat_a; boat_row boat_b] (1 # 2))
    as (boats & E & _ & Hne & _).
  exists boats. split; [exact E|]. apply Hne. discriminate.
Defined.

(** ** Cutoff below every distance *)

Lemma select_in {T : Type} (l : list T) (b : T) (r : list T) :
  In (b, r) (select l) -> In b l.
Proof.
  revert b r. induction l as [|a l IH]; intros b r Hin; [destruct Hin|].
  simpl in Hin. destruct Hin as [E|Hin].
  - inversion E; subst. left. reflexivity.
  - apply in_map_iff in Hin. destruct Hin as ([b0 r0] & E & Hin).
    inversion E; subst. right. exact (IH _ _ Hin).
Qed.

Lemma candidates_in (S : list Cluster) (A B : Cluster) (R : list Cluster) :
  In (A, B, R) (candidates S) -> In A S /\ In B S.
Proof.
  revert A B R. induction S as [|X S IH]; intros A B R Hin; [destruct Hin|].
  cbn [candidates] in Hin. apply in_app_or in Hin. destruct Hin as [Hin|Hin].
  - apply in_map_iff in Hin. destruct Hin as ([B0 R0] & E & Hin).
    inversion E; subst. split; [left; reflexivity|].
    right. exact (select_in _ _ _ Hin).
  - apply in_map_iff in Hin. destruct Hin as ([[A0 B0] R0] & E & Hin).
    inversion E; subst. destruct (IH _ _ _ Hin). split; right; assumption.
Qed.

Lemma average_singletons (d : list (list Q)) (i j : nat) :
  average d [i] [j] == condensed d i j.
Proof.
  unfold average. cbn [flat_map map app List.length Nat.mul Nat.add Qsum fold_right].
  change (inject_Z (Z.of_nat 1)) with 1. field.
Qed.

(** When every two observations are further apart than the cutoff, no two
    clusters are merged. *)
Lemma agglomerate_separate (d : list (list Q)) (t : Q) (n fuel : nat) :
  (forall i j, i <> j -> (i < n)%nat -> (j < n)%nat -> t < condensed d i j) ->
  agglomerate fuel d t (map (fun i => [i]) (seq 0 n))
  = map (fun i => [i]) (seq 0 n).
Proof.
  intros Hfar. destruct fuel as [|fuel]; [reflexivity|]. cbn [agglomerate].
  destruct (argmin (linkage_distance d)
              (candidates (map (fun i => [i]) (seq 0 n))))
    as [[[A B] R]|] eqn:E; [|reflexivity].
  destruct (argmin_spec _ _ _ E) as [Hin _].
  destruct (candidates_in _ _ _ _ Hin) as [HA HB].
  apply in_map_iff in HA, HB.
  destruct HA as (i & <- & _). destruct HB as (j & <- & _).
  destruct (candidate_separated n _ _ _ _ (partitions_singletons n) Hin i j
              (or_introl eq_refl) (or_introl eq_refl)) as (Hij & Hi & Hj).
  destruct (Qle_bool (average d [i] [j]) t) eqn:Q; [|reflexivity].
  exfalso. apply Qle_bool_iff in Q. rewrite average_singletons in Q.
  exact (Qlt_not_le _ _ (Hfar i j Hij Hi Hj) Q).
Qed.

Lemma cluster_id_singletons (n a i : nat) :
  (a <= i < a + n)%nat ->
  cluster_id (map (fun k => [k]) (seq a n)) i = (Z.of_nat (i - a) + 1)%Z.
Proof.
  revert a. induction n as [|n IH]; intros a Hi; [lia|].
  cbn [seq map cluster_id existsb].
  destruct (Nat.eqb_spec i a) as [->|Hne]; cbn [orb].
  - rewrite Nat.sub_diag. reflexivity.
  - rewrite IH by lia. replace (i - a)%nat with (S (i - S a)) by lia. lia.
Qed.

Lemma map_snd_combine {X Y : Type} (l1 : list X) (l2 : list Y) :
  List.length l1 = List.length l2 -> map snd (combine l1 l2) = l2.
Proof.
  revert l2. induction l1 as [|a l1 IH]; intros [|b l2] H;
    try reflexivity; try discriminate.
  simpl. rewrite IH; [reflexivity|]. simpl in H. lia.
Qed.

Lemma cluster_far_apart_ids {A : Type} (xy : A -> Q * Q) (rows : list A)
  (cutoff : Q) (dflt : A) :
  (forall i j, (i < j < List.length rows)%nat ->
               cutoff < euclidean (xy (nth i rows dflt)) (xy (nth j rows dflt))) ->
  NoDup (map snd (cluster xy rows cutoff)).
Proof.
  intros Hfar.
  destruct rows as [|r0 [|r1 rows]];
    [constructor|repeat constructor; intros []|].
  set (rs := r0 :: r1 :: rows) in *.
  assert (E : map snd (cluster xy rs cutoff)
              = map (fun i => (Z.of_nat i + 1)%Z) (seq 0 (List.length rs))).
  { unfold cluster, rs. fold rs. unfold linkage_fcluster.
    rewrite map_snd_combine by (rewrite !length_map, length_seq; reflexivity).
    rewrite length_map. rewrite agglomerate_separate.
    - apply map_ext_in. intros i Hi. apply in_seq in Hi.
      rewrite cluster_id_singletons by lia. rewrite Nat.sub_0_r. reflexivity.
    - intros i j Hij Hi Hj.
      rewrite (condensed_pdist (map xy rs) (xy dflt) i j Hij)
        by (rewrite length_map; assumption).
      rewrite !(map_nth xy).
      destruct (Nat.lt_ge_cases i j) as [Hlt|Hge].
      + apply Hfar. lia.
      + rewrite euclidean_sym. apply Hfar. lia. }
  rewrite E. apply Finite.Injective_map_NoDup; [|apply seq_NoDup].
  intros a b H. lia.
Qed.

Lemma length_insert_new (lt : Z -> Z -> bool) (i : Z) (l : list Z) :
  ~ In i l -> List.length (insert_unique_by lt i l) = S (List.length l).
Proof.
  induction l as [|h t IH]; intros Hni; [reflexivity|].
  cbn [insert_unique_by].
  destruct (Z.eqb_spec i h) as [->|Hne]; [exfalso; apply Hni; left; reflexivity|].
  destruct (lt i h); [reflexivity|].
  cbn [List.length]. rewrite IH; [reflexivity|].
  intros H. apply Hni. right. exact H.
Qed.

Lemma unique_by_NoDup (lt : Z -> Z -> bool) (l : list Z) :
  NoDup l ->
  List.length (fold_right (insert_unique_by lt) [] l) = List.length l.
Proof.
  induction 1 as [|a l Hni _ IH]; [reflexivity|].
  cbn [fold_right List.length]. rewrite length_insert_new; [rewrite IH; reflexivity|].
  intros H. apply Hni. exact (proj1 (unique_by_spec lt l) a H).
Qed.

(** X15: a cutoff below every pairwise distance merges nothing: when every
    two rows are further apart than the cutoff, [cluster] gives the rows
    pairwise different cluster numbers, and [process_clusters] returns as
    many rows as were given. *)
Theorem cluster_far_apart (rows : list Row) (cutoff : Q) (dflt : Row) :
  (forall i j, (i < j < List.length rows)%nat ->
               cutoff < euclidean (row_xy (nth i rows dflt))
                                  (row_xy (nth j rows dflt))) ->
  NoDup (map snd (cluster row_xy rows cutoff)) /\
  exists boats,
    process_clusters (cluster row_xy rows cutoff) = Ok boats /\
    List.length boats = List.length rows.
Proof.
  intros Hfar.
  pose proof (cluster_far_apart_ids row_xy rows cutoff dflt Hfar) as Hnd.
  split; [exact Hnd|].
  destruct (process_clusters_cluster rows cutoff) as (boats & E & Hlen & _).
  exists boats. split; [exact E|].
  rewrite Hlen, (unique_by_NoDup Z.ltb _ Hnd), length_map.
  rewrite <- (cluster_map_fst row_xy rows cutoff) at 2.
  rewrite length_map. reflexivity.
Qed.

(** Two rows at distance [sqrt 2], cutoff 1. *)
Lemma cluster_far_apart_witness :
  NoDup (map snd (cluster row_xy [boat_row boat_a; boat_row boat_b] 1)) /\
  exists boats,
    process_clusters (cluster row_xy [boat_row boat_a; boat_row boat_b] 1)
    = Ok boats /\
    List.length boats = 2%nat.
Proof.
  apply (cluster_far_apart [boat_row boat_a; boat_row boat_b] 1 (boat_row boat_a)).
  intros i j H. cbn [List.length] in H.
  assert (Hi : i = 0%nat) by lia. assert (Hj : j = 1%nat) by lia.
  subst i j. vm_compute. reflexivity.
Defined.

(** ** Reading the label files *)

Lemma split_go_first_free (c : ascii) (sep s : string) :
  no_char c s = true -> split_go (String c sep) 0 s = (s, []).
Proof.
  induction s as [|a s IH]; intros H; [reflexivity|].
  cbn [no_char] in H. apply andb_true_iff in H. destruct H as [Hac Hs].
  cbn [split_go prefix].
  destruct (ascii_dec c a) as [->|Hne].
  - rewrite Ascii.eqb_refl in Hac. discriminate.
  - rewrite (IH Hs). reflexivity.
Qed.

Lemma py_split_exp (s : string) :
  no_char "e" s = true -> py_split "exp" ("exp" ++ s) = [EmptyString; s].
Proof.
  intros H. unfold py_split.
  change ("exp" ++ s)%string with (String "e" (String "x" (String "p" s))).
  cbn [split_go]. change (prefix "exp" (String "e" (String "x" (String "p" s))))
    with (prefix EmptyString s).
  rewrite prefix_empty. cbn [String.length Nat.sub split_go].
  rewrite (split_go_first_free "e" "xp" s H). reflexivity.
Qed.

Lemma py_str_plain (k : Z) :
  (0 <= k)%Z -> py_str k <> EmptyString /\ no_char "e" (py_str k) = true.
Proof.
  intros Hk. destruct (py_str_digits k Hk) as (d & Hnil & -> & _). split.
  - destruct d; [contradiction|discriminate..].
  - apply no_char_uint. reflexivity.
Qed.

(** The number of a detection folder is read back from its name. *)
Lemma exp_number_folder (k : Z) :
  (0 <= k)%Z -> exp_number (exp_folder k) = Ok k.
Proof.
  intros Hk. unfold exp_number, exp_folder.
  destruct (Z.eqb_spec k 0) as [->|Hne]; [reflexivity|].
  destruct (py_str_plain k Hk) as [Hnil He].
  assert (Eq : String.eqb ("exp" ++ py_str k) "exp" = false).
  { change ("exp" ++ py_str k)%string
      with (String "e" (String "x" (String "p" (py_str k)))).
    cbn [String.eqb Ascii.eqb Bool.eqb]. destruct (py_str k); [contradiction|reflexivity]. }
  rewrite Eq, (py_split_exp _ He). cbn [py_index nth_error bind].
  apply py_int_py_str_nonneg. exact Hk.
Qed.

Lemma mapM_map_ok {X Y : Type} (f : Y -> result X) (g : X -> Y) (l : list X) :
  (forall k, In k l -> f (g k) = Ok k) -> mapM f (map g l) = Ok l.
Proof.
  induction l as [|a l IH]; intros H; [reflexivity|].
  cbn [map mapM]. rewrite (H a (or_introl eq_refl)). cbn [bind].
  rewrite IH by (intros k Hk; apply H; right; exact Hk). reflexivity.
Qed.

Lemma fold_left_max_spec (l : list Z) (a : Z) :
  In (fold_left Z.max l a) (a :: l) /\
  forall k, In k (a :: l) -> (k <= fold_left Z.max l a)%Z.
Proof.
  revert a. induction l as [|b l IH]; intros a.
  - split; [left; reflexivity|]. intros k [<-|[]]. cbn. lia.
  - cbn [fold_left]. destruct (IH (Z.max a b)) as [Hin Hmax]. split.
    + destruct Hin as [E|Hin]; [|right; right; exact Hin].
      rewrite <- E. destruct (Z.max_spec a b) as [[_ ->]|[_ ->]];
        [right; left|left]; reflexivity.
    + intros k [<-|[<-|Hk]].
      * specialize (Hmax _ (or_introl eq_refl)). lia.
      * specialize (Hmax _ (or_introl eq_refl)). lia.
      * apply Hmax. right. exact Hk.
Qed.

(** X16: the latest detection is the one with the highest number: when the
    entries of [runs/detect] whose name contains [exp] are the folders
    [exp], [exp2], ... of the detections [ks], the label files are read
    from [runs/detect/exp<m>/labels] for the greatest number [m] among
    them, compared as numbers ([exp10] comes after [exp9]). *)
Theorem latest_detection_highest_number (disk : Disk) (yolo_dir : string)
  (names : list string) (ks : list Z) :
  disk_listdir disk (detect_dir yolo_dir) = Some names ->
  filter (contains "exp") names = map exp_folder ks ->
  ks <> [] ->
  (forall k, In k ks -> (0 <= k)%Z) ->
  exists m,
    In m ks /\ (forall k, In k ks -> (k <= m)%Z) /\
    classification_path disk (LatestDetection yolo_dir)
    = Ok (path_join (path_join (detect_dir yolo_dir) (exp_folder m)) "labels",
          Some (if (m =? 0)%Z then EmptyString else py_str m)).
Proof.
  intros Hls Hexp Hne Hpos.
  destruct ks as [|a ks]; [contradiction|].
  destruct (fold_left_max_spec ks a) as [Hin Hmax].
  exists (fold_left Z.max ks a). split; [exact Hin|]. split; [exact Hmax|].
  unfold classification_path, latest_exp, listdir. rewrite Hls. cbn [bind].
  rewrite Hexp.
  rewrite (mapM_map_ok exp_number exp_folder (a :: ks))
    by (intros k Hk; apply exp_number_folder, Hpos, Hk).
  reflexivity.
Qed.

(** The detections [exp], [exp2] and [exp10] beside a file of notes. *)
Lemma latest_detection_highest_number_witness :
  classification_path
    (mkDisk (fun _ => None)
            (fun path => if String.eqb path "yolov5/runs/detect"
                         then Some ["exp"; "exp2"; "notes.txt"; "exp10"]
                         else None))
    (LatestDetection "yolov5")
  = Ok ("yolov5/runs/detect/exp10/labels", Some "10").
Proof.
  destruct (latest_detection_highest_number
              (mkDisk (fun _ => None)
                      (fun path => if String.eqb path "yolov5/runs/detect"
                                   then Some ["exp"; "exp2"; "notes.txt"; "exp10"]
                                   else None))
              "yolov5" ["exp"; "exp2"; "notes.txt"; "exp10"] [0; 2; 10]%Z
              eq_refl eq_refl ltac:(discriminate)
              ltac:(intros k [<-|[<-|[<-|[]]]]; lia))
    as (m & Hin & Hmax & E).
  assert (Hm : m = 10%Z).
  { specialize (Hmax 10%Z ltac:(right; right; left; reflexivity)).
    destruct Hin as [<-|[<-|[<-|[]]]]; lia. }
  subst m. exact E.
Defined.


Lemma contains_split (c : ascii) (sep s : string) :
  contains (String c sep) s = true ->
  snd (split_go (String c sep) 0 s) <> [].
Proof.
  induction s as [|a s IH]; [discriminate|].
  cbn [contains split_go]. intros H.
  destruct (prefix (String c sep) (String a s)).
  - destruct (split_go (String c sep) (String.length (String c sep) - 1) s).
    discriminate.
  - cbn [orb] in H. specialize (IH H).
    destruct (split_go (String c sep) 0 s) as [p ps]. exact IH.
Qed.

(** An entry with [exp] in its name has a text after the first [exp]; the
    conversion of that text is all that can fail. *)
Lemma exp_number_raise (f : string) (e : exn) :
  contains "exp" f = true -> exp_number f = Raise e -> e = ValueError.
Proof.
  intros Hc. unfold exp_number. destruct (String.eqb f "exp"); [discriminate|].
  pose proof (contains_split "e" "xp" f Hc) as Hs. unfold py_split.
  destruct (split_go "exp" 0 f) as [p [|q ps]]; [contradiction|].
  cbn [py_index nth_error bind]. apply py_int_raise.
Qed.

Lemma mapM_raises {X Y : Type} (f : X -> result Y) (l : list X) (a : X) (e : exn) :
  In a l -> f a = Raise e ->
  exists a' e', In a' l /\ f a' = Raise e' /\ mapM f l = Raise e'.
Proof.
  intros Hin Ha. destruct (mapM f l) as [bs|e'] eqn:E.
  - exfalso. apply mapM_inv in E. revert a Hin Ha.
    induction E as [|x b l bs Hx _ IH]; intros a [].
    + subst. congruence.
    + eapply IH; eassumption.
  - destruct (mapM_raise f l e' E) as (a' & Hin' & Ha').
    exists a', e'. auto.
Qed.

(** X17: an entry of [runs/detect] that has [exp] in its name but no number
    after it, such as [export.txt], makes the search for the latest
    detection fail: [read_classifications] raises [ValueError] whatever
    other entries there are.  (The entry has no underscore, which [int]
    would accept between digits.) *)
Theorem latest_detection_bad_name (TILE_SIZE STRIDE : Z) (disk : Disk)
  (yolo_dir : string) (names : list string) (f : string) (e : exn)
  (confidence_threshold : Q) (delete_folder : bool) :
  disk_listdir disk (detect_dir yolo_dir) = Some names ->
  In f names -> contains "exp" f = true -> no_char "_" f = true ->
  exp_number f = Raise e ->
  read_classifications TILE_SIZE STRIDE disk (LatestDetection yolo_dir)
                       confidence_threshold delete_folder
  = Raise ValueError.
Proof.
  intros Hls Hin Hc _ He.
  unfold read_classifications, classification_path, latest_exp, listdir.
  rewrite Hls. cbn [bind].
  assert (Hin' : In f (filter (contains "exp") names))
    by (apply filter_In; split; assumption).
  destruct (mapM_raises exp_number _ f e Hin' He) as (a' & e' & Ha & Ea & ->).
  apply filter_In in Ha. destruct Ha as [_ Hca].
  rewrite (exp_number_raise a' e' Hca Ea). reflexivity.
Qed.

Lemma latest_detection_bad_name_witness :
  read_classifications 416 104
    (mkDisk (fun _ => None)
            (fun path => if String.eqb path "yolov5/runs/detect"
                         then Some ["exp"; "exp2"; "export.txt"]
                         else None))
    (LatestDetection "yolov5") (1 # 2) true
  = Raise ValueError.
Proof.
  apply (latest_detection_bad_name 416 104 _ "yolov5"
           ["exp"; "exp2"; "export.txt"] "export.txt" ValueError);
    [reflexivity|right; right; left; reflexivity|reflexivity|reflexivity
    |reflexivity].
Defined.

(** On parsed rows and a threshold that is a number, a row is kept or is of
    low confidence. *)
Lemma remove_low_confidence_nonempty (rows : list Row) (t : Q) :
  rows <> [] ->
  exists kept low,
    remove_low_confidence row_conf64 (Rows rows) (Finite t) = Ok (kept, low) /\
    (kept <> [] \/ low <> []).
Proof.
  destruct rows as [|r rows]; [contradiction|]. intros _.
  eexists. eexists. split; [reflexivity|].
  cbn [filter row_conf64 float_lt float_ge].
  rewrite Qlt_bool_negb_Qle_bool.
  destruct (Qle_bool t (row_conf r)); [left|right]; discriminate.
Qed.

(** X18: the folder of the latest detection is handed to [remove] exactly
    when deletion was asked for, the label files were looked for in the
    latest detection, and at least one detection was read: a call that
    reads no detection returns two empty arrays and leaves the folder in
    place, and so does every call with a folder of its own. *)
Theorem read_classifications_folder_removed (TILE_SIZE STRIDE : Z)
  (disk : Disk) (source : Source) (confidence_threshold : Q)
  (delete_folder : bool) (kept low : list Row) (removed : option string) :
  read_classifications TILE_SIZE STRIDE disk source confidence_threshold
                       delete_folder
  = Ok (kept, low, removed) ->
  match removed with
  | Some folder =>
      delete_folder = true /\ (kept <> [] \/ low <> []) /\
      exists yolo_dir latest,
        source = LatestDetection yolo_dir /\
        latest_exp disk yolo_dir = Ok latest /\
        folder = path_join (detect_dir yolo_dir) ("exp" ++ latest)
  | None =>
      delete_folder = false \/ (kept = [] /\ low = []) \/
      exists class_folder, source = ClassFolder class_folder
  end.
Proof.
  unfold read_classifications. intros H.
  destruct (classification_path disk source) as [[path latest]|e] eqn:Ep;
    cbn [bind] in H; [|discriminate].
  destruct (listdir disk path) as [names|e]; cbn [bind] in H; [|discriminate].
  destruct (mapM _ _) as [all_cs|e]; cbn [bind] in H; [|discriminate].
  destruct (filter (fun cs => negb (Nat.eqb (List.length cs) 0)) all_cs)
    as [|c cs] eqn:Ef.
  - injection H as <- <- <-. right. left. split; reflexivity.
  - assert (Hne : List.concat (c :: cs) <> []).
    { assert (Hc : In c (filter (fun cs => negb (Nat.eqb (List.length cs) 0)) all_cs))
        by (rewrite Ef; left; reflexivity).
      apply filter_In in Hc. destruct Hc as [_ Hc].
      destruct c; [discriminate|]. discriminate. }
    destruct (remove_low_confidence_nonempty _ confidence_threshold Hne)
      as (k & l & Er & Hrows).
    rewrite Er in H. cbn [bind] in H.
    injection H as <- <- <-.
    destruct source as [class_folder|yolo_dir].
    + right. right. exists class_folder. reflexivity.
    + cbn [classification_path] in Ep.
      destruct (latest_exp disk yolo_dir) as [lt|e] eqn:El; cbn [bind] in Ep;
        [|discriminate].
      injection Ep as <- <-.
      destruct delete_folder.
      * split; [reflexivity|]. split; [exact Hrows|].
        exists yolo_dir, lt. repeat split. exact El.
      * left. reflexivity.
Qed.

(** The second detection of yolo holds one label file with one boat. *)
Lemma read_classifications_folder_removed_witness :
  exists kept low,
    read_classifications 416 104
      (mkDisk (one_file "yolov5/runs/detect/exp2/labels/a_0_1.txt"
                        "0 0.5 0.5 0.1 0.1 0.9")
              (fun path =>
                 if String.eqb path "yolov5/runs/detect"
                 then Some ["exp"; "exp2"]
                 else if String.eqb path "yolov5/runs/detect/exp2/labels"
                 then Some ["a_0_1.txt"; ".DS_Store"]
                 else None))
      (LatestDetection "yolov5") (1 # 2) true
    = Ok (kept, low, Some "yolov5/runs/detect/exp2") /\
    (kept <> [] \/ low <> []).
Proof.
  destruct (read_classifications 416 104
      (mkDisk (one_file "yolov5/runs/detect/exp2/labels/a_0_1.txt"
                        "0 0.5 0.5 0.1 0.1 0.9")
              (fun path =>
                 if String.eqb path "yolov5/runs/detect"
                 then Some ["exp"; "exp2"]
                 else if String.eqb path "yolov5/runs/detect/exp2/labels"
                 then Some ["a_0_1.txt"; ".DS_Store"]
                 else None))
      (LatestDetection "yolov5") (1 # 2) true)
    as [[[kept low] removed]|e] eqn:E; [|vm_compute in E; discriminate].
  pose proof (read_classifications_folder_removed _ _ _ _ _ _ _ _ _ E) as H.
  assert (Hr : removed = Some "yolov5/runs/detect/exp2").
  { vm_compute in E. injection E as _ _ <-. reflexivity. }
  subst removed. exists kept, low. split; [reflexivity|].
  exact (proj1 (proj2 H)).
Defined.

(** ** Corner coordinates *)

Lemma string_length_app (a b : string) :
  String.length (a ++ b) = (String.length a + String.length b)%nat.
Proof. induction a as [|c a IH]; cbn; [reflexivity|rewrite IH; reflexivity]. Qed.

Lemma substring_prefix (c x : string) :
  substring 0 (String.length c) (c ++ x) = c.
Proof.
  induction c as [|a c IH]; cbn; [destruct x; reflexivity|].
  rewrite IH. reflexivity.
Qed.

Lemma drop_last_app (s : string) (c : ascii) :
  drop_last (s ++ String c EmptyString) = s.
Proof.
  induction s as [|a s IH]; [reflexivity|].
  cbn [append drop_last]. rewrite IH.
  destruct s; reflexivity.
Qed.

Lemma py_split_two (c : ascii) (u v : string) :
  no_char c u = true -> no_char c v = true ->
  py_split (String c EmptyString) (u ++ String c v) = [u; v].
Proof.
  intros Hu Hv.
  rewrite (py_split_char_first c u v Hu), (py_split_char_free c v Hv).
  reflexivity.
Qed.

Lemma py_split_comma_space (u v : string) :
  no_char "," u = true -> no_char "," v = true ->
  py_split ", " (u ++ ", " ++ v) = [u; v].
Proof.
  intros Hu Hv. unfold py_split.
  change (u ++ ", " ++ v)%string with (u ++ String "," (String " " v))%string.
  assert (E : split_go ", " 0 (u ++ String "," (String " " v)) = (u, [v])).
  { induction u as [|a u IH].
    - cbn [append split_go String.length Nat.sub].
      change (prefix ", " (String "," (String " " v))) with (prefix EmptyString v).
      rewrite prefix_empty. cbn [split_go].
      rewrite (split_go_first_free "," " " v Hv). reflexivity.
    - cbn [no_char] in Hu. apply andb_true_iff in Hu. destruct Hu as [Ha Hu].
      cbn [append split_go prefix].
      destruct (ascii_dec "," a) as [<-|Hne]; [discriminate|].
      rewrite (IH Hu). reflexivity. }
  rewrite E. reflexivity.
Qed.

Lemma neg_index_last {A : Type} (l : list A) (x : A) :
  neg_index (l ++ [x]) 1 = Ok x.
Proof. unfold neg_index. rewrite rev_app_distr. reflexivity. Qed.

Lemma py_str_no_char (c : ascii) (n : Z) :
  digit_of c = None -> (0 <= n)%Z -> no_char c (py_str n) = true.
Proof.
  intros Hc Hn. destruct (py_str_digits n Hn) as (d & _ & -> & _).
  apply no_char_uint. exact Hc.
Qed.

Ltac no_char_solve :=
  rewrite ?no_char_app; cbn [no_char append Ascii.eqb Bool.eqb negb andb];
  rewrite ?py_str_no_char by (reflexivity || assumption);
  repeat match goal with
         | H : no_char _ _ = true |- _ => rewrite H
         end;
  reflexivity.

(** The pieces into which an angle is cut. *)
Lemma dms_pieces (d m : Z) (s dir : string) :
  (0 <= d)%Z -> (0 <= m)%Z -> seconds_text s = true ->
  In dir ["E"; "W"; "N"; "S"]%string ->
  py_split "d" (dms d m s dir)
  = [py_str d; py_str m ++ "'" ++ s ++ DQUOTE ++ dir]%string /\
  py_split "'" (py_str m ++ "'" ++ s ++ DQUOTE ++ dir)
  = [py_str m; s ++ DQUOTE ++ dir]%string /\
  py_split DQUOTE (dms d m s dir)
  = [py_str d ++ "d" ++ py_str m ++ "'" ++ s; dir]%string /\
  py_split "'" (py_str d ++ "d" ++ py_str m ++ "'" ++ s)
  = [py_str d ++ "d" ++ py_str m; s]%string /\
  no_char "," (dms d m s dir) = true /\
  no_char "(" (dms d m s dir) = true.
Proof.
  intros Hd Hm Hs Hdir. unfold seconds_text in Hs.
  repeat (apply andb_true_iff in Hs; destruct Hs as [Hs ?]).
  unfold dms, DQUOTE.
  assert (Hq : digit_of dquote = None) by reflexivity.
  destruct Hdir as [<-|[<-|[<-|[<-|[]]]]].
  all: repeat split.
  all: try (apply (py_split_two "d"); no_char_solve).
  all: try (apply (py_split_two "'"); no_char_solve).
  all: try no_char_solve.
  all: match goal with
       | |- py_split (String dquote EmptyString) _ = [?front; ?dir] =>
           transitivity (py_split (String dquote EmptyString)
                                  (front ++ String dquote dir));
             [f_equal; rewrite !string_app_assoc; reflexivity
             |apply (py_split_two dquote); no_char_solve]
       | |- py_split "'" _ = [?front; ?s] =>
           transitivity (py_split "'" (front ++ String "'" s));
             [f_equal; rewrite !string_app_assoc; reflexivity
             |apply (py_split_two "'"); no_char_solve]
       end.
Qed.

(** The conversion of a well-formed corner line: both angles come out
    without a sign, whatever the letters of their directions. *)
Lemma corner_of_component_line (corner projected : string)
  (d1 m1 : Z) (s1 dir1 : string) (q1 : Q)
  (d2 m2 : Z) (s2 dir2 : string) (q2 : Q) :
  (0 <= d1)%Z -> (0 <= m1)%Z -> seconds_text s1 = true -> py_float s1 = Ok q1 ->
  (0 <= d2)%Z -> (0 <= m2)%Z -> seconds_text s2 = true -> py_float s2 = Ok q2 ->
  In dir1 ["E"; "W"]%string -> In dir2 ["N"; "S"]%string ->
  corner_of_component
    (corner_line corner projected (dms d1 m1 s1 dir1) (dms d2 m2 s2 dir2))
  = Ok (degrees d1 m1 q1, degrees d2 m2 q2).
Proof.
  intros Hd1 Hm1 Hs1 Hq1 Hd2 Hm2 Hs2 Hq2 Hdir1 Hdir2.
  assert (Hdir1' : In dir1 ["E"; "W"; "N"; "S"]%string)
    by (destruct Hdir1 as [<-|[<-|[]]]; cbn; auto).
  assert (Hdir2' : In dir2 ["E"; "W"; "N"; "S"]%string)
    by (destruct Hdir2 as [<-|[<-|[]]]; cbn; auto).
  destruct (dms_pieces d1 m1 s1 dir1 Hd1 Hm1 Hs1 Hdir1')
    as (A1 & B1 & C1 & D1 & Hc1 & Hp1).
  destruct (dms_pieces d2 m2 s2 dir2 Hd2 Hm2 Hs2 Hdir2')
    as (A2 & B2 & C2 & D2 & Hc2 & Hp2).
  set (L := dms d1 m1 s1 dir1) in *. set (R := dms d2 m2 s2 dir2) in *.
  unfold corner_of_component, corner_line.
  assert (E : (corner ++ projected ++ "(" ++ L ++ ", " ++ R ++ ")"
               = (corner ++ projected) ++ String "(" ((L ++ ", " ++ R) ++ ")"))%string).
  { rewrite !string_app_assoc. reflexivity. }
  rewrite E.
  rewrite (py_split_char_last "(" (corner ++ projected) ((L ++ ", " ++ R) ++ ")"))
    by (rewrite !no_char_app, Hp1, Hp2; reflexivity).
  rewrite neg_index_last. cbn [bind].
  rewrite (drop_last_app (L ++ ", " ++ R) ")").
  rewrite (py_split_comma_space L R Hc1 Hc2). cbn [unpack2 bind].
  rewrite A1, C1, A2, C2. cbn [py_index nth_error bind].
  rewrite B1, D1, B2, D2. cbn [py_index nth_error bind].
  rewrite !py_int_py_str_nonneg by assumption. cbn [bind].
  rewrite Hq1, Hq2. cbn [bind].
  assert (F1 : String.eqb dir1 "S" = false)
    by (destruct Hdir1 as [<-|[<-|[]]]; reflexivity).
  assert (F2 : String.eqb dir2 "W" = false)
    by (destruct Hdir2 as [<-|[<-|[]]]; reflexivity).
  rewrite F1, F2. reflexivity.
Qed.

Lemma corner_line_long (corner projected : string)
  (d1 m1 : Z) (s1 dir1 : string) (d2 m2 : Z) (s2 dir2 : string) :
  (0 <= d1)%Z -> (0 <= d2)%Z -> (10 <= String.length corner)%nat ->
  (20 <? String.length
           (corner_line corner projected (dms d1 m1 s1 dir1) (dms d2 m2 s2 dir2)))%nat
  = true.
Proof.
  intros Hd1 Hd2 Hc. apply Nat.ltb_lt.
  unfold corner_line, dms. rewrite !string_length_app.
  destruct (py_str_plain d1 Hd1) as [N1 _].
  destruct (py_str_plain d2 Hd2) as [N2 _].
  assert (1 <= String.length (py_str d1))%nat
    by (destruct (py_str d1); [contradiction|cbn; lia]).
  assert (1 <= String.length (py_str d2))%nat
    by (destruct (py_str d2); [contradiction|cbn; lia]).
  cbn [String.length DQUOTE]. lia.
Qed.

Lemma get_cartesian_corner_line (corner msg projected : string)
  (rest : list string)
  (d1 m1 : Z) (s1 dir1 : string) (q1 : Q)
  (d2 m2 : Z) (s2 dir2 : string) (q2 : Q) :
  (10 <= String.length corner)%nat ->
  (0 <= d1)%Z -> (0 <= m1)%Z -> seconds_text s1 = true -> py_float s1 = Ok q1 ->
  (0 <= d2)%Z -> (0 <= m2)%Z -> seconds_text s2 = true -> py_float s2 = Ok q2 ->
  In dir1 ["E"; "W"]%string -> In dir2 ["N"; "S"]%string ->
  get_cartesian_corner corner (String.length corner) msg
    (corner_line corner projected (dms d1 m1 s1 dir1) (dms d2 m2 s2 dir2) :: rest)
  = Ok (degrees d1 m1 q1, degrees d2 m2 q2).
Proof.
  intros Hc Hd1 Hm1 Hs1 Hq1 Hd2 Hm2 Hs2 Hq2 Hdir1 Hdir2.
  cbn [get_cartesian_corner].
  rewrite (corner_line_long corner projected d1 m1 s1 dir1 d2 m2 s2 dir2 Hd1 Hd2 Hc).
  unfold corner_line at 1. rewrite substring_prefix, String.eqb_refl.
  cbn [andb]. apply corner_of_component_line; assumption.
Qed.

(** X19: the letters of the hemispheres are tested against the wrong
    angles ([S] for the longitude, [W] for the latitude), so the sign is
    never applied: for a corner line as [gdal.Info] prints it, with a
    longitude east or west and a latitude north or south, the four
    functions return [degrees + minutes / 60 + seconds / 3600] for both
    angles whatever the letters, a western longitude or a southern latitude
    as a positive number. *)
Theorem corner_hemisphere_sign_lost (projected : string) (rest : list string)
  (d1 m1 : Z) (s1 dir1 : string) (q1 : Q)
  (d2 m2 : Z) (s2 dir2 : string) (q2 : Q) :
  (0 <= d1)%Z -> (0 <= m1)%Z -> seconds_text s1 = true -> py_float s1 = Ok q1 ->
  (0 <= d2)%Z -> (0 <= m2)%Z -> seconds_text s2 = true -> py_float s2 = Ok q2 ->
  In dir1 ["E"; "W"]%string -> In dir2 ["N"; "S"]%string ->
  let long := dms d1 m1 s1 dir1 in
  let lat := dms d2 m2 s2 dir2 in
  let value := Ok (degrees d1 m1 q1, degrees d2 m2 q2) in
  get_cartesian_top_left (corner_line "Upper Left" projected long lat :: rest)
  = value /\
  get_cartesian_top_right (corner_line "Upper Right" projected long lat :: rest)
  = value /\
  get_cartesian_bottom_left (corner_line "Lower Left" projected long lat :: rest)
  = value /\
  get_cartesian_bottom_right (corner_line "Lower Right" projected long lat :: rest)
  = value.
Proof.
  intros Hd1 Hm1 Hs1 Hq1 Hd2 Hm2 Hs2 Hq2 Hdir1 Hdir2. cbv zeta.
  unfold get_cartesian_top_left, get_cartesian_top_right,
    get_cartesian_bottom_left, get_cartesian_bottom_right.
  repeat split.
  - apply (get_cartesian_corner_line "Upper Left"); try assumption. cbn. lia.
  - apply (get_cartesian_corner_line "Upper Right"); try assumption. cbn. lia.
  - apply (get_cartesian_corner_line "Lower Left"); try assumption. cbn. lia.
  - apply (get_cartesian_corner_line "Lower Right"); try assumption. cbn. lia.
Qed.

(** The top left corner of a raster of Moreton Bay, 153 degrees east and 27
    degrees south: the latitude returned is positive. *)
Lemma corner_hemisphere_sign_lost_witness :
  get_cartesian_top_left
    [("Upper Left  (  500000.000, 6990000.000) (153d21'30.5" ++ DQUOTE
      ++ "E, 27d12'36.0" ++ DQUOTE ++ "S)")%string]
  = Ok (degrees 153 21 (305 # 10), degrees 27 12 (360 # 10)) /\
  0 < degrees 27 12 (360 # 10).
Proof.
  split; [|reflexivity].
  exact (proj1 (corner_hemisphere_sign_lost
                  "  (  500000.000, 6990000.000) " []
                  153 21 "30.5" "E" (305 # 10) 27 12 "36.0" "S" (360 # 10)
                  ltac:(lia) ltac:(lia) eq_refl eq_refl
                  ltac:(lia) ltac:(lia) eq_refl eq_refl
                  ltac:(left; reflexivity) ltac:(right; left; reflexivity))).
Defined.
